(** * RecipeProjectService: the RAG orchestration layer, embedded in Rocq

    A shallow embedding of [app/client.py], [app/main.py], [app/prompt.py],
    [app/schemas.py] and [app/config.py].

    - Python [str] values are lists of Unicode code points, so that
      [str.strip], [str.split] and [str.rsplit] behave as in CPython.
    - Values decoded by [json.loads] / [response.json()] are the
      dynamically typed [pyval]; attribute and subscript operations on a
      value of the wrong shape raise, as they do in Python.
    - The HTTP collaborators (completion service, retrieval service) are an
      environment [upstream] that answers each request; every client
      method records the request it sends in a trace.
    - A streamed response is the sequence of byte strings that its
      generator yields, each the UTF-8 encoding of the text that [_sse]
      lays out, with the exception that escapes the generator, if any. *)

From Stdlib Require Import String Ascii List ZArith NArith Bool Lia.
From Stdlib Require Import SpecFloat.
Import ListNotations.

(* ================================================================= *)
(** ** Python strings *)

Module PyStr.

Definition codepoint := N.
Definition pystr := list codepoint.

(** Source text is UTF-8; [decode] turns the bytes of a literal into code
    points. *)
Fixpoint utf8_go (pending : nat) (acc : N) (bs : list N) : pystr :=
  match bs with
  | [] => []
  | b :: bs' =>
      match pending with
      | O =>
          if (b <? 128)%N then b :: utf8_go 0 0%N bs'
          else if (b <? 224)%N then utf8_go 1 (N.land b 31) bs'
          else if (b <? 240)%N then utf8_go 2 (N.land b 15) bs'
          else utf8_go 3 (N.land b 7) bs'
      | S O => (acc * 64 + N.land b 63)%N :: utf8_go 0 0%N bs'
      | S p => utf8_go p (acc * 64 + N.land b 63)%N bs'
      end
  end.

Definition decode (s : string) : pystr :=
  utf8_go 0 0%N (map N_of_ascii (list_ascii_of_string s)).

(** [str.isspace] on one code point (CPython's [_PyUnicode_IsWhitespace]). *)
Definition isspace (c : codepoint) : bool :=
  ((9 <=? c) && (c <=? 13) || (28 <=? c) && (c <=? 32)
   || (c =? 133) || (c =? 160) || (c =? 5760)
   || (8192 <=? c) && (c <=? 8202)
   || (c =? 8232) || (c =? 8233) || (c =? 8239) || (c =? 8287)
   || (c =? 12288))%N.

Fixpoint lstrip (s : pystr) : pystr :=
  match s with
  | [] => []
  | c :: s' => if isspace c then lstrip s' else s
  end.

Definition rstrip (s : pystr) : pystr := rev (lstrip (rev s)).

(** [s.strip()] *)
Definition strip (s : pystr) : pystr := rstrip (lstrip s).

Fixpoint eqb (s t : pystr) : bool :=
  match s, t with
  | [], [] => true
  | c :: s', d :: t' => (c =? d)%N && eqb s' t'
  | _, _ => false
  end.

(** [s.startswith(p)] *)
Fixpoint startswith (p s : pystr) : bool :=
  match p, s with
  | [], _ => true
  | c :: p', d :: s' => (c =? d)%N && startswith p' s'
  | _ :: _, [] => false
  end.

(** [s.partition(sep)] when [sep] is found: the text before and after the
    leftmost occurrence. *)
Fixpoint cut (sep s : pystr) : option (pystr * pystr) :=
  if startswith sep s then Some ([], skipn (length sep) s)
  else match s with
       | [] => None
       | c :: s' =>
           match cut sep s' with
           | Some (a, b) => Some (c :: a, b)
           | None => None
           end
       end.


(** [s.split(sep)] for a non-empty [sep]: CPython cuts at the leftmost
    occurrence and resumes the search after it.  Every cut consumes at least
    one code point, so [length s] rounds are enough. *)
Fixpoint split_rounds (n : nat) (sep s : pystr) : list pystr :=
  match n with
  | O => [s]
  | S n' =>
      match cut sep s with
      | None => [s]
      | Some (a, b) => a :: split_rounds n' sep b
      end
  end.

Definition split (sep s : pystr) : list pystr :=
  split_rounds (length s) sep s.

(** The rightmost occurrence, found as CPython's reverse search does. *)
Definition rcut (sep s : pystr) : option (pystr * pystr) :=
  match cut (rev sep) (rev s) with
  | Some (a, b) => Some (rev b, rev a)
  | None => None
  end.

(** [s.rsplit(sep, 1)] *)
Definition rsplit1 (sep s : pystr) : list pystr :=
  match rcut sep s with
  | Some (a, b) => [a; b]
  | None => [s]
  end.

(** [", ".join(parts)] *)
Fixpoint join (sep : pystr) (parts : list pystr) : pystr :=
  match parts with
  | [] => []
  | [p] => p
  | p :: rest => p ++ sep ++ join sep rest
  end.

(** [s.replace(old, new)] for a one-code-point [old]. *)
Definition replace1 (old : codepoint) (new : pystr) (s : pystr) : pystr :=
  flat_map (fun c => if (c =? old)%N then new else [c]) s.

(** [s.lower()] on the ASCII letters; other code points are left as they
    are. *)
Definition lower (s : pystr) : pystr :=
  map (fun c => if ((65 <=? c) && (c <=? 90))%N then (c + 32)%N else c) s.

Arguments decode s%_string.

End PyStr.

Import PyStr.

(** Literals of the source, written [py "..."]. *)
Definition py (s : string) : pystr := decode s.
Arguments py s%_string : simpl never.

(* ================================================================= *)
(** ** Dynamically typed values and exceptions *)

(** Python [float] is IEEE binary64. *)
Definition pyfloat := spec_float.
Definition float_of_Z (z : Z) : pyfloat := binary_normalize 53 1024 z 0 false.
Definition float_div (x y : pyfloat) : pyfloat := SFdiv 53 1024 x y.

(** What [json.loads] produces. A [dict] keeps its items in order; lookup
    takes the first item with the key. *)
#[warnings="-register-all"]
Inductive pyval :=
| PNone
| PBool (b : bool)
| PInt (z : Z)
| PFloat (f : pyfloat)
| PStr (s : pystr)
| PList (l : list pyval)
| PDict (d : list (pystr * pyval)).

(** The exceptions the service raises or meets. [TransportError] stands for
    every [httpx.HTTPError] that is not an [HTTPStatusError]; the last group
    are built-in errors that no [except] clause of the service names. *)
Inductive exn :=
| RuntimeError (msg : pystr)
| HTTPStatusError (status_code : Z) (text reason_phrase : pystr)
| TransportError
| HTTPException (status_code : Z) (detail : pystr)
| AttributeError
| TypeError
| KeyError
| IndexError
| ValueError
| OverflowError
| ValidationError.

(** [isinstance(e, httpx.HTTPError)] *)
Definition is_httpx_error (e : exn) : bool :=
  match e with
  | HTTPStatusError _ _ _ | TransportError => true
  | _ => false
  end.

Inductive outcome (A : Type) :=
| Return (a : A)
| Raise (e : exn).
Arguments Return {A} a.
Arguments Raise {A} e.

Definition obind {A B} (m : outcome A) (k : A -> outcome B) : outcome B :=
  match m with
  | Return a => k a
  | Raise e => Raise e
  end.

Notation "x <~ m ;; k" := (obind m (fun x => k))
  (at level 61, m at next level, right associativity).

(** [bool(v)] *)
Definition is_float_zero (f : pyfloat) : bool :=
  match f with S754_zero _ => true | _ => false end.

Definition truthy (v : pyval) : bool :=
  match v with
  | PNone => false
  | PBool b => b
  | PInt z => negb (z =? 0)%Z
  | PFloat f => negb (is_float_zero f)
  | PStr s => match s with [] => false | _ => true end
  | PList l => match l with [] => false | _ => true end
  | PDict d => match d with [] => false | _ => true end
  end.

(** [a or b] *)
Definition por (a b : pyval) : pyval := if truthy a then a else b.

Fixpoint lookup (k : pystr) (d : list (pystr * pyval)) : option pyval :=
  match d with
  | [] => None
  | (k', v) :: d' => if eqb k k' then Some v else lookup k d'
  end.

(** [v.get(key)]: only a dict has [get]. *)
Definition get (v : pyval) (key : pystr) : outcome pyval :=
  match v with
  | PDict d => Return (match lookup key d with Some x => x | None => PNone end)
  | _ => Raise AttributeError
  end.

(** [v.get(key, default)] *)
Definition get_default (v : pyval) (key : pystr) (default : pyval)
  : outcome pyval :=
  match v with
  | PDict d =>
      Return (match lookup key d with Some x => x | None => default end)
  | _ => Raise AttributeError
  end.

(** [v[0]] *)
Definition index0 (v : pyval) : outcome pyval :=
  match v with
  | PList (x :: _) => Return x
  | PList [] => Raise IndexError
  | PStr (c :: _) => Return (PStr [c])
  | PStr [] => Raise IndexError
  | PDict _ => Raise KeyError
  | _ => Raise TypeError
  end.

(** [v.strip()]: only a str has [strip]. *)
Definition strip_value (v : pyval) : outcome pystr :=
  match v with
  | PStr s => Return (strip s)
  | _ => Raise AttributeError
  end.

(** Decimal digits of a natural number, as [str(n)] prints them. *)
Fixpoint digits_rounds (fuel : nat) (n : N) (acc : pystr) : pystr :=
  match fuel with
  | O => acc
  | S fuel' =>
      let acc' := (48 + n mod 10)%N :: acc in
      if (n <? 10)%N then acc' else digits_rounds fuel' (n / 10)%N acc'
  end.

Definition str_of_N (n : N) : pystr :=
  digits_rounds (S (N.to_nat (N.log2 n))) n [].

Definition str_of_Z (z : Z) : pystr :=
  if (z <? 0)%Z then 45%N :: str_of_N (Z.to_N (- z)) else str_of_N (Z.to_N z).

(** What [json.loads(s)] does: it returns a value, it raises
    [JSONDecodeError], or it raises another exception (on deeply nested data
    [RecursionError], which is a [RuntimeError]). *)
Inductive decoded :=
| Decoded (v : pyval)
| NotJson
| DecodeRaises (e : exn).

(** Behaviour of the Python runtime and of pydantic that the repository
    relies on but does not define. *)
Class Runtime := {
  (** [json.loads(s)] *)
  json_loads : pystr -> decoded;
  (** [float(s)] for a str; [None] when it raises [ValueError] *)
  float_of_str : pystr -> option pyfloat;
  (** [str(v)] for a float, list or dict *)
  str_other : pyval -> pystr;
  (** [f"{x:.3f}"] *)
  format_3f : pyfloat -> pystr;
  (** pydantic's coercion of a value that is neither [None] nor already of
      the field's type, for fields of type str, int and dict; [None] when
      validation fails *)
  coerce_str : pyval -> option pystr;
  coerce_int : pyval -> option Z;
  coerce_dict : pyval -> option (list (pystr * pyval))
}.

(** [bytes] *)
Definition bytes := list N.

(** A surrogate code point: UTF-8 has no encoding for it. *)
Definition is_surrogate (c : codepoint) : bool :=
  (55296 <=? c)%N && (c <=? 57343)%N.

Definition utf8_char (c : codepoint) : bytes :=
  if (c <? 128)%N then [c]
  else if (c <? 2048)%N then [(192 + c / 64)%N; (128 + c mod 64)%N]
  else if (c <? 65536)%N
  then [(224 + c / 4096)%N; (128 + (c / 64) mod 64)%N; (128 + c mod 64)%N]
  else [(240 + c / 262144)%N; (128 + (c / 4096) mod 64)%N;
        (128 + (c / 64) mod 64)%N; (128 + c mod 64)%N].

Definition utf8 (s : pystr) : bytes := flat_map utf8_char s.

Definition encodable (s : pystr) : bool :=
  forallb (fun c => negb (is_surrogate c)) s.

(** [s.encode("utf-8")]: it raises [UnicodeEncodeError], a [ValueError],
    when [s] holds a surrogate. *)
Definition encode (s : pystr) : outcome bytes :=
  if encodable s then Return (utf8 s) else Raise ValueError.

Section Json.
Context `{Runtime}.

Definition hex_digit (n : N) : codepoint :=
  if (n <? 10)%N then (48 + n)%N else (87 + n)%N.

(** One character of a str inside [json.dumps(..., ensure_ascii=False)]:
    the quote, the backslash and the control characters are escaped. *)
Definition json_escape (c : codepoint) : pystr :=
  if (c =? 34)%N then [92; 34]%N
  else if (c =? 92)%N then [92; 92]%N
  else if (c =? 10)%N then [92; 110]%N
  else if (c =? 13)%N then [92; 114]%N
  else if (c =? 9)%N then [92; 116]%N
  else if (c =? 8)%N then [92; 98]%N
  else if (c =? 12)%N then [92; 102]%N
  else if (c <? 32)%N
  then [92; 117; 48; 48; hex_digit (c / 16); hex_digit (c mod 16)]%N
  else [c].

Definition json_str (s : pystr) : pystr :=
  [34%N] ++ flat_map json_escape s ++ [34%N].

Definition json_float (f : pyfloat) : pystr :=
  match f with
  | S754_nan => py "NaN"
  | S754_infinity false => py "Infinity"
  | S754_infinity true => py "-Infinity"
  | _ => str_other (PFloat f)
  end.

(** [json.dumps(v, ensure_ascii=False)] *)
Fixpoint json_dumps (v : pyval) : pystr :=
  match v with
  | PNone => py "null"
  | PBool true => py "true"
  | PBool false => py "false"
  | PInt z => str_of_Z z
  | PFloat f => json_float f
  | PStr s => json_str s
  | PList l => py "[" ++ join (py ", ") (map json_dumps l) ++ py "]"
  | PDict d =>
      py "{"
      ++ join (py ", ")
           (map (fun kv : pystr * pyval => let (k, x) := kv in
                           json_str k ++ py ": " ++ json_dumps x) d)
      ++ py "}"
  end.

End Json.

(* ================================================================= *)
(** ** app/config.py *)

Module ModelConfig.
Record t := {
  model_name : pystr;
  temperature : pyfloat;
  top_p : pyfloat;
  max_tokens : Z;
  stream : bool
}.
End ModelConfig.

Module RetrievalConfig.
Record t := {
  url : pystr;
  timeout : pyfloat;
  top_k : Z;
  use_rerank : bool;
  rerank_mode : pystr;
  rerank_top_k : option Z
}.
End RetrievalConfig.

Module RewriterConfig.
Record t := {
  enabled : bool;
  model_name : pystr;
  temperature : pyfloat;
  top_p : pyfloat;
  max_tokens : Z
}.
End RewriterConfig.

Module Settings.
Record t := {
  api_key : pystr;
  base_url : pystr;
  timeout : pyfloat;
  model : ModelConfig.t;
  retrieval : RetrievalConfig.t;
  rewriter : RewriterConfig.t
}.

(** [Settings.require_api_key] *)
Definition require_api_key (self : t) : outcome pystr :=
  match api_key self with
  | [] => Raise (RuntimeError
      (py "SILICONFLOW_API_KEY is not set. Export it before starting the service."))
  | k => Return k
  end.

(** The [Field] constraints of the four models, and the [strip_api_key]
    validator. *)
Definition in_1_50 (o : option Z) : Prop :=
  match o with Some k => (1 <= k <= 50)%Z | None => True end.

Definition valid (self : t) : Prop :=
  (1 <= RetrievalConfig.top_k (retrieval self) <= 50)%Z
  /\ in_1_50 (RetrievalConfig.rerank_top_k (retrieval self))
  /\ (RetrievalConfig.rerank_mode (retrieval self) = py "cross"
      \/ RetrievalConfig.rerank_mode (retrieval self) = py "bi")
  /\ (0 < ModelConfig.max_tokens (model self))%Z
  /\ (0 < RewriterConfig.max_tokens (rewriter self))%Z
  /\ strip (api_key self) = api_key self.
End Settings.

Definition decimal (num den : Z) : pyfloat :=
  float_div (float_of_Z num) (float_of_Z den).

Definition DEFAULT_SILICONFLOW_API_KEY :=
  py "sk-wjrtizmtakyahakiovtuqynxrvzaafpcbrxddfdlutaglfhj".
Definition DEFAULT_SILICONFLOW_BASE_URL :=
  py "https://api.siliconflow.cn/v1/chat/completions".
Definition DEFAULT_SILICONFLOW_TIMEOUT := float_of_Z 30.
Definition DEFAULT_MODEL_NAME := py "Qwen/Qwen2.5-7B-Instruct".
Definition DEFAULT_TEMPERATURE := decimal 7 10.
Definition DEFAULT_TOP_P := decimal 9 10.
Definition DEFAULT_MAX_TOKENS := 1024%Z.
Definition DEFAULT_STREAM := false.
Definition DEFAULT_RAG_URL := py "http://localhost:8000/search/docs".
Definition DEFAULT_RAG_TIMEOUT := float_of_Z 15.
Definition DEFAULT_RAG_TOP_K := 5%Z.
Definition DEFAULT_RAG_USE_RERANK := true.
Definition DEFAULT_RAG_RERANK_MODE := py "cross".
Definition DEFAULT_RAG_RERANK_TOP_K : option Z := None.
Definition DEFAULT_REWRITER_ENABLED := true.
Definition DEFAULT_REWRITER_MODEL_NAME := py "Qwen/Qwen2.5-7B-Instruct".
Definition DEFAULT_REWRITER_TEMPERATURE := decimal 1 10.
Definition DEFAULT_REWRITER_TOP_P := decimal 9 10.
Definition DEFAULT_REWRITER_MAX_TOKENS := 128%Z.

(** [get_settings()]: every field at its default. *)
Definition get_settings : Settings.t :=
  {| Settings.api_key := strip DEFAULT_SILICONFLOW_API_KEY;
     Settings.base_url := DEFAULT_SILICONFLOW_BASE_URL;
     Settings.timeout := DEFAULT_SILICONFLOW_TIMEOUT;
     Settings.model :=
       {| ModelConfig.model_name := DEFAULT_MODEL_NAME;
          ModelConfig.temperature := DEFAULT_TEMPERATURE;
          ModelConfig.top_p := DEFAULT_TOP_P;
          ModelConfig.max_tokens := DEFAULT_MAX_TOKENS;
          ModelConfig.stream := DEFAULT_STREAM |};
     Settings.retrieval :=
       {| RetrievalConfig.url := DEFAULT_RAG_URL;
          RetrievalConfig.timeout := DEFAULT_RAG_TIMEOUT;
          RetrievalConfig.top_k := DEFAULT_RAG_TOP_K;
          RetrievalConfig.use_rerank := DEFAULT_RAG_USE_RERANK;
          RetrievalConfig.rerank_mode := DEFAULT_RAG_RERANK_MODE;
          RetrievalConfig.rerank_top_k := DEFAULT_RAG_RERANK_TOP_K |};
     Settings.rewriter :=
       {| RewriterConfig.enabled := DEFAULT_REWRITER_ENABLED;
          RewriterConfig.model_name := DEFAULT_REWRITER_MODEL_NAME;
          RewriterConfig.temperature := DEFAULT_REWRITER_TEMPERATURE;
          RewriterConfig.top_p := DEFAULT_REWRITER_TOP_P;
          RewriterConfig.max_tokens := DEFAULT_REWRITER_MAX_TOKENS |} |}.

(* ================================================================= *)
(** ** app/schemas.py *)

Module RetrievedDocument.
Record t := {
  id : option pystr;
  title : option pystr;
  content : pystr;
  score : option pyfloat;
  chunk_id : option pystr;
  chunk_type : option pystr;
  origin_id : option pystr;
  source_text : option pystr;
  source : option (list (pystr * pyval))
}.

Definition opt_str (o : option pystr) : pyval :=
  match o with Some s => PStr s | None => PNone end.

(** [doc.dict()] *)
Definition dict (d : t) : pyval :=
  PDict [ (py "id", opt_str (id d));
          (py "title", opt_str (title d));
          (py "content", PStr (content d));
          (py "score", match score d with Some f => PFloat f | None => PNone end);
          (py "chunk_id", opt_str (chunk_id d));
          (py "chunk_type", opt_str (chunk_type d));
          (py "origin_id", opt_str (origin_id d));
          (py "source_text", opt_str (source_text d));
          (py "source", match source d with Some s => PDict s | None => PNone end) ].
End RetrievedDocument.

Module ChatRequest.
Record t := {
  query : pystr;
  top_k : option Z;
  stream : bool;
  use_rerank : option bool;
  rerank_mode : option pystr;
  rerank_top_k : option Z
}.

(** What pydantic has checked before the handler runs. *)
Definition valid (r : t) : Prop :=
  (1 <= length (query r))%nat
  /\ Settings.in_1_50 (top_k r)
  /\ (rerank_mode r = None \/ rerank_mode r = Some (py "cross")
      \/ rerank_mode r = Some (py "bi"))
  /\ Settings.in_1_50 (rerank_top_k r).
End ChatRequest.

Module Usage.
Record t := {
  prompt_tokens : option Z;
  completion_tokens : option Z;
  total_tokens : option Z
}.
End Usage.

Module ChatResponse.
Record t := {
  answer : pystr;
  model : pystr;
  usage : option Usage.t;
  raw_response : option pyval;
  documents : list RetrievedDocument.t
}.
End ChatResponse.

(* ================================================================= *)
(** ** app/prompt.py *)

Definition SYSTEM_PROMPT : pystr := py
"你是一名温暖又专业的烹饪顾问，既要保持亲切、口语化的语气，也要严谨引用检索文档中的事实。
若文档没有提供足够信息或与问题无关，必须坦诚回复“我不知道”，禁止根据无关检索文档编造内容。
在回答中适当加入烹饪小贴士或温馨提示，帮助用户更好地理解和应用烹饪知识。".

(** [USER_PROMPT_TEMPLATE], cut at its two fields [{query}] and
    [{context}]. *)
Definition USER_PROMPT_HEAD : pystr := py
"请仅依据下方检索文档回答用户问题，不要添加额外臆测。

【问题】
".

Definition USER_PROMPT_MIDDLE : pystr := py
"

【检索文档】
".

Definition USER_PROMPT_TAIL : pystr := py
"

回答要求：
1. 先理解用户需求，再用自然、友好的语气组织回答，适当加入烹饪小贴士或温馨提示。
2. 整合多个文档的关键信息后再作答，必要时概括，不照搬原文。
3. 引用文档时在句末附上（Doc-编号或标题），保持中文回答。
4. 如果文档列表为空、内容不足或与问题无关，请直接回复“我不知道”。
5. 如果文档中没有提及用户问的具体内容，避免编造，直接说明“文档中未提及该内容”。

强调：如果提供的文档中没有严格出现答案内容，禁止凭空编造信息，请务必回复“我不知道”。
".

Definition USER_PROMPT_TEMPLATE (query context : pystr) : pystr :=
  USER_PROMPT_HEAD ++ query ++ USER_PROMPT_MIDDLE ++ context ++ USER_PROMPT_TAIL.

Definition QUERY_REWRITER_SYSTEM_PROMPT : pystr := py
"### 核心目标
将用户查询改写为 **更适合食谱推荐知识库检索** 的表述，确保检索关键词明确、语义无歧义，同时严格区分普通改写与特殊规则的适用场景。

#### 改写规则（优先级：特殊规则 > 普通规则）
##### 一、普通规则（默认适用，未触发特殊规则时）
1. 语言适配：若用户输入为英文，先翻译成中文，再进行改写；
2. 核心意图坚守：**100%保留用户原始意图（包括属性的正负性，如“不健康”不能改为“健康”）**，不增删、不反转用户需求；
3. 检索优化：补充与食谱相关的具体属性（如食材、烹饪方式、口味、热量类型等），使查询更贴合知识库检索逻辑（例：“我喜欢清淡的” → “我喜欢清淡口味的蔬菜类食谱”）；
4. 表述规范：去除口语化冗余，使用简洁、明确的检索式语言（例：“想做简单的菜” → “简单易做的家常菜食谱”）。

##### 二、特殊规则（仅当满足以下“触发条件”时适用）
1. 触发条件（必须同时满足）：
   - 用户查询中包含 **明确的否定词**（如“不喜欢”“不要”“避免”“排斥”“不吃”）；
   - 否定词后跟随 **具体的可替换对象**（如食材、口味、烹饪方式等，例：“不喜欢蘑菇”“不要辣的”“避免油炸”）。
2. 改写逻辑：
   - 提取否定的核心对象（如“蘑菇”“辣的”“油炸”）；
   - 替换为该对象的 **同类反义词或替代项**（需与食谱场景相关，例：“蘑菇”→“白菜”“辣的”→“清淡的”“油炸”→“清蒸”）；
   - 改写为“正面喜欢”的表述，**禁止出现任何否定词**（例：“不喜欢吃蘑菇”→“我喜欢吃白菜”）；
   - 随机补充检索属性（如“食谱”“做法”），提升检索适配性（例：“不要辣的”→“我喜欢酸的”）。

#### 注意事项
1. 特殊规则的“触发条件”需严格判定：仅“否定词+具体对象”的组合才触发，无否定词的查询（即使属性是负面的，如“喜欢不健康的”“想吃重口的”）均按普通规则处理，不得反转属性；
2. 特殊规则改写时，替换的“同类替代项”需合理（与原否定对象属于同一类别，例：食材→食材、口味→口味、烹饪方式→烹饪方式），避免跨类别替换（例：“不喜欢吃鱼”→ 不可改为“喜欢吃面条”，可改为“喜欢吃鸡肉”）；
3. 所有改写后的查询必须围绕“食谱推荐”场景，不偏离食材、烹饪、饮食需求相关范畴。

改写格式：
</think>your reasoning here</think>
<rewrite>your rewritten query here</rewrite>
".

(** [QUERY_REWRITER_USER_PROMPT], cut at its field [{query}]. *)
Definition QUERY_REWRITER_USER_HEAD : pystr := py
"用户原始问题：".

Definition QUERY_REWRITER_USER_TAIL : pystr := py
"
注意：
1. 如果用户问题不符合食谱推荐的场景，那么忽视改写规则，不做任何改写，直接输出用户的原始输入。
2. 你必须尊重用户的原始意图。".

Definition QUERY_REWRITER_USER_PROMPT (query : pystr) : pystr :=
  QUERY_REWRITER_USER_HEAD ++ query ++ QUERY_REWRITER_USER_TAIL.

Definition EMPTY_CONTEXT : pystr := py
"（未提供检索文档，请回复“我不知道”。）".

(** [doc.title or doc.id or f"Doc-{rank}"] *)
Definition nonempty (o : option pystr) : option pystr :=
  match o with
  | Some (c :: s) => Some (c :: s)
  | _ => None
  end.

Section Prompt.
Context `{Runtime}.

(** [_format_document] *)
Definition _format_document (doc : RetrievedDocument.t) (rank : N) : pystr :=
  let label :=
    match nonempty (RetrievedDocument.title doc) with
    | Some t => t
    | None =>
        match nonempty (RetrievedDocument.id doc) with
        | Some i => i
        | None => py "Doc-" ++ str_of_N rank
        end
    end in
  let header_parts :=
    (py "[" ++ str_of_N rank ++ py "] " ++ label)
    :: match RetrievedDocument.score doc with
       | Some f => [py "score=" ++ format_3f f]
       | None => []
       end in
  let header :=
    if (1 <? length header_parts)%nat
    then py " (" ++ join (py ", ") (tl header_parts) ++ py ")"
    else [] in
  let snippet :=
    replace1 10%N (py " ") (strip (RetrievedDocument.content doc)) in
  hd [] header_parts ++ header ++ [10%N] ++ snippet.

(** [enumerate(documents, start=rank)] mapped through [_format_document] *)
Fixpoint format_documents (rank : N) (documents : list RetrievedDocument.t)
  : list pystr :=
  match documents with
  | [] => []
  | doc :: rest => _format_document doc rank :: format_documents (rank + 1) rest
  end.

Definition message (role content : pystr) : pyval :=
  PDict [ (py "role", PStr role); (py "content", PStr content) ].

(** [build_messages] *)
Definition build_messages (query : pystr)
    (documents : list RetrievedDocument.t) : pyval :=
  let context := join [10; 10]%N (format_documents 1 documents) in
  let context := match context with [] => EMPTY_CONTEXT | _ => context end in
  let user_prompt := USER_PROMPT_TEMPLATE (strip query) context in
  PList [ message (py "system") SYSTEM_PROMPT;
          message (py "user") user_prompt ].

(** [build_rewriter_messages] *)
Definition build_rewriter_messages (query : pystr) : pyval :=
  PList [ message (py "system") QUERY_REWRITER_SYSTEM_PROMPT;
          message (py "user") (QUERY_REWRITER_USER_PROMPT (strip query)) ].

End Prompt.

(* ================================================================= *)
(** ** The HTTP collaborators *)

(** What one [client.post] meets. *)
Inductive http_reply :=
| HttpJson (body : pyval)          (* 2xx, body decoded by [response.json()] *)
| HttpNotJson                      (* 2xx, [response.json()] raises *)
| HttpStatus (status_code : Z) (text reason_phrase : pystr)
                                   (* [raise_for_status()] raises *)
| HttpFailed.                      (* the request fails in transport: an
                                      [httpx.HTTPError] without a status *)

(** What one [client.stream] meets: the lines of the body, and whether the
    connection breaks after them; an error status, with a body that
    [stream_chat] does not read; or a failure in transport. *)
Inductive stream_reply :=
| StreamLines (lines : list pystr) (broken : bool)
| StreamStatus (status_code : Z) (text reason_phrase : pystr)
| StreamFailed.

Record upstream := {
  completion : pyval -> http_reply;
  completion_stream : pyval -> stream_reply;
  retrieval_service : pystr -> pyval -> http_reply
}.

(** The client method that sends a request. *)
Inductive sender := ByChat | ByRewriteQuery | ByStreamChat | ByRetrieve.

Record call := {
  call_sender : sender;
  call_url : pystr;
  call_headers : list (pystr * pystr);
  call_json : pyval
}.

(** The first three senders post to [base_url], the completion service. *)
Definition to_completion_service (c : call) : bool :=
  match call_sender c with
  | ByChat | ByRewriteQuery | ByStreamChat => true
  | ByRetrieve => false
  end.

(** The requests that ask the completion service for the answer. *)
Definition is_generation_call (c : call) : bool :=
  match call_sender c with
  | ByChat | ByStreamChat => true
  | _ => false
  end.

(** A computation that sends requests: the requests sent, in order, and how
    it ends. *)
Definition io (A : Type) : Type := (list call * outcome A)%type.

Definition pure {A} (m : outcome A) : io A := ([], m).

Definition ibind {A B} (m : io A) (k : A -> io B) : io B :=
  match m with
  | (t, Return a) => let (t', r) := k a in (t ++ t', r)
  | (t, Raise e) => (t, Raise e)
  end.

Notation "x <- m ;; k" := (ibind m (fun x => k))
  (at level 61, m at next level, right associativity).

(** [try: m  except <handled>: h] *)
Definition try_except {A} (m : io A) (h : exn -> option (io A)) : io A :=
  match m with
  | (t, Raise e) =>
      match h e with
      | Some (t', r) => (t ++ t', r)
      | None => (t, Raise e)
      end
  | _ => m
  end.

Definition json_headers (key : pystr) : list (pystr * pystr) :=
  [ (py "Authorization", py "Bearer " ++ key);
    (py "Content-Type", py "application/json") ].

(** [client.post(url, headers=..., json=payload)], [raise_for_status()],
    [response.json()] *)
Definition post (by_ : sender) (url : pystr) (headers : list (pystr * pystr))
    (payload : pyval) (reply : http_reply) : io pyval :=
  ([ {| call_sender := by_; call_url := url;
        call_headers := headers; call_json := payload |} ],
   match reply with
   | HttpJson body => Return body
   | HttpNotJson => Raise ValueError
   | HttpStatus c t r => Raise (HTTPStatusError c t r)
   | HttpFailed => Raise TransportError
   end).

(* ================================================================= *)
(** ** app/client.py *)

Definition REWRITE_OPEN : pystr := py "<rewrite>".
Definition REWRITE_CLOSE : pystr := py "</rewrite>".

(** [content.split("<rewrite>")[-1].rsplit("</rewrite>", 1)[0].strip()] *)
Definition extract_rewrite (content : pystr) : pystr :=
  strip (hd [] (rsplit1 REWRITE_CLOSE (last (split REWRITE_OPEN content) []))).

(** [_maybe_str] *)
Definition _maybe_str `{Runtime} (value : pyval) : option pystr :=
  match value with
  | PNone => None
  | PStr s => Some s
  | PInt z => Some (str_of_Z z)
  | PBool b => Some (if b then py "True" else py "False")
  | v => Some (str_other v)
  end.

(** [float(z)] for an int: [OverflowError] when [z] is out of range. *)
Definition float_of_int (z : Z) : outcome pyfloat :=
  match float_of_Z z with
  | S754_infinity _ => Raise OverflowError
  | f => Return f
  end.

(** [_maybe_float]: [TypeError] and [ValueError] give [None]. *)
Definition _maybe_float `{Runtime} (value : pyval) : outcome (option pyfloat) :=
  match value with
  | PNone => Return None
  | PBool b => Return (Some (float_of_Z (if b then 1 else 0)))
  | PInt z => f <~ float_of_int z ;; Return (Some f)
  | PFloat f => Return (Some f)
  | PStr s => Return (float_of_str s)
  | PList _ | PDict _ => Return None
  end.

(** [bool(x)] for an [Optional[float]] *)
Definition truthy_float (o : option pyfloat) : bool :=
  match o with
  | Some f => negb (is_float_zero f)
  | None => false
  end.

(** [bool(x)] for an [Optional[int]] *)
Definition truthy_int (o : option Z) : bool :=
  match o with
  | Some z => negb (z =? 0)%Z
  | None => false
  end.

(** [for item in v] *)
Definition iterate (v : pyval) : outcome (list pyval) :=
  match v with
  | PList l => Return l
  | PStr s => Return (map (fun c => PStr [c]) s)
  | PDict d => Return (map (fun kv => PStr (fst kv)) d)
  | _ => Raise TypeError
  end.

Section Clients.
Context `{Runtime}.
Variable self : Settings.t.
Variable up : upstream.

(** The JSON body of a chat completion request. *)
Definition chat_payload (messages : pyval) (stream_flag : bool) : pyval :=
  PDict [ (py "model", PStr (ModelConfig.model_name (Settings.model self)));
          (py "messages", messages);
          (py "temperature", PFloat (ModelConfig.temperature (Settings.model self)));
          (py "top_p", PFloat (ModelConfig.top_p (Settings.model self)));
          (py "max_tokens", PInt (ModelConfig.max_tokens (Settings.model self)));
          (py "stream", PBool stream_flag) ].

(** [SiliconFlowClient.chat] *)
Definition SiliconFlowClient_chat (messages : pyval) (stream : option bool)
  : io pyval :=
  let stream_flag :=
    match stream with
    | None => ModelConfig.stream (Settings.model self)
    | Some b => b
    end in
  let payload := chat_payload messages stream_flag in
  key <- pure (Settings.require_api_key self) ;;
  post ByChat (Settings.base_url self) (json_headers key) payload
       (completion up payload).

(** The JSON body of the rewrite request. *)
Definition rewrite_payload (query : pystr) : pyval :=
  let cfg := Settings.rewriter self in
  PDict [ (py "model", PStr (RewriterConfig.model_name cfg));
          (py "messages", build_rewriter_messages query);
          (py "temperature", PFloat (RewriterConfig.temperature cfg));
          (py "top_p", PFloat (RewriterConfig.top_p cfg));
          (py "max_tokens", PInt (RewriterConfig.max_tokens cfg));
          (py "stream", PBool false) ].

(** What [rewrite_query] makes of the decoded response. *)
Definition rewrite_result (query : pystr) (data : pyval) : outcome pystr :=
  c <~ get data (py "choices") ;;
  let choices := por c (PList []) in
  if negb (truthy choices) then Return query
  else
    first <~ index0 choices ;;
    m <~ get first (py "message") ;;
    let message := por m (PDict []) in
    c <~ get message (py "content") ;;
    content <~ strip_value (por c (PStr [])) ;;
    match content with
    | [] => Return query
    | _ => Return (extract_rewrite content)
    end.

(** [SiliconFlowClient.rewrite_query] *)
Definition rewrite_query (query : pystr) : io pystr :=
  let cfg := Settings.rewriter self in
  if negb (RewriterConfig.enabled cfg) then pure (Return query)
  else
    let payload := rewrite_payload query in
    key <- pure (Settings.require_api_key self) ;;
    data <- post ByRewriteQuery (Settings.base_url self) (json_headers key)
                 payload (completion up payload) ;;
    pure (rewrite_result query data).

(** One line of the upstream stream, as the body of the [async for] in
    [stream_chat] treats it. *)
Inductive line_step :=
| Skip
| Stop
| Yield (content : pyval)
| Fail (e : exn).

Definition stream_line (line : pystr) : line_step :=
  match line with
  | [] => Skip
  | _ =>
      if negb (startswith (py "data:") line) then Skip
      else
        let data := strip (skipn (length (py "data:")) line) in
        if eqb data (py "[DONE]") then Stop
        else match data with
             | [] => Skip
             | _ =>
                 match json_loads data with
                 | NotJson => Skip
                 | DecodeRaises e => Fail e
                 | Decoded payload =>
                     match
                       (c <~ get payload (py "choices") ;;
                        choice <~ index0 (por c (PList [PDict []])) ;;
                        d <~ get choice (py "delta") ;;
                        get (por d (PDict [])) (py "content"))
                     with
                     | Raise e => Fail e
                     | Return content =>
                         if truthy content then Yield content else Skip
                     end
                 end
             end
  end.

(** The chunks [stream_chat] yields from the lines, and the exception that
    ends it, if any. *)
Fixpoint stream_lines (lines : list pystr) (broken : bool)
  : list pyval * option exn :=
  match lines with
  | [] => ([], if broken then Some TransportError else None)
  | line :: rest =>
      match stream_line line with
      | Skip => stream_lines rest broken
      | Stop => ([], None)
      | Fail e => ([], Some e)
      | Yield content =>
          let (chunks, e) := stream_lines rest broken in
          (content :: chunks, e)
      end
  end.

(** [SiliconFlowClient.stream_chat]: the requests sent, the chunks yielded,
    and the exception that ends the generator, if any. *)
Definition stream_chat (messages : pyval)
  : list call * (list pyval * option exn) :=
  let payload := chat_payload messages true in
  match Settings.require_api_key self with
  | Raise e => ([], ([], Some e))
  | Return key =>
      ([ {| call_sender := ByStreamChat;
            call_url := Settings.base_url self;
            call_headers := json_headers key;
            call_json := payload |} ],
       match completion_stream up payload with
       | StreamStatus c t r => ([], Some (HTTPStatusError c t r))
       | StreamFailed => ([], Some TransportError)
       | StreamLines lines broken => stream_lines lines broken
       end)
  end.

(** The [score=] argument of [RetrievedDocument(...)] in [retrieve]. *)
Definition item_score (item : pyval) : outcome (option pyfloat) :=
  c <~ get item (py "combined_score") ;;
  a <~ _maybe_float c ;;
  if truthy_float a then Return a
  else
    r <~ get item (py "rerank_score") ;;
    b <~ _maybe_float r ;;
    if truthy_float b then Return b
    else
      s <~ get item (py "score") ;;
      _maybe_float s.

(** pydantic's validation of the two fields of [RetrievedDocument] that
    [retrieve] passes through. *)
Definition validate_optional_str (v : pyval) : outcome (option pystr) :=
  match v with
  | PNone => Return None
  | PStr s => Return (Some s)
  | _ => match coerce_str v with
         | Some s => Return (Some s)
         | None => Raise ValidationError
         end
  end.

Definition validate_optional_dict (v : pyval)
  : outcome (option (list (pystr * pyval))) :=
  match v with
  | PNone => Return None
  | PDict d => Return (Some d)
  | _ => match coerce_dict v with
         | Some d => Return (Some d)
         | None => Raise ValidationError
         end
  end.

(** The body of the [for item in docs_payload] loop of [retrieve]:
    [None] when the item is skipped. *)
Definition normalize_item (item : pyval)
  : outcome (option RetrievedDocument.t) :=
  text <~ get item (py "text") ;;
  name <~ get item (py "name") ;;
  content <~ strip_value (por (por text name) (PStr [])) ;;
  match content with
  | [] => Return None
  | _ =>
      source_text <~ get item (py "source_text") ;;
      id_ <~ get item (py "id") ;;
      score_ <~ item_score item ;;
      chunk_id_ <~ get item (py "chunk_id") ;;
      type_ <~ get item (py "type") ;;
      origin_id_ <~ get item (py "origin_id") ;;
      source_ <~ get item (py "source") ;;
      let source_text' :=
        match source_text with
        | PStr s => PStr (strip s)
        | v => v
        end in
      vsource_text <~ validate_optional_str source_text' ;;
      vsource <~ validate_optional_dict source_ ;;
      Return (Some
        {| RetrievedDocument.id := _maybe_str id_;
           RetrievedDocument.title := _maybe_str name;
           RetrievedDocument.content := content;
           RetrievedDocument.score := score_;
           RetrievedDocument.chunk_id := _maybe_str chunk_id_;
           RetrievedDocument.chunk_type := _maybe_str type_;
           RetrievedDocument.origin_id := _maybe_str origin_id_;
           RetrievedDocument.source_text := vsource_text;
           RetrievedDocument.source := vsource |})
  end.

Fixpoint normalize_items (items : list pyval)
  : outcome (list RetrievedDocument.t) :=
  match items with
  | [] => Return []
  | item :: rest =>
      d <~ normalize_item item ;;
      ds <~ normalize_items rest ;;
      Return (match d with Some doc => doc :: ds | None => ds end)
  end.

(** [rerank_mode or cfg.rerank_mode], [None] when that is empty, lowered. *)
Definition effective_rerank_mode (rerank_mode : option pystr) : option pystr :=
  let m :=
    match nonempty rerank_mode with
    | Some s => s
    | None => RetrievalConfig.rerank_mode (Settings.retrieval self)
    end in
  match m with
  | [] => None
  | _ => Some (lower m)
  end.

(** [top_k or cfg.top_k] *)
Definition effective_top_k (top_k : option Z) : Z :=
  match top_k with
  | Some k => if (k =? 0)%Z then RetrievalConfig.top_k (Settings.retrieval self) else k
  | None => RetrievalConfig.top_k (Settings.retrieval self)
  end.

(** [cfg.use_rerank if use_rerank is None else use_rerank] *)
Definition effective_use_rerank (use_rerank : option bool) : bool :=
  match use_rerank with
  | None => RetrievalConfig.use_rerank (Settings.retrieval self)
  | Some b => b
  end.

(** [rerank_top_k or cfg.rerank_top_k or effective_top_k] *)
Definition effective_rerank_top_k (top_k rerank_top_k : option Z) : Z :=
  if truthy_int rerank_top_k
  then match rerank_top_k with Some k => k | None => 0%Z end
  else if truthy_int (RetrievalConfig.rerank_top_k (Settings.retrieval self))
  then match RetrievalConfig.rerank_top_k (Settings.retrieval self) with
       | Some k => k | None => 0%Z end
  else effective_top_k top_k.

(** The JSON body [retrieve] posts. *)
Definition retrieve_payload (query : pystr) (top_k : option Z)
    (use_rerank : option bool) (rerank_mode : option pystr)
    (rerank_top_k : option Z) : list (pystr * pyval) :=
  [ (py "query", PStr query);
    (py "k", PInt (effective_top_k top_k));
    (py "use_rerank", PBool (effective_use_rerank use_rerank));
    (py "rerank_mode", RetrievedDocument.opt_str (effective_rerank_mode rerank_mode)) ]
  ++ (if effective_use_rerank use_rerank
         && negb (effective_rerank_top_k top_k rerank_top_k =? 0)%Z
      then [ (py "rerank_top_k", PInt (effective_rerank_top_k top_k rerank_top_k)) ]
      else []).

(** [RetrievalClient.retrieve] *)
Definition retrieve (query : pystr) (top_k : option Z)
    (use_rerank : option bool) (rerank_mode : option pystr)
    (rerank_top_k : option Z) : io (list RetrievedDocument.t) :=
  match RetrievalConfig.url (Settings.retrieval self) with
  | [] => pure (Raise (RuntimeError (py "RAG_API_URL is not configured")))
  | url =>
      let payload :=
        PDict (retrieve_payload query top_k use_rerank rerank_mode rerank_top_k) in
      data <- post ByRetrieve url [] payload (retrieval_service up url payload) ;;
      pure (
        docs_payload <~
          match data with
          | PList _ => Return data
          | _ => r <~ get data (py "results") ;; Return (por r (PList []))
          end ;;
        items <~ iterate docs_payload ;;
        normalize_items items)
  end.

End Clients.

(* ================================================================= *)
(** ** app/main.py *)

(** [l[:stop]] *)
Definition slice_to {A} (stop : Z) (l : list A) : list A :=
  if (stop <? 0)%Z
  then firstn (length l - Z.to_nat (- stop)) l
  else firstn (Z.to_nat stop) l.

(** What the handler hands back to the framework: a JSON body, or a stream,
    given by the byte strings its generator yields, one for each frame, and
    the exception that escapes the generator, if any. *)
Inductive response :=
| JsonResponse (r : ChatResponse.t)
| StreamingResponse (frames : list bytes) (escaped : option exn).

(** The status line the framework sends for a handler that returns or
    raises. *)
Definition http_status {A} (r : outcome A) : Z :=
  match r with
  | Return _ => 200%Z
  | Raise (HTTPException c _) => c
  | Raise _ => 500%Z
  end.

(** [exc.response.text or exc.response.reason_phrase] *)
Definition status_detail (text reason_phrase : pystr) : pystr :=
  match text with
  | [] => reason_phrase
  | _ => text
  end.

Section Main.
Context `{Runtime}.
Variable settings : Settings.t.
Variable up : upstream.

(** [_trim_documents] *)
Definition _trim_documents (documents : list RetrievedDocument.t)
    (limit : option Z) : list RetrievedDocument.t :=
  let max_docs :=
    if truthy_int limit
    then match limit with Some k => k | None => 0%Z end
    else RetrievalConfig.top_k (Settings.retrieval settings) in
  slice_to max_docs documents.

(** [_extract_answer] *)
Definition _extract_answer (raw_response : pyval) : outcome pystr :=
  c <~ get raw_response (py "choices") ;;
  let choices := por c (PList []) in
  if negb (truthy choices)
  then Raise (HTTPException 502 (py "SiliconFlow returned no choices"))
  else
    first <~ index0 choices ;;
    m <~ get first (py "message") ;;
    let message := por m (PDict []) in
    c <~ get message (py "content") ;;
    content <~ strip_value (por c (PStr [])) ;;
    match content with
    | [] => Raise (HTTPException 502 (py "Choice contained no message content"))
    | _ => Return content
    end.

Definition validate_optional_int (d : list (pystr * pyval)) (key : pystr)
  : outcome (option Z) :=
  match lookup key d with
  | None | Some PNone => Return None
  | Some (PInt z) => Return (Some z)
  | Some v => match coerce_int v with
              | Some z => Return (Some z)
              | None => Raise ValidationError
              end
  end.

(** [_extract_usage] *)
Definition _extract_usage (raw_response : pyval) : outcome (option Usage.t) :=
  usage_payload <~ get raw_response (py "usage") ;;
  if negb (truthy usage_payload) then Return None
  else match usage_payload with
       | PDict d =>
           p <~ validate_optional_int d (py "prompt_tokens") ;;
           c <~ validate_optional_int d (py "completion_tokens") ;;
           t <~ validate_optional_int d (py "total_tokens") ;;
           Return (Some {| Usage.prompt_tokens := p;
                           Usage.completion_tokens := c;
                           Usage.total_tokens := t |})
       | _ => Raise TypeError
       end.

(** [_serialize_documents] *)
Definition _serialize_documents (documents : list RetrievedDocument.t)
  : list pyval :=
  map RetrievedDocument.dict documents.

(** [_sse] *)
Definition _sse (event : pystr) (data : pyval) : pystr :=
  let payload := match data with PStr s => s | _ => json_dumps data end in
  py "event: " ++ event ++ [10%N] ++ py "data: " ++ payload ++ [10%N; 10%N].

(** ["".join(buffer)] *)
Fixpoint join_chunks (buffer : list pyval) : outcome pystr :=
  match buffer with
  | [] => Return []
  | PStr s :: rest => t <~ join_chunks rest ;; Return (s ++ t)
  | _ :: _ => Raise TypeError
  end.

(** The message of httpx's [ResponseNotRead], a [RuntimeError]: what
    [exc.response.text] raises for a response that was opened with
    [client.stream] and never read. *)
Definition RESPONSE_NOT_READ : pystr :=
  py "Attempted to access streaming response content, without having called `read()`.".

(** The three [except] clauses of the generator: the message of the error
    frame, or the exception that the clause itself raises. The status error
    that reaches the second clause comes from [stream_chat], whose response
    is streamed and closed unread. *)
Definition stream_error_message (e : exn) : option (outcome pystr) :=
  match e with
  | RuntimeError msg => Some (Return msg)
  | HTTPStatusError _ _ _ => Some (Raise (RuntimeError RESPONSE_NOT_READ))
  | TransportError => Some (Return (py "Upstream SiliconFlow request failed"))
  | _ => None
  end.

(** The [delta] frames of the chunks, up to the first one that cannot be
    encoded. *)
Fixpoint delta_frames (chunks : list pyval) : list bytes * option exn :=
  match chunks with
  | [] => ([], None)
  | chunk :: rest =>
      match encode (_sse (py "delta") chunk) with
      | Raise e => ([], Some e)
      | Return frame =>
          let (frames, failed) := delta_frames rest in
          (frame :: frames, failed)
      end
  end.

(** The last [yield] of a run of the generator. *)
Definition last_frame (frames : list bytes) (text : pystr)
  : list bytes * option exn :=
  match encode text with
  | Return frame => (frames ++ [frame], None)
  | Raise e => (frames, Some e)
  end.

(** [_streaming_response]: the generator run to its end. *)
Definition _streaming_response (messages : pyval)
    (documents : list RetrievedDocument.t)
  : list call * (list bytes * option exn) :=
  match
    encode
      (_sse (py "meta")
         (PDict [ (py "model", PStr (ModelConfig.model_name (Settings.model settings)));
                  (py "documents", PList (_serialize_documents documents)) ]))
  with
  | Raise e => ([], ([], Some e))
  | Return meta =>
      let '(calls, (chunks, ended)) := stream_chat settings up messages in
      (calls,
       match delta_frames chunks with
       | (deltas, Some e) => (meta :: deltas, Some e)
       | (deltas, None) =>
           match ended with
           | Some e =>
               match stream_error_message e with
               | Some (Return msg) =>
                   last_frame (meta :: deltas)
                     (_sse (py "error") (PDict [ (py "message", PStr msg) ]))
               | Some (Raise e') => (meta :: deltas, Some e')
               | None => (meta :: deltas, Some e)
               end
           | None =>
               match join_chunks chunks with
               | Return text =>
                   last_frame (meta :: deltas)
                     (_sse (py "end") (PDict [ (py "answer", PStr (strip text)) ]))
               | Raise e => (meta :: deltas, Some e)
               end
           end
       end)
  end.

(** The rewriting step of [chat]. *)
Definition chat_rewrite (request : ChatRequest.t) : io pystr :=
  if RewriterConfig.enabled (Settings.rewriter settings)
  then
    try_except (rewrite_query settings up (ChatRequest.query request))
      (fun e =>
         match e with
         | RuntimeError _ | HTTPStatusError _ _ _ | TransportError =>
             Some (pure (Return (ChatRequest.query request)))
         | _ => None
         end)
  else pure (Return (ChatRequest.query request)).

(** The retrieval step of [chat]. *)
Definition chat_retrieve (request : ChatRequest.t) (rewritten_query : pystr)
  : io (list RetrievedDocument.t) :=
  try_except
    (retrieve settings up rewritten_query
       (ChatRequest.top_k request) (ChatRequest.use_rerank request)
       (ChatRequest.rerank_mode request) (ChatRequest.rerank_top_k request))
    (fun e =>
       match e with
       | RuntimeError msg => Some (pure (Raise (HTTPException 500 msg)))
       | HTTPStatusError c text reason_phrase =>
           Some (pure (Raise (HTTPException c
             (py "Retriever error: " ++ status_detail text reason_phrase))))
       | TransportError =>
           Some (pure (Raise (HTTPException 502 (py "Retriever request failed"))))
       | _ => None
       end).

(** The generation step of the non-streaming [chat]. *)
Definition chat_generate (messages : pyval) : io pyval :=
  try_except (SiliconFlowClient_chat settings up messages None)
    (fun e =>
       match e with
       | RuntimeError msg => Some (pure (Raise (HTTPException 500 msg)))
       | HTTPStatusError c text reason_phrase =>
           Some (pure (Raise (HTTPException c (status_detail text reason_phrase))))
       | TransportError =>
           Some (pure (Raise (HTTPException 502
             (py "Upstream SiliconFlow request failed"))))
       | _ => None
       end).

(** pydantic's validation of [ChatResponse.model]. *)
Definition validate_str (v : pyval) : outcome pystr :=
  match v with
  | PStr s => Return s
  | PNone => Raise ValidationError
  | _ => match coerce_str v with
         | Some s => Return s
         | None => Raise ValidationError
         end
  end.

(** [chat], the handler of [POST /chat]. *)
Definition chat (request : ChatRequest.t) : io response :=
  rewritten_query <- chat_rewrite request ;;
  retrieved_docs <- chat_retrieve request rewritten_query ;;
  let trimmed_docs := _trim_documents retrieved_docs None in
  let messages := build_messages (ChatRequest.query request) trimmed_docs in
  if ChatRequest.stream request
  then
    let (calls, body) := _streaming_response messages trimmed_docs in
    (calls, Return (StreamingResponse (fst body) (snd body)))
  else
    raw_response <- chat_generate messages ;;
    pure (
      answer <~ _extract_answer raw_response ;;
      usage <~ _extract_usage raw_response ;;
      model_name <~ get_default raw_response (py "model")
        (PStr (ModelConfig.model_name (Settings.model settings))) ;;
      model <~ validate_str model_name ;;
      Return (JsonResponse
        {| ChatResponse.answer := answer;
           ChatResponse.model := model;
           ChatResponse.usage := usage;
           ChatResponse.raw_response := Some raw_response;
           ChatResponse.documents := trimmed_docs |})).

End Main.

(** A runtime for worked examples: [json.loads] knows the texts listed in
    [table]; no str parses as a float; nothing is coerced. *)
Definition table_runtime (table : list (pystr * pyval)) : Runtime :=
  {| json_loads := fun s => match lookup s table with
                            | Some v => Decoded v
                            | None => NotJson
                            end;
     float_of_str := fun _ => None;
     str_other := fun _ => py "?";
     format_3f := fun _ => py "?";
     coerce_str := fun _ => None;
     coerce_int := fun _ => None;
     coerce_dict := fun _ => None |}.

(** Worked examples use an upstream that gives each service one fixed
    reply, and the default settings with a few fields changed. *)
Definition fixed_upstream (c : http_reply) (s : stream_reply) (r : http_reply)
  : upstream :=
  {| completion := fun _ => c;
     completion_stream := fun _ => s;
     retrieval_service := fun _ _ => r |}.

(** A completion whose first choice carries [content]. *)
Definition completion_with (content : pyval) : pyval :=
  PDict [ (py "choices",
           PList [ PDict [ (py "message",
                            PDict [ (py "role", PStr (py "assistant"));
                                    (py "content", content) ]) ] ]) ].

(** The item [{"text": content}] and the document [retrieve] makes of it. *)
Definition text_item (content : pystr) : pyval :=
  PDict [ (py "text", PStr content) ].

Definition text_document (content : pystr) : RetrievedDocument.t :=
  {| RetrievedDocument.id := None;
     RetrievedDocument.title := None;
     RetrievedDocument.content := content;
     RetrievedDocument.score := None;
     RetrievedDocument.chunk_id := None;
     RetrievedDocument.chunk_type := None;
     RetrievedDocument.origin_id := None;
     RetrievedDocument.source_text := None;
     RetrievedDocument.source := None |}.

(** One event of the upstream stream, [{"choices":[{"delta":{"content":
    text}}]}], as decoded and as the text of a [data:] line. *)
Definition delta_event (text : pystr) : pyval :=
  PDict [ (py "choices",
           PList [ PDict [ (py "delta", PDict [ (py "content", PStr text) ]) ] ]) ].

Definition quoted (s : pystr) : pystr := [34%N] ++ s ++ [34%N].

Definition delta_json (text : pystr) : pystr :=
  py "{" ++ quoted (py "choices") ++ py ":[{" ++ quoted (py "delta")
  ++ py ":{" ++ quoted (py "content") ++ py ":" ++ quoted text ++ py "}}]}".

Definition request_for (query : pystr) (top_k : option Z) (stream : bool)
  : ChatRequest.t :=
  {| ChatRequest.query := query; ChatRequest.top_k := top_k;
     ChatRequest.stream := stream; ChatRequest.use_rerank := None;
     ChatRequest.rerank_mode := None; ChatRequest.rerank_top_k := None |}.

Definition settings_with (rag_url : pystr) (rewriting : bool) : Settings.t :=
  {| Settings.api_key := Settings.api_key get_settings;
     Settings.base_url := Settings.base_url get_settings;
     Settings.timeout := Settings.timeout get_settings;
     Settings.model := Settings.model get_settings;
     Settings.retrieval :=
       {| RetrievalConfig.url := rag_url;
          RetrievalConfig.timeout := DEFAULT_RAG_TIMEOUT;
          RetrievalConfig.top_k := DEFAULT_RAG_TOP_K;
          RetrievalConfig.use_rerank := DEFAULT_RAG_USE_RERANK;
          RetrievalConfig.rerank_mode := DEFAULT_RAG_RERANK_MODE;
          RetrievalConfig.rerank_top_k := DEFAULT_RAG_RERANK_TOP_K |};
     Settings.rewriter :=
       {| RewriterConfig.enabled := rewriting;
          RewriterConfig.model_name := DEFAULT_REWRITER_MODEL_NAME;
          RewriterConfig.temperature := DEFAULT_REWRITER_TEMPERATURE;
          RewriterConfig.top_p := DEFAULT_REWRITER_TOP_P;
          RewriterConfig.max_tokens := DEFAULT_REWRITER_MAX_TOKENS |} |}.

(* ================================================================= *)
(** ** Vocabulary of the properties *)



(** The decoded response [data] is an object whose [choices] is a list, whose
    first choice is an object with a [message] object, whose [content] is the
    str [content]. *)
Definition first_choice_content (data : pyval) (content : pystr) : Prop :=
  exists d ch rest msg,
    data = PDict d
    /\ lookup (py "choices") d = Some (PList (PDict ch :: rest))
    /\ lookup (py "message") ch = Some (PDict msg)
    /\ lookup (py "content") msg = Some (PStr content).

(** The built-in errors, which no [except] clause of the service names. *)
Definition builtin_error (e : exn) : Prop :=
  match e with
  | AttributeError | TypeError | KeyError | IndexError | ValueError
  | OverflowError | ValidationError => True
  | _ => False
  end.

(** A message object whose [content] is missing, null, or a str that is
    empty after trimming. *)
Definition blank_content (msg : list (pystr * pyval)) : Prop :=
  match lookup (py "content") msg with
  | None | Some PNone => True
  | Some (PStr s) => strip s = []
  | Some _ => False
  end.

(** A well-formed completion without an answer: [choices] is the empty
    list, or the first choice has no message, or a message with a blank
    content. *)
Definition no_answer (raw : pyval) : Prop :=
  match raw with
  | PDict d =>
      match lookup (py "choices") d with
      | Some (PList []) => True
      | Some (PList (PDict ch :: _)) =>
          match lookup (py "message") ch with
          | None | Some PNone => True
          | Some (PDict msg) => blank_content msg
          | Some _ => False
          end
      | _ => False
      end
  | _ => False
  end.

(** A line of the upstream stream that [stream_chat] skips, stops at, or
    turns into a str chunk without a surrogate. *)
Definition well_shaped_line `{Runtime} (line : pystr) : Prop :=
  match stream_line line with
  | Skip | Stop => True
  | Yield (PStr s) => encodable s = true
  | Yield _ | Fail _ => False
  end.

(** A reply to the streaming request that is a sequence of well-shaped
    lines, whether or not the connection breaks after them, or a transport
    failure; an error status is not one. *)
Definition well_shaped_stream `{Runtime} (reply : stream_reply) : Prop :=
  match reply with
  | StreamLines lines _ => Forall well_shaped_line lines
  | StreamFailed => True
  | StreamStatus _ _ _ => False
  end.

(** The default for indexing a trace beyond its end. *)
Definition no_call : call :=
  {| call_sender := ByRetrieve; call_url := []; call_headers := [];
     call_json := PNone |}.

(** The frames of a streamed response. *)
Definition response_frames (r : outcome response) : list bytes :=
  match r with
  | Return (StreamingResponse frames _) => frames
  | _ => []
  end.

(** The bytes of the frame [_sse(event, data)], when its text can be
    encoded. *)
Definition frame `{Runtime} (event : pystr) (data : pyval) : bytes :=
  utf8 (_sse event data).

(** The payload of the [meta] frame. *)
Definition meta_payload (settings : Settings.t)
    (documents : list RetrievedDocument.t) : pyval :=
  PDict [ (py "model", PStr (ModelConfig.model_name (Settings.model settings)));
          (py "documents", PList (map RetrievedDocument.dict documents)) ].

(** A frame of the given event: its bytes begin with the line
    [event: name]. *)
Definition has_event (name : pystr) (f : bytes) : bool :=
  startswith (utf8 (py "event: " ++ name ++ [10%N])) f.

Definition is_meta (f : bytes) : bool := has_event (py "meta") f.
Definition is_delta (f : bytes) : bool := has_event (py "delta") f.
Definition is_terminal (f : bytes) : bool :=
  has_event (py "end") f || has_event (py "error") f.

(** The payload of a frame of the given event: the bytes between [data: ]
    and the blank line that ends the frame. *)
Definition frame_payload (name : pystr) (f : bytes) : bytes :=
  let rest :=
    skipn (length (utf8 (py "event: " ++ name ++ [10%N] ++ py "data: "))) f in
  firstn (length rest - 2) rest.

(** The payloads of the delta frames, in order. *)
Definition delta_payloads (frames : list bytes) : list bytes :=
  map (frame_payload (py "delta")) (filter is_delta frames).

(** A document whose content is not empty and has no whitespace at either
    end. *)
Definition content_trimmed (doc : RetrievedDocument.t) : Prop :=
  RetrievedDocument.content doc <> []
  /\ strip (RetrievedDocument.content doc) = RetrievedDocument.content doc.

(** The items of a retrieval response [data]: [data] is the bare list, or
    an object whose [results] is the list, or an object without [results]
    (and then there are none). *)
Definition response_items (data : pyval) (items : list pyval) : Prop :=
  data = PList items
  \/ (exists d, data = PDict d
        /\ lookup (py "results") d = Some (PList items))
  \/ (exists d, data = PDict d
        /\ (lookup (py "results") d = None
            \/ lookup (py "results") d = Some PNone)
        /\ items = []).

(** [P] holds of the document that normalizing an item gave, if it gave
    one. *)
Definition forall_documents_of (r : outcome (option RetrievedDocument.t))
    (P : RetrievedDocument.t -> Prop) : Prop :=
  match r with
  | Return (Some doc) => P doc
  | _ => True
  end.

(** A line of the upstream stream that carries nothing: empty, not a
    [data:] line, a [data:] line without data, or one whose data is not the
    end sentinel and makes [json.loads] raise [JSONDecodeError]. *)
Definition ignored_line `{Runtime} (line : pystr) : Prop :=
  line = []
  \/ startswith (py "data:") line = false
  \/ strip (skipn (length (py "data:")) line) = []
  \/ (strip (skipn (length (py "data:")) line) <> py "[DONE]"
      /\ json_loads (strip (skipn (length (py "data:")) line)) = NotJson).

(** The end sentinel: a [data:] line whose data is [[DONE]]. *)
Definition done_line (line : pystr) : Prop :=
  startswith (py "data:") line = true
  /\ strip (skipn (length (py "data:")) line) = py "[DONE]".

(** The last lines of [chat]: the buffered response built from the decoded
    completion. *)
Definition chat_respond `{Runtime} (settings : Settings.t)
    (trimmed_docs : list RetrievedDocument.t) (raw_response : pyval)
  : outcome response :=
  answer <~ _extract_answer raw_response ;;
  usage <~ _extract_usage raw_response ;;
  model_name <~ get_default raw_response (py "model")
    (PStr (ModelConfig.model_name (Settings.model settings))) ;;
  model <~ validate_str model_name ;;
  Return (JsonResponse
    {| ChatResponse.answer := answer;
       ChatResponse.model := model;
       ChatResponse.usage := usage;
       ChatResponse.raw_response := Some raw_response;
       ChatResponse.documents := trimmed_docs |}).

(** The value of one token count of a usage object. *)
Definition usage_count (u : list (pystr * pyval)) (key : pystr)
    (count : option Z) : Prop :=
  match count with
  | Some z => lookup key u = Some (PInt z)
  | None => lookup key u = None \/ lookup key u = Some PNone
  end.


(* ================================================================= *)
(** * Properties *)

(* ================================================================= *)
(** ** Facts about Python strings *)

Module PyStrFacts.

Example decode_cjk : py "我" = [25105%N].
Proof. reflexivity. Qed.

Example strip_unicode_space :
  strip ([12288%N] ++ py " a b" ++ [10%N; 160%N]) = py "a b".
Proof. reflexivity. Qed.

Example split_resumes_after_match :
  split (py "aa") (py "aaa") = [[]; py "a"].
Proof. reflexivity. Qed.

Example rsplit1_cuts_last :
  rsplit1 (py "ab") (py "xabyabz") = [py "xaby"; py "z"].
Proof. reflexivity. Qed.

Example extract_rewrite_plain :
  extract_rewrite (py "thinking <rewrite> mild soup </rewrite>") = py "mild soup".
Proof. reflexivity. Qed.

Example str_of_Z_digits :
  str_of_Z 120 = py "120" /\ str_of_Z 0 = py "0" /\ str_of_Z (-17) = py "-17".
Proof. repeat split. Qed.
























Lemma lstrip_suffix (s : pystr) : exists w, s = w ++ lstrip s.
Proof.
  induction s as [|c s [w IH]]; simpl.
  - now exists [].
  - destruct (isspace c).
    + exists (c :: w). simpl. now f_equal.
    + now exists [].
Qed.

Lemma rstrip_prefix (s : pystr) : exists w, s = rstrip s ++ w.
Proof.
  unfold rstrip. destruct (lstrip_suffix (rev s)) as [w Hw].
  exists (rev w). rewrite <- rev_app_distr, <- Hw. now rewrite rev_involutive.
Qed.



End PyStrFacts.

Import PyStrFacts.

(* ================================================================= *)
(** ** The query rewriter *)

Section Rewriter.
Variable settings : Settings.t.
Variable up : upstream.







Lemma rewrite_result_content (query : pystr) (data : pyval) (content : pystr) :
  first_choice_content data content ->
  rewrite_result query data
  = match strip content with
    | [] => Return query
    | c :: s => Return (extract_rewrite (c :: s))
    end.
Proof.
  intros (d & ch & rest & msg & -> & Hch & Hm & Hc).
  unfold rewrite_result, get. rewrite Hch. simpl.
  rewrite Hm.
  assert (Hmsg : por (PDict msg) (PDict []) = PDict msg).
  { destruct msg; [discriminate|reflexivity]. }
  rewrite Hmsg, Hc. clear Hmsg.
  destruct content as [|c0 content]; simpl; [reflexivity|].
  destruct (strip (c0 :: content)); reflexivity.
Qed.

(** With rewriting enabled and a credential present, [rewrite_query] sends
    one request and decodes the reply. *)
Lemma rewrite_query_enabled (query : pystr) :
  RewriterConfig.enabled (Settings.rewriter settings) = true ->
  Settings.api_key settings <> [] ->
  rewrite_query settings up query
  = ( [ {| call_sender := ByRewriteQuery;
           call_url := Settings.base_url settings;
           call_headers := json_headers (Settings.api_key settings);
           call_json := rewrite_payload settings query |} ],
      match completion up (rewrite_payload settings query) with
      | HttpJson data => rewrite_result query data
      | HttpNotJson => Raise ValueError
      | HttpStatus c t r => Raise (HTTPStatusError c t r)
      | HttpFailed => Raise TransportError
      end ).
Proof.
  intros He Hk. unfold rewrite_query, Settings.require_api_key.
  rewrite He. simpl negb. cbv iota.
  destruct (Settings.api_key settings) as [|k0 key]; [contradiction|].
  unfold pure, ibind, post.
  destruct (completion up (rewrite_payload settings query)); reflexivity.
Qed.

End Rewriter.





(** C5. With rewriting enabled and the reply [<rewrite></rewrite>], the
    content is not empty, the extracted text is, and [rewrite_query] returns
    the empty string instead of the (non-empty) original query. *)
Theorem rewrite_query_empty_block :
  let up :=
    fixed_upstream (HttpJson (completion_with (PStr (py "<rewrite></rewrite>"))))
      StreamFailed HttpFailed in
  (1 <= length (py "q"))%nat
  /\ RewriterConfig.enabled (Settings.rewriter get_settings) = true
  /\ snd (rewrite_query get_settings up (py "q")) = Return [].
Proof.
  vm_compute. repeat split. lia.
Qed.

(** The two fallbacks that [rewrite_query] does have: no choices, and a
    chosen message without content, give the original query. *)
Lemma rewrite_result_no_choices (query : pystr) (d : list (pystr * pyval)) :
  lookup (py "choices") d = None \/ lookup (py "choices") d = Some PNone
  \/ lookup (py "choices") d = Some (PList []) ->
  rewrite_result query (PDict d) = Return query.
Proof.
  unfold rewrite_result, get. intros [-> | [-> | ->]]; reflexivity.
Qed.

Lemma rewrite_result_blank_content (query : pystr) (data : pyval)
    (content : pystr) :
  first_choice_content data content -> strip content = [] ->
  rewrite_result query data = Return query.
Proof.
  intros Hd Hs. now rewrite (rewrite_result_content _ _ _ Hd), Hs.
Qed.

(** C9. With rewriting disabled, [rewrite_query] returns the query as it is
    and sends no request. *)
Theorem rewrite_query_disabled
    (settings : Settings.t) (up : upstream) (query : pystr) :
  RewriterConfig.enabled (Settings.rewriter settings) = false ->
  rewrite_query settings up query = ([], Return query).
Proof.
  intros He. unfold rewrite_query. now rewrite He.
Qed.

Lemma rewrite_query_disabled_witness :
  rewrite_query (settings_with DEFAULT_RAG_URL false)
    (fixed_upstream HttpFailed StreamFailed HttpFailed) (py "tofu soup")
  = ([], Return (py "tofu soup")).
Proof.
  apply (rewrite_query_disabled (settings_with DEFAULT_RAG_URL false)).
  reflexivity.
Defined.

(* ================================================================= *)
(** ** The retrieval gateway *)

Section Retrieval.
Context `{Runtime}.
Variable settings : Settings.t.
Variable up : upstream.

Lemma lookup_rerank_top_k (q k u m : pyval) (extra : list (pystr * pyval)) :
  lookup (py "rerank_top_k")
    ([ (py "query", q); (py "k", k); (py "use_rerank", u);
       (py "rerank_mode", m) ] ++ extra)
  = lookup (py "rerank_top_k") extra.
Proof. reflexivity. Qed.

Lemma effective_top_k_valid (top_k : option Z) :
  Settings.valid settings -> Settings.in_1_50 top_k ->
  effective_top_k settings top_k
  = match top_k with
    | Some k => k
    | None => RetrievalConfig.top_k (Settings.retrieval settings)
    end
  /\ (1 <= effective_top_k settings top_k <= 50)%Z.
Proof.
  intros (Hk & _) Ht. unfold effective_top_k.
  destruct top_k as [k|]; simpl in Ht.
  - destruct (Z.eqb_spec k 0); [lia|]. split; [reflexivity|lia].
  - split; [reflexivity|lia].
Qed.

Lemma effective_rerank_top_k_valid (top_k rerank_top_k : option Z) :
  Settings.valid settings ->
  Settings.in_1_50 top_k -> Settings.in_1_50 rerank_top_k ->
  effective_rerank_top_k settings top_k rerank_top_k
  = match rerank_top_k with
    | Some k => k
    | None =>
        match RetrievalConfig.rerank_top_k (Settings.retrieval settings) with
        | Some k => k
        | None => effective_top_k settings top_k
        end
    end
  /\ (1 <= effective_rerank_top_k settings top_k rerank_top_k <= 50)%Z.
Proof.
  intros Hv Ht Hr.
  destruct (effective_top_k_valid top_k Hv Ht) as [_ Hb].
  destruct Hv as (_ & Hc & _).
  unfold effective_rerank_top_k, truthy_int.
  destruct rerank_top_k as [k|]; simpl in Hr.
  - destruct (Z.eqb_spec k 0); [lia|]. simpl. split; [reflexivity|lia].
  - destruct (RetrievalConfig.rerank_top_k (Settings.retrieval settings))
      as [c|]; simpl in Hc.
    + destruct (Z.eqb_spec c 0); [lia|]. simpl. split; [reflexivity|lia].
    + split; [reflexivity|lia].
Qed.

(** With an endpoint configured, [retrieve] posts [retrieve_payload]. *)
Lemma retrieve_posts_payload (query : pystr) (top_k : option Z)
    (use_rerank : option bool) (rerank_mode : option pystr)
    (rerank_top_k : option Z) :
  RetrievalConfig.url (Settings.retrieval settings) <> [] ->
  map call_json
    (fst (retrieve settings up query top_k use_rerank rerank_mode rerank_top_k))
  = [ PDict (retrieve_payload settings query top_k use_rerank rerank_mode
               rerank_top_k) ].
Proof.
  intros Hu. unfold retrieve.
  destruct (RetrievalConfig.url (Settings.retrieval settings)) as [|c u];
    [contradiction|].
  unfold ibind, post, pure.
  destruct (retrieval_service up (c :: u) _); reflexivity.
Qed.

End Retrieval.

(** C6. For the values that request and settings validation admit, the
    effective [rerank_top_k] of [retrieve] is the argument when given, else
    the configured value when set, else the effective [top_k] (the argument
    when given, else the configured one); and the body that [retrieve] posts
    has the key [rerank_top_k], with that value, exactly when reranking is
    effectively enabled. *)
Theorem retrieve_rerank_top_k_precedence `{Runtime}
    (settings : Settings.t) (up : upstream) (query : pystr)
    (top_k : option Z) (use_rerank : option bool)
    (rerank_mode : option pystr) (rerank_top_k : option Z) :
  Settings.valid settings ->
  Settings.in_1_50 top_k -> Settings.in_1_50 rerank_top_k ->
  RetrievalConfig.url (Settings.retrieval settings) <> [] ->
  let cfg := Settings.retrieval settings in
  let payload :=
    retrieve_payload settings query top_k use_rerank rerank_mode rerank_top_k in
  let effective :=
    match rerank_top_k, RetrievalConfig.rerank_top_k cfg, top_k with
    | Some k, _, _ => k
    | None, Some k, _ => k
    | None, None, Some k => k
    | None, None, None => RetrievalConfig.top_k cfg
    end in
  effective_rerank_top_k settings top_k rerank_top_k = effective
  /\ map call_json
       (fst (retrieve settings up query top_k use_rerank rerank_mode
               rerank_top_k))
     = [PDict payload]
  /\ (lookup (py "rerank_top_k") payload <> None
      <-> effective_use_rerank settings use_rerank = true)
  /\ (effective_use_rerank settings use_rerank = true ->
      lookup (py "rerank_top_k") payload = Some (PInt effective)).
Proof.
  intros Hv Ht Hr Hu cfg payload effective.
  destruct (effective_rerank_top_k_valid settings top_k rerank_top_k Hv Ht Hr)
    as [He Hb].
  destruct (effective_top_k_valid settings top_k Hv Ht) as [Hk _].
  assert (Heff : effective_rerank_top_k settings top_k rerank_top_k = effective).
  { rewrite He. subst effective cfg.
    destruct rerank_top_k; [reflexivity|].
    destruct (RetrievalConfig.rerank_top_k (Settings.retrieval settings));
      [reflexivity|].
    rewrite Hk. now destruct top_k. }
  split; [exact Heff|].
  split; [now apply retrieve_posts_payload|].
  subst payload. unfold retrieve_payload.
  rewrite lookup_rerank_top_k.
  destruct (Z.eqb_spec (effective_rerank_top_k settings top_k rerank_top_k) 0)
    as [E|E]; [lia|].
  destruct (effective_use_rerank settings use_rerank); simpl.
  - rewrite Heff. split; [split; [reflexivity|discriminate]|reflexivity].
  - split; [split; [congruence|discriminate]|discriminate].
Qed.

Lemma retrieve_rerank_top_k_precedence_witness :
  let payload :=
    retrieve_payload get_settings (py "tofu") (Some 8%Z) None None None in
  effective_rerank_top_k get_settings (Some 8%Z) None = 8%Z
  /\ lookup (py "rerank_top_k") payload = Some (PInt 8).
Proof.
  destruct (@retrieve_rerank_top_k_precedence (table_runtime []) get_settings
              (fixed_upstream HttpFailed StreamFailed HttpFailed)
              (py "tofu") (Some 8%Z) None None None)
    as (He & _ & _ & Hl).
  - vm_compute. repeat split; try discriminate; auto.
  - simpl. lia.
  - exact I.
  - vm_compute. discriminate.
  - split; [exact He|]. apply Hl. reflexivity.
Defined.

(* ================================================================= *)
(** ** The document normalizer *)

Ltac step_binds H :=
  repeat match type of H with
         | context [obind ?m _] =>
             let E := fresh "E" in
             destruct m eqn:E; simpl obind in H; try discriminate H
         end.

Lemma normalize_item_score `{Runtime} (item : pyval)
    (doc : RetrievedDocument.t) :
  normalize_item item = Return (Some doc) ->
  item_score item = Return (RetrievedDocument.score doc).
Proof.
  unfold normalize_item. intros Hn.
  destruct (get item (py "text")) as [text|] eqn:Et; [|discriminate Hn].
  simpl obind in Hn.
  destruct (get item (py "name")) as [name|] eqn:En; [|discriminate Hn].
  simpl obind in Hn.
  destruct (strip_value (por (por text name) (PStr []))) as [content|] eqn:Ec;
    [|discriminate Hn].
  simpl obind in Hn.
  destruct content as [|c0 content]; [discriminate Hn|].
  destruct (get item (py "source_text")) as [st|]; [|discriminate Hn].
  simpl obind in Hn.
  destruct (get item (py "id")) as [i|]; [|discriminate Hn].
  simpl obind in Hn.
  destruct (item_score item) as [sc|]; [|discriminate Hn].
  simpl obind in Hn.
  step_binds Hn.
  inversion Hn; subst. reflexivity.
Qed.

(** C10 (as amended). When [combined_score] parses to the float zero, the
    recorded score is the value [rerank_score] parses to if that is a
    non-zero float, and otherwise whatever [score] parses to: a non-zero
    float, the float zero, or null. *)
Theorem item_score_zero_combined `{Runtime}
    (item c r s : pyval) (f : pyfloat) :
  get item (py "combined_score") = Return c ->
  _maybe_float c = Return (Some f) -> is_float_zero f = true ->
  get item (py "rerank_score") = Return r ->
  get item (py "score") = Return s ->
  match _maybe_float r with
  | Return (Some g) =>
      if is_float_zero g
      then item_score item = _maybe_float s
      else item_score item = Return (Some g)
  | Return None => item_score item = _maybe_float s
  | Raise e => item_score item = Raise e
  end
  /\ forall doc, normalize_item item = Return (Some doc) ->
       item_score item = Return (RetrievedDocument.score doc).
Proof.
  intros Hc Hf Hz Hr Hs. split; [|apply normalize_item_score].
  unfold item_score. rewrite Hc. simpl obind. rewrite Hf. simpl obind.
  unfold truthy_float at 1. rewrite Hz. simpl negb. cbv iota.
  rewrite Hr. simpl obind.
  destruct (_maybe_float r) as [[g|]|e]; simpl obind.
  - unfold truthy_float. destruct (is_float_zero g); simpl;
      rewrite ?Hs; reflexivity.
  - simpl. now rewrite Hs.
  - reflexivity.
Qed.

Lemma item_score_zero_combined_witness :
  let item :=
    PDict [ (py "text", PStr (py "x"));
            (py "combined_score", PInt 0);
            (py "rerank_score", PFloat (decimal 1 4)) ] in
  @item_score (table_runtime []) item = Return (Some (decimal 1 4)).
Proof.
  intros item.
  exact (proj1 (@item_score_zero_combined (table_runtime []) item
                  (PInt 0) (PFloat (decimal 1 4)) PNone (S754_zero false)
                  eq_refl eq_refl eq_refl eq_refl eq_refl)).
Defined.

(** C10 as stated fails: with [combined_score] 0.0, no [rerank_score] and
    [score] 0.0, none of the fields parses to a non-zero float, and the
    document records the score 0.0, not null. *)
Lemma normalize_item_records_zero :
  let item :=
    PDict [ (py "text", PStr (py "x"));
            (py "combined_score", PFloat (S754_zero false));
            (py "score", PFloat (S754_zero false)) ] in
  @_maybe_float (table_runtime []) (PFloat (S754_zero false))
    = Return (Some (S754_zero false))
  /\ exists doc,
       @normalize_item (table_runtime []) item = Return (Some doc)
       /\ RetrievedDocument.score doc = Some (S754_zero false)
       /\ RetrievedDocument.score doc <> None.
Proof.
  split; [reflexivity|].
  eexists. split; [vm_compute; reflexivity|].
  split; [reflexivity|discriminate].
Qed.

(** The round trip of the specification: an item with [name], [text] and a
    non-zero [combined_score] gives title, content and score. *)
Lemma normalize_item_round_trip :
  @normalize_item (table_runtime [])
    (PDict [ (py "name", PStr (py "X")); (py "text", PStr (py "Y"));
             (py "combined_score", PFloat (decimal 8 10)) ])
  = Return (Some
      {| RetrievedDocument.id := None;
         RetrievedDocument.title := Some (py "X");
         RetrievedDocument.content := py "Y";
         RetrievedDocument.score := Some (decimal 8 10);
         RetrievedDocument.chunk_id := None;
         RetrievedDocument.chunk_type := None;
         RetrievedDocument.origin_id := None;
         RetrievedDocument.source_text := None;
         RetrievedDocument.source := None |}).
Proof. vm_compute. reflexivity. Qed.

(* ================================================================= *)
(** ** The orchestrator *)

Lemma ibind_return {A B} (t : list call) (a : A) (k : A -> io B) :
  ibind (t, Return a) k = (t ++ fst (k a), snd (k a)).
Proof. simpl. now destruct (k a). Qed.

Lemma ibind_raise {A B} (t : list call) (e : exn) (k : A -> io B) :
  ibind (t, Raise e) k = (t, Raise e).
Proof. reflexivity. Qed.

Lemma get_raise (v : pyval) (k : pystr) (e : exn) :
  get v k = Raise e -> e = AttributeError.
Proof. destruct v; simpl; congruence. Qed.

Lemma index0_raise (v : pyval) (e : exn) :
  index0 v = Raise e -> builtin_error e.
Proof.
  destruct v as [| | | |[|c s]|[|x l]|]; simpl; intros He;
    inversion He; exact I.
Qed.

Lemma strip_value_raise (v : pyval) (e : exn) :
  strip_value v = Raise e -> e = AttributeError.
Proof. destruct v; simpl; congruence. Qed.

Lemma rewrite_result_raise (query : pystr) (data : pyval) (e : exn) :
  rewrite_result query data = Raise e -> builtin_error e.
Proof.
  unfold rewrite_result. intros Hr.
  destruct (get data (py "choices")) as [c|e0] eqn:E0; simpl obind in Hr;
    [|inversion Hr; subst; now rewrite (get_raise _ _ _ E0)].
  destruct (negb (truthy (por c (PList [])))); [discriminate|].
  destruct (index0 (por c (PList []))) as [first|e1] eqn:E1;
    simpl obind in Hr;
    [|inversion Hr; subst; exact (index0_raise _ _ E1)].
  destruct (get first (py "message")) as [m|e2] eqn:E2; simpl obind in Hr;
    [|inversion Hr; subst; now rewrite (get_raise _ _ _ E2)].
  destruct (get (por m (PDict [])) (py "content")) as [c'|e3] eqn:E3;
    simpl obind in Hr;
    [|inversion Hr; subst; now rewrite (get_raise _ _ _ E3)].
  destruct (strip_value (por c' (PStr []))) as [content|e4] eqn:E4;
    simpl obind in Hr;
    [|inversion Hr; subst; now rewrite (strip_value_raise _ _ E4)].
  destruct content; discriminate.
Qed.

Section Orchestrator.
Context `{Runtime}.
Variable settings : Settings.t.
Variable up : upstream.

(** What [rewrite_query] does without a credential. *)
Lemma rewrite_query_no_key (query : pystr) :
  RewriterConfig.enabled (Settings.rewriter settings) = true ->
  Settings.api_key settings = [] ->
  exists msg, rewrite_query settings up query = ([], Raise (RuntimeError msg)).
Proof.
  intros He Hk. unfold rewrite_query, Settings.require_api_key.
  rewrite He, Hk. simpl. eauto.
Qed.

(** The rewriting step sends at most the rewrite request, and the only
    errors it lets through are built-in ones. *)
Lemma chat_rewrite_cases (request : ChatRequest.t) :
  (forall c, In c (fst (chat_rewrite settings up request)) ->
             call_sender c = ByRewriteQuery)
  /\ (forall e, snd (chat_rewrite settings up request) = Raise e ->
                builtin_error e).
Proof.
  unfold chat_rewrite.
  destruct (RewriterConfig.enabled (Settings.rewriter settings)) eqn:He;
    [|split; [simpl; tauto|simpl; discriminate]].
  destruct (Settings.api_key settings) as [|k0 key] eqn:Hk.
  - destruct (rewrite_query_no_key (ChatRequest.query request) He Hk)
      as [msg ->].
    split; [simpl; tauto|simpl; discriminate].
  - rewrite rewrite_query_enabled by (auto; rewrite Hk; discriminate).
    unfold try_except.
    destruct (completion up _) as [data| |code t r|]; simpl.
    + destruct (rewrite_result (ChatRequest.query request) data)
        as [q|e] eqn:Er.
      * split; [simpl; intros c [<-|[]]; reflexivity|discriminate].
      * pose proof (rewrite_result_raise _ _ _ Er) as Hb.
        destruct e; try contradiction;
          (split; [simpl; intros c [<-|[]]; reflexivity
                  |simpl; intros e He'; inversion He'; exact I]).
    + split; [simpl; intros c [<-|[]]; reflexivity
             |simpl; intros e He'; inversion He'; exact I].
    + split; [simpl; intros c [<-|[]]; reflexivity|simpl; discriminate].
    + split; [simpl; intros c [<-|[]]; reflexivity|simpl; discriminate].
Qed.

(** With rewriting enabled and a credential present, the rewriting step
    posts the rewrite request, whatever the reply. *)
Lemma chat_rewrite_posts (request : ChatRequest.t) :
  RewriterConfig.enabled (Settings.rewriter settings) = true ->
  Settings.api_key settings <> [] ->
  fst (chat_rewrite settings up request)
  = [ {| call_sender := ByRewriteQuery;
         call_url := Settings.base_url settings;
         call_headers := json_headers (Settings.api_key settings);
         call_json := rewrite_payload settings (ChatRequest.query request) |} ].
Proof.
  intros He Hk. unfold chat_rewrite. rewrite He.
  rewrite rewrite_query_enabled by assumption.
  unfold try_except.
  destruct (completion up _) as [data| |code t r|]; try reflexivity.
  destruct (rewrite_result (ChatRequest.query request) data) as [q|e];
    [reflexivity|].
  destruct e; reflexivity.
Qed.

(** Without a retrieval endpoint the retrieval step sends nothing and
    raises the configuration error as HTTP 500. *)
Lemma chat_retrieve_unconfigured (request : ChatRequest.t) (q : pystr) :
  RetrievalConfig.url (Settings.retrieval settings) = [] ->
  chat_retrieve settings up request q
  = ([], Raise (HTTPException 500 (py "RAG_API_URL is not configured"))).
Proof.
  intros Hu. unfold chat_retrieve, retrieve. now rewrite Hu.
Qed.

(** The retrieval step sends at most the retrieval request, whose [query]
    is the query it was given. *)
Lemma chat_retrieve_calls (request : ChatRequest.t) (q : pystr) (c : call) :
  In c (fst (chat_retrieve settings up request q)) ->
  call_sender c = ByRetrieve
  /\ get (call_json c) (py "query") = Return (PStr q).
Proof.
  unfold chat_retrieve, retrieve.
  destruct (RetrievalConfig.url (Settings.retrieval settings)) as [|u0 url];
    [simpl; tauto|].
  unfold try_except, ibind, post, pure.
  destruct (retrieval_service up (u0 :: url) _) as [data| |code t r|].
  - match goal with
    | |- context [match ?m with Return _ => _ | Raise _ => _ end] =>
        destruct m as [docs|e]
    end.
    + simpl. intros [<-|[]]. split; reflexivity.
    + destruct e; simpl; intros [<-|[]]; split; reflexivity.
  - simpl. intros [<-|[]]. split; reflexivity.
  - simpl. intros [<-|[]]. split; reflexivity.
  - simpl. intros [<-|[]]. split; reflexivity.
Qed.

(** The generation step of a buffered request. *)
Lemma chat_generate_eq (messages : pyval) :
  chat_generate settings up messages
  = match Settings.api_key settings with
    | [] =>
        ([], Raise (HTTPException 500
           (py "SILICONFLOW_API_KEY is not set. Export it before starting the service.")))
    | key =>
        let payload :=
          chat_payload settings messages
            (ModelConfig.stream (Settings.model settings)) in
        ( [ {| call_sender := ByChat;
               call_url := Settings.base_url settings;
               call_headers := json_headers key;
               call_json := payload |} ],
          match completion up payload with
          | HttpJson body => Return body
          | HttpNotJson => Raise ValueError
          | HttpStatus c t r => Raise (HTTPException c (status_detail t r))
          | HttpFailed =>
              Raise (HTTPException 502 (py "Upstream SiliconFlow request failed"))
          end )
    end.
Proof.
  unfold chat_generate, SiliconFlowClient_chat, Settings.require_api_key.
  destruct (Settings.api_key settings) as [|k0 key]; [reflexivity|].
  unfold pure, ibind, post, try_except.
  destruct (completion up _); reflexivity.
Qed.

(** The streaming generator sends at most the streaming request, whose
    [messages] are the ones it was given. *)
Lemma streaming_response_calls (messages : pyval)
    (documents : list RetrievedDocument.t) (c : call) :
  In c (fst (_streaming_response settings up messages documents)) ->
  call_sender c = ByStreamChat
  /\ call_json c = chat_payload settings messages true.
Proof.
  unfold _streaming_response.
  destruct (encode _) as [meta|e0]; [|simpl; tauto].
  unfold stream_chat.
  destruct (Settings.require_api_key settings) as [key|e]; [|simpl; tauto].
  destruct (completion_stream up _) as [lines broken|code t r|].
  - destruct (stream_lines lines broken) as [chunks ended].
    simpl. intros [<-|[]]. split; reflexivity.
  - simpl. intros [<-|[]]. split; reflexivity.
  - simpl. intros [<-|[]]. split; reflexivity.
Qed.

End Orchestrator.

Lemma extract_answer_no_answer (raw : pyval) :
  no_answer raw ->
  exists detail, _extract_answer raw = Raise (HTTPException 502 detail).
Proof.
  destruct raw as [| | | | | |d]; simpl; try contradiction.
  unfold _extract_answer, get.
  destruct (lookup (py "choices") d) as [[| | | | |[|first rest]|]|];
    try contradiction.
  - intros _. simpl. eauto.
  - destruct first as [| | | | | |ch]; try contradiction.
    assert (Hblank : forall m,
      (m = PNone \/ exists msg, m = PDict msg /\ blank_content msg) ->
      exists detail,
        (c <~ get (por m (PDict [])) (py "content") ;;
         content <~ strip_value (por c (PStr [])) ;;
         match content with
         | [] => Raise (HTTPException 502
                   (py "Choice contained no message content"))
         | _ => Return content
         end) = Raise (HTTPException 502 detail)).
    { intros m [->|(msg & -> & Hb)]; [simpl; eauto|].
      assert (Hp : por (PDict msg) (PDict []) = PDict msg)
        by (now destruct msg).
      rewrite Hp. unfold get, blank_content in *.
      destruct (lookup (py "content") msg) as [[| | | |s| |]|];
        try contradiction; try (simpl; eauto; fail).
      simpl obind. destruct s as [|c0 s]; [simpl; eauto|].
      simpl por. unfold strip_value. simpl obind. rewrite Hb. eauto. }
    intros Hn. simpl.
    destruct (lookup (py "message") ch) as [[| | | | | |msg]|];
      try contradiction; apply Hblank; eauto.
Qed.

(** C7 (as amended). When no retrieval endpoint is configured, the handler
    sends no request that asks for the answer: the only request it can send
    is the rewrite request, and it does post that request, with the original
    query, to the completion service when rewriting is enabled and a
    credential is present; with rewriting disabled, or without a credential,
    nothing is sent at all. The handler fails with HTTP 500, and its detail
    is [RAG_API_URL is not configured] whenever the rewriting step returns a
    query (the rewritten one, or the original one after a failure it
    catches); otherwise the rewriting step has ended with an exception that
    the handler does not catch (neither a [RuntimeError] nor an
    [httpx.HTTPError]), and the handler ends with it. *)
Theorem chat_unconfigured_retrieval `{Runtime}
    (settings : Settings.t) (up : upstream) (request : ChatRequest.t) :
  RetrievalConfig.url (Settings.retrieval settings) = [] ->
  (forall c, In c (fst (chat settings up request)) ->
     call_sender c = ByRewriteQuery /\ is_generation_call c = false)
  /\ http_status (snd (chat settings up request)) = 500%Z
  /\ (snd (chat settings up request)
        = Raise (HTTPException 500 (py "RAG_API_URL is not configured"))
      \/ exists e, (forall msg, e <> RuntimeError msg)
           /\ is_httpx_error e = false
           /\ snd (chat_rewrite settings up request) = Raise e
           /\ snd (chat settings up request) = Raise e)
  /\ (RewriterConfig.enabled (Settings.rewriter settings) = false ->
      chat settings up request
      = ([], Raise (HTTPException 500 (py "RAG_API_URL is not configured"))))
  /\ (RewriterConfig.enabled (Settings.rewriter settings) = true ->
      Settings.api_key settings <> [] ->
      fst (chat settings up request)
      = [ {| call_sender := ByRewriteQuery;
             call_url := Settings.base_url settings;
             call_headers := json_headers (Settings.api_key settings);
             call_json :=
               rewrite_payload settings (ChatRequest.query request) |} ])
  /\ (Settings.api_key settings = [] -> fst (chat settings up request) = [])
  /\ (forall q, snd (chat_rewrite settings up request) = Return q ->
      snd (chat settings up request)
      = Raise (HTTPException 500 (py "RAG_API_URL is not configured"))).
Proof.
  intros Hu.
  destruct (chat_rewrite_cases settings up request) as [Hcalls Hraise].
  pose proof (chat_rewrite_posts settings up request) as Hposts.
  assert (Hnokey : Settings.api_key settings = [] ->
            fst (chat_rewrite settings up request) = []).
  { intros Hk. unfold chat_rewrite.
    destruct (RewriterConfig.enabled (Settings.rewriter settings)) eqn:He;
      [|reflexivity].
    destruct (rewrite_query_no_key settings up (ChatRequest.query request)
                He Hk) as [msg ->].
    reflexivity. }
  assert (Hgen : forall c, call_sender c = ByRewriteQuery ->
            call_sender c = ByRewriteQuery /\ is_generation_call c = false).
  { intros c Hc. split; [exact Hc|]. unfold is_generation_call. now rewrite Hc. }
  unfold chat.
  destruct (chat_rewrite settings up request) as [t [q|e]] eqn:Er.
  - rewrite ibind_return, chat_retrieve_unconfigured by assumption.
    rewrite ibind_raise. simpl fst in *. simpl snd in *. rewrite app_nil_r.
    split; [|split; [|split; [|split; [|split; [|split]]]]].
    + intros c Hc. apply Hgen, Hcalls, Hc.
    + reflexivity.
    + now left.
    + intros He. unfold chat_rewrite in Er. rewrite He in Er.
      now inversion Er.
    + exact Hposts.
    + exact Hnokey.
    + reflexivity.
  - rewrite ibind_raise. simpl fst in *. simpl snd in *.
    pose proof (Hraise e eq_refl) as Hb.
    split; [|split; [|split; [|split; [|split; [|split]]]]].
    + intros c Hc. apply Hgen, Hcalls, Hc.
    + destruct e; try contradiction; reflexivity.
    + right. exists e.
      split; [|split; [|split; reflexivity]].
      * intros msg ->. exact Hb.
      * destruct e; try contradiction; reflexivity.
    + intros He. unfold chat_rewrite in Er. rewrite He in Er. discriminate.
    + exact Hposts.
    + exact Hnokey.
    + discriminate.
Qed.

Lemma chat_unconfigured_retrieval_witness :
  let settings := settings_with [] true in
  let up :=
    fixed_upstream (HttpJson (completion_with (PStr (py "<rewrite>soup</rewrite>"))))
      StreamFailed HttpFailed in
  let request :=
    {| ChatRequest.query := py "soup?"; ChatRequest.top_k := None;
       ChatRequest.stream := false; ChatRequest.use_rerank := None;
       ChatRequest.rerank_mode := None; ChatRequest.rerank_top_k := None |} in
  http_status (snd (@chat (table_runtime []) settings up request)) = 500%Z
  /\ map call_sender (fst (@chat (table_runtime []) settings up request))
     = [ByRewriteQuery]
  /\ map call_json (fst (@chat (table_runtime []) settings up request))
     = [rewrite_payload settings (py "soup?")].
Proof.
  intros settings up request.
  destruct (@chat_unconfigured_retrieval (table_runtime []) settings up request
              eq_refl) as (_ & Hstatus & _ & _ & Hposts & _).
  split; [exact Hstatus|].
  assert (Hk : Settings.api_key settings <> []) by (vm_compute; discriminate).
  rewrite (Hposts eq_refl Hk). split; reflexivity.
Defined.

(** C7 as stated fails: with rewriting enabled and no retrieval endpoint,
    the handler answers HTTP 500 with the configuration message, after it
    has posted the rewrite request to the completion service. *)
Lemma chat_unconfigured_posts_rewrite :
  let settings := settings_with [] true in
  let up :=
    fixed_upstream (HttpJson (completion_with (PStr (py "<rewrite>soup</rewrite>"))))
      StreamFailed HttpFailed in
  let request :=
    {| ChatRequest.query := py "soup?"; ChatRequest.top_k := None;
       ChatRequest.stream := false; ChatRequest.use_rerank := None;
       ChatRequest.rerank_mode := None; ChatRequest.rerank_top_k := None |} in
  RetrievalConfig.url (Settings.retrieval settings) = []
  /\ snd (@chat (table_runtime []) settings up request)
     = Raise (HTTPException 500 (py "RAG_API_URL is not configured"))
  /\ map to_completion_service
       (fst (@chat (table_runtime []) settings up request)) = [true]
  /\ map call_url (fst (@chat (table_runtime []) settings up request))
     = [Settings.base_url settings].
Proof.
  vm_compute. repeat split.
Qed.

(** C8. When a buffered request reaches the generation step and the
    completion service answers it with a well-formed response whose choices
    are empty, or whose first choice has no content or a blank one, the
    handler fails with HTTP 502. *)
Theorem chat_no_answer_502 `{Runtime}
    (settings : Settings.t) (up : upstream) (request : ChatRequest.t)
    (raw : pyval) :
  ChatRequest.stream request = false ->
  (exists c, In c (fst (chat settings up request))
     /\ call_sender c = ByChat
     /\ completion up (call_json c) = HttpJson raw) ->
  no_answer raw ->
  http_status (snd (chat settings up request)) = 502%Z
  /\ exists detail,
       snd (chat settings up request) = Raise (HTTPException 502 detail).
Proof.
  intros Hs (c & Hin & Hby & Hraw) Hn.
  destruct (extract_answer_no_answer raw Hn) as [detail Hd].
  destruct (chat_rewrite_cases settings up request) as [Hcalls _].
  cut (snd (chat settings up request) = Raise (HTTPException 502 detail)).
  { intros ->. split; [reflexivity|eauto]. }
  revert Hin. unfold chat.
  destruct (chat_rewrite settings up request) as [t1 [q|e1]].
  2:{ rewrite ibind_raise. simpl. intros Hin. apply Hcalls in Hin. congruence. }
  rewrite ibind_return.
  pose proof (chat_retrieve_calls settings up request q c) as Hret.
  destruct (chat_retrieve settings up request q) as [t2 [docs|e2]].
  2:{ rewrite ibind_raise. simpl. intros Hin.
      apply in_app_or in Hin as [Hin|Hin].
      - apply Hcalls in Hin. congruence.
      - apply Hret in Hin as [Hin _]. congruence. }
  rewrite ibind_return, Hs, chat_generate_eq.
  destruct (Settings.api_key settings) as [|k0 key].
  { rewrite ibind_raise. simpl. rewrite app_nil_r. intros Hin.
    apply in_app_or in Hin as [Hin|Hin].
    - apply Hcalls in Hin. congruence.
    - apply Hret in Hin as [Hin _]. congruence. }
  cbv zeta.
  set (payload := chat_payload settings _ _).
  destruct (completion up payload) as [body| |code t r|] eqn:Ec;
    rewrite ?ibind_raise, ?ibind_return; simpl fst; simpl snd;
    rewrite ?app_nil_r; intros Hin;
    (apply in_app_or in Hin as [Hin|Hin];
     [apply Hcalls in Hin; congruence|]);
    (apply in_app_or in Hin as [Hin|Hin];
     [apply Hret in Hin as [Hin _]; congruence|]);
    destruct Hin as [<-|[]]; simpl call_json in Hraw;
    fold payload in Hraw; rewrite Ec in Hraw; inversion Hraw; subst.
  now rewrite Hd.
Qed.

Lemma chat_no_answer_502_witness :
  let settings := settings_with DEFAULT_RAG_URL false in
  let up :=
    fixed_upstream (HttpJson (PDict [ (py "choices", PList []) ]))
      StreamFailed
      (HttpJson (PList [ text_item (py "tofu soup") ])) in
  let request :=
    {| ChatRequest.query := py "soup?"; ChatRequest.top_k := None;
       ChatRequest.stream := false; ChatRequest.use_rerank := None;
       ChatRequest.rerank_mode := None; ChatRequest.rerank_top_k := None |} in
  http_status (snd (@chat (table_runtime []) settings up request)) = 502%Z.
Proof.
  intros settings up request.
  refine (proj1 (@chat_no_answer_502 (table_runtime []) settings up request
                   (PDict [ (py "choices", PList []) ]) eq_refl _ _)).
  - eexists. split; [|split].
    + vm_compute. right. left. reflexivity.
    + reflexivity.
    + reflexivity.
  - vm_compute. exact I.
Defined.

Lemma chat_payload_messages (settings : Settings.t) (messages : pyval)
    (flag : bool) :
  get (chat_payload settings messages flag) (py "messages") = Return messages.
Proof. reflexivity. Qed.

(** C4 (as amended). When rewriting is enabled and [rewrite_query] returns a
    query that differs from the original, the rewritten query goes into the
    retrieval request, and the messages of every request that asks the
    completion service for the answer are built from the original query. *)
Theorem chat_messages_from_original_query `{Runtime}
    (settings : Settings.t) (up : upstream) (request : ChatRequest.t)
    (rewritten : pystr) :
  RewriterConfig.enabled (Settings.rewriter settings) = true ->
  snd (rewrite_query settings up (ChatRequest.query request))
    = Return rewritten ->
  rewritten <> ChatRequest.query request ->
  forall c, In c (fst (chat settings up request)) ->
    (call_sender c = ByRetrieve ->
     get (call_json c) (py "query") = Return (PStr rewritten))
    /\ (is_generation_call c = true ->
        exists docs,
          get (call_json c) (py "messages")
          = Return (build_messages (ChatRequest.query request) docs)).
Proof.
  intros He Hr _ c.
  destruct (chat_rewrite_cases settings up request) as [Hcalls _].
  assert (Hq : snd (chat_rewrite settings up request) = Return rewritten).
  { unfold chat_rewrite, try_except. rewrite He.
    destruct (rewrite_query settings up (ChatRequest.query request))
      as [t [q|e]]; simpl in *; congruence. }
  assert (Hrw : forall c, call_sender c = ByRewriteQuery ->
    (call_sender c = ByRetrieve ->
     get (call_json c) (py "query") = Return (PStr rewritten))
    /\ (is_generation_call c = true ->
        exists docs,
          get (call_json c) (py "messages")
          = Return (build_messages (ChatRequest.query request) docs))).
  { intros c0 Hc0. unfold is_generation_call. rewrite Hc0.
    split; discriminate. }
  unfold chat.
  destruct (chat_rewrite settings up request) as [t1 [q|e1]];
    simpl in Hq; [|discriminate].
  inversion Hq; subst q. rewrite ibind_return.
  pose proof (chat_retrieve_calls settings up request rewritten c) as Hret.
  assert (Hrt : In c (fst (chat_retrieve settings up request rewritten)) ->
    (call_sender c = ByRetrieve ->
     get (call_json c) (py "query") = Return (PStr rewritten))
    /\ (is_generation_call c = true ->
        exists docs,
          get (call_json c) (py "messages")
          = Return (build_messages (ChatRequest.query request) docs))).
  { intros Hin. destruct (Hret Hin) as [Hs Hg]. split; [auto|].
    unfold is_generation_call. rewrite Hs. discriminate. }
  destruct (chat_retrieve settings up request rewritten) as [t2 [docs|e2]].
  2:{ rewrite ibind_raise. simpl. intros Hin.
      apply in_app_or in Hin as [Hin|Hin]; auto. }
  rewrite ibind_return. simpl fst at 1.
  intros Hin. apply in_app_or in Hin as [Hin|Hin]; [auto|]. simpl fst in Hin.
  apply in_app_or in Hin as [Hin|Hin]; [auto|].
  destruct (ChatRequest.stream request).
  - pose proof (streaming_response_calls settings up
                  (build_messages (ChatRequest.query request)
                     (_trim_documents settings docs None))
                  (_trim_documents settings docs None) c) as Hst.
    destruct (_streaming_response settings up _ _) as [calls body].
    simpl in Hin, Hst. destruct (Hst Hin) as [Hs Hj].
    split; [congruence|]. intros _. rewrite Hj, chat_payload_messages. eauto.
  - rewrite chat_generate_eq in Hin.
    destruct (Settings.api_key settings) as [|k0 key].
    { rewrite ibind_raise in Hin. destruct Hin. }
    cbv zeta in Hin.
    destruct (completion up _) as [body| |code t r|];
      rewrite ?ibind_raise, ?ibind_return in Hin; simpl fst in Hin;
      rewrite ?app_nil_r in Hin; destruct Hin as [<-|[]];
      (split; [discriminate
             |intros _; simpl call_json; rewrite chat_payload_messages; eauto]).
Qed.

Lemma chat_messages_from_original_query_witness :
  let up :=
    fixed_upstream (HttpJson (completion_with (PStr (py "<rewrite>mild soup</rewrite>"))))
      StreamFailed
      (HttpJson (PList [ text_item (py "tofu soup") ])) in
  let request := request_for (py "no chili") None false in
  let run := @chat (table_runtime []) get_settings up request in
  let retrieval := nth 1 (fst run) no_call in
  let generation := nth 2 (fst run) no_call in
  get (call_json retrieval) (py "query") = Return (PStr (py "mild soup"))
  /\ exists docs,
       get (call_json generation) (py "messages")
       = Return (@build_messages (table_runtime []) (py "no chili") docs).
Proof.
  intros up request run retrieval generation.
  assert (Hne : py "mild soup" <> ChatRequest.query request)
    by (vm_compute; discriminate).
  split.
  - refine (proj1 (@chat_messages_from_original_query (table_runtime [])
                     get_settings up request (py "mild soup") eq_refl eq_refl
                     Hne retrieval _) eq_refl).
    vm_compute. right. left. reflexivity.
  - refine (proj2 (@chat_messages_from_original_query (table_runtime [])
                     get_settings up request (py "mild soup") eq_refl eq_refl
                     Hne generation _) eq_refl).
    vm_compute. right. right. left. reflexivity.
Defined.

(** C4 as stated fails: the rewriter turns [no chili] into [mild soup]; the
    one request that asks for the answer carries the messages built from
    [no chili], which are not those built from [mild soup]. *)
Lemma chat_prompt_keeps_original_query :
  let up :=
    fixed_upstream (HttpJson (completion_with (PStr (py "<rewrite>mild soup</rewrite>"))))
      StreamFailed
      (HttpJson (PList [ text_item (py "tofu soup") ])) in
  let request :=
    {| ChatRequest.query := py "no chili"; ChatRequest.top_k := None;
       ChatRequest.stream := false; ChatRequest.use_rerank := None;
       ChatRequest.rerank_mode := None; ChatRequest.rerank_top_k := None |} in
  let run := @chat (table_runtime []) get_settings up request in
  let docs := [text_document (py "tofu soup")] in
    snd (rewrite_query get_settings up (py "no chili")) = Return (py "mild soup")
    /\ http_status (snd run) = 200%Z
    /\ map (fun c => get (call_json c) (py "messages"))
         (filter is_generation_call (fst run))
       = [ Return (@build_messages (table_runtime []) (py "no chili") docs) ]
    /\ @build_messages (table_runtime []) (py "no chili") docs
       <> @build_messages (table_runtime []) (py "mild soup") docs.
Proof.
  vm_compute. repeat split. discriminate.
Qed.

(* ================================================================= *)
(** ** Trimming *)

Lemma slice_to_firstn {A} (k : Z) (l : list A) :
  (0 <= k)%Z -> slice_to k l = firstn (Z.to_nat k) l.
Proof.
  intros Hk. unfold slice_to. destruct (Z.ltb_spec k 0); [lia|reflexivity].
Qed.

(** Without a limit, [_trim_documents] keeps the configured number of
    documents; with one, that number. *)
Lemma trim_documents_default (settings : Settings.t)
    (documents : list RetrievedDocument.t) :
  (1 <= RetrievalConfig.top_k (Settings.retrieval settings))%Z ->
  _trim_documents settings documents None
  = firstn (Z.to_nat (RetrievalConfig.top_k (Settings.retrieval settings)))
      documents.
Proof.
  intros Hk. unfold _trim_documents. simpl. apply slice_to_firstn. lia.
Qed.

Lemma trim_documents_limit (settings : Settings.t)
    (documents : list RetrievedDocument.t) (k : Z) :
  (1 <= k)%Z ->
  _trim_documents settings documents (Some k)
  = firstn (Z.to_nat k) documents.
Proof.
  intros Hk. unfold _trim_documents. simpl.
  destruct (Z.eqb_spec k 0); [lia|]. simpl. apply slice_to_firstn. lia.
Qed.

(** The documents of every buffered response are the retrieved ones trimmed
    without a limit. *)
Lemma chat_response_documents `{Runtime}
    (settings : Settings.t) (up : upstream) (request : ChatRequest.t)
    (r : ChatResponse.t) :
  snd (chat settings up request) = Return (JsonResponse r) ->
  exists q docs,
    snd (chat_retrieve settings up request q) = Return docs
    /\ ChatResponse.documents r = _trim_documents settings docs None.
Proof.
  unfold chat.
  destruct (chat_rewrite settings up request) as [t1 [q|e1]];
    [|rewrite ibind_raise; discriminate].
  rewrite ibind_return. simpl snd.
  destruct (chat_retrieve settings up request q) as [t2 [docs|e2]] eqn:Er;
    [|rewrite ibind_raise; discriminate].
  rewrite ibind_return. simpl snd.
  destruct (ChatRequest.stream request).
  - destruct (_streaming_response settings up _ _). discriminate.
  - destruct (chat_generate settings up _) as [t3 [raw|e3]];
      [|rewrite ibind_raise; discriminate].
    rewrite ibind_return. simpl snd. intros Hr.
    step_binds Hr. inversion Hr; subst. simpl.
    exists q, docs. rewrite Er. auto.
Qed.

(** C1. The settings keep five documents; the request asks for ten and the
    retrieval service returns ten. The effective [top_k] of the request is
    ten, yet the response carries five documents, and five are in the
    prompt: [chat] calls [_trim_documents] without the request's [top_k]. *)
Theorem chat_trims_to_configured_top_k :
  let settings := settings_with DEFAULT_RAG_URL false in
  let names :=
    [ py "d1"; py "d2"; py "d3"; py "d4"; py "d5";
      py "d6"; py "d7"; py "d8"; py "d9"; py "d10" ] in
  let up :=
    fixed_upstream (HttpJson (completion_with (PStr (py "ok"))))
      StreamFailed (HttpJson (PList (map text_item names))) in
  let request := request_for (py "soup") (Some 10%Z) false in
  let run := @chat (table_runtime []) settings up request in
  snd (@retrieve (table_runtime []) settings up (py "soup") (Some 10%Z)
         None None None)
    = Return (map text_document names)
  /\ effective_top_k settings (ChatRequest.top_k request) = 10%Z
  /\ Nat.min (length names) 10 = 10%nat
  /\ match snd run with
     | Return (JsonResponse r) =>
         ChatResponse.documents r = map text_document (firstn 5 names)
     | _ => False
     end
  /\ map (fun c => get (call_json c) (py "messages"))
       (filter is_generation_call (fst run))
     = [ Return (@build_messages (table_runtime []) (py "soup")
                   (map text_document (firstn 5 names))) ].
Proof.
  vm_compute. repeat split.
Qed.

(* ================================================================= *)
(** ** The streamed response *)

Lemma join_chunks_strs (texts : list pystr) :
  join_chunks (map PStr texts) = Return (concat texts).
Proof.
  induction texts as [|s texts IH]; simpl; [reflexivity|].
  now rewrite IH.
Qed.

Lemma utf8_app (a b : pystr) : utf8 (a ++ b) = utf8 a ++ utf8 b.
Proof. apply flat_map_app. Qed.

Lemma utf8_concat (texts : list pystr) :
  concat (map utf8 texts) = utf8 (concat texts).
Proof.
  induction texts as [|s texts IH]; simpl; [reflexivity|].
  now rewrite utf8_app, IH.
Qed.

Lemma encodable_app (a b : pystr) :
  encodable (a ++ b) = encodable a && encodable b.
Proof. apply forallb_app. Qed.

Lemma encodable_concat (texts : list pystr) :
  Forall (fun s => encodable s = true) texts ->
  encodable (concat texts) = true.
Proof.
  induction 1 as [|s texts Hs _ IH]; simpl; [reflexivity|].
  now rewrite encodable_app, Hs, IH.
Qed.

Lemma encodable_strip (s : pystr) :
  encodable s = true -> encodable (strip s) = true.
Proof.
  unfold strip. intros Hs.
  destruct (lstrip_suffix s) as [w Hw].
  destruct (rstrip_prefix (lstrip s)) as [v Hv].
  rewrite Hw, encodable_app in Hs. apply andb_true_iff in Hs as [_ Hs].
  rewrite Hv, encodable_app in Hs. apply andb_true_iff in Hs as [Hs _].
  exact Hs.
Qed.

Lemma hex_digit_plain (n : N) :
  (n < 16)%N -> is_surrogate (hex_digit n) = false.
Proof.
  intros Hn. unfold is_surrogate, hex_digit.
  apply andb_false_iff. left. apply N.leb_gt.
  destruct (n <? 10)%N; lia.
Qed.

Lemma encodable_json_escape (c : codepoint) :
  is_surrogate c = false -> encodable (json_escape c) = true.
Proof.
  intros Hc. unfold json_escape.
  repeat match goal with
         | |- context [if ?b then _ else _] => destruct b eqn:?
         end; try reflexivity.
  - unfold encodable. cbn [forallb]. 
    match goal with E : (c <? 32)%N = true |- _ => apply N.ltb_lt in E end.
    rewrite !hex_digit_plain; [reflexivity| |].
    + apply N.mod_lt. discriminate.
    + apply N.Div0.div_lt_upper_bound. lia.
  - unfold encodable. cbn [forallb]. now rewrite Hc.
Qed.

Lemma encodable_json_str (s : pystr) :
  encodable s = true -> encodable (json_str s) = true.
Proof.
  intros Hs. unfold json_str. rewrite !encodable_app.
  assert (He : encodable (flat_map json_escape s) = true).
  { induction s as [|c s IH]; [reflexivity|].
    change (encodable (c :: s)) with (negb (is_surrogate c) && encodable s) in Hs.
    apply andb_true_iff in Hs as [Hc Hs].
    change (flat_map json_escape (c :: s))
      with (json_escape c ++ flat_map json_escape s).
    rewrite encodable_app, IH by exact Hs.
    rewrite encodable_json_escape; [reflexivity|].
    now destruct (is_surrogate c). }
  now rewrite He.
Qed.

Lemma firstn_app_exact {A} (l r : list A) :
  firstn (length (l ++ r) - length r) (l ++ r) = l.
Proof.
  rewrite length_app, Nat.add_sub, firstn_app, Nat.sub_diag, firstn_all.
  simpl. apply app_nil_r.
Qed.

Lemma skipn_app_exact {A} (l r : list A) : skipn (length l) (l ++ r) = r.
Proof.
  rewrite skipn_app, skipn_all, Nat.sub_diag. reflexivity.
Qed.

Section Streaming.
Context `{Runtime}.
Variable settings : Settings.t.
Variable up : upstream.

(** The event of each of the four kinds of frame. *)
Lemma frame_events (data : pyval) :
  (is_meta (frame (py "meta") data) = true
   /\ is_delta (frame (py "meta") data) = false
   /\ is_terminal (frame (py "meta") data) = false)
  /\ (is_meta (frame (py "delta") data) = false
      /\ is_delta (frame (py "delta") data) = true
      /\ is_terminal (frame (py "delta") data) = false)
  /\ (is_meta (frame (py "end") data) = false
      /\ is_delta (frame (py "end") data) = false
      /\ is_terminal (frame (py "end") data) = true)
  /\ (is_meta (frame (py "error") data) = false
      /\ is_delta (frame (py "error") data) = false
      /\ is_terminal (frame (py "error") data) = true).
Proof. repeat split; reflexivity. Qed.

Lemma filter_delta_frames (chunks : list pyval) :
  filter is_meta (map (frame (py "delta")) chunks) = []
  /\ filter is_terminal (map (frame (py "delta")) chunks) = []
  /\ filter is_delta (map (frame (py "delta")) chunks)
     = map (frame (py "delta")) chunks.
Proof.
  induction chunks as [|c chunks (IH1 & IH2 & IH3)]; [now repeat split|].
  destruct (frame_events c) as (_ & (D1 & D2 & D3) & _).
  cbn [map filter]. rewrite D1, D2, D3, IH1, IH2, IH3. now repeat split.
Qed.

(** The payload of the delta frame of a str chunk is the chunk. *)
Lemma delta_frame_payload (s : pystr) :
  frame_payload (py "delta") (frame (py "delta") (PStr s)) = utf8 s.
Proof.
  unfold frame_payload, frame, _sse.
  set (head := py "event: " ++ py "delta" ++ [10%N] ++ py "data: ").
  change (py "event: " ++ py "delta" ++ [10%N] ++ py "data: " ++ s ++ [10%N; 10%N])
    with (head ++ s ++ [10%N; 10%N]).
  rewrite utf8_app, skipn_app_exact, utf8_app.
  exact (firstn_app_exact (utf8 s) [10%N; 10%N]).
Qed.

Lemma encodable_delta (s : pystr) :
  encodable s = true -> encodable (_sse (py "delta") (PStr s)) = true.
Proof.
  intros Hs. unfold _sse. rewrite !encodable_app, Hs. reflexivity.
Qed.

Lemma encodable_end (answer : pystr) :
  encodable answer = true ->
  encodable (_sse (py "end") (PDict [ (py "answer", PStr answer) ])) = true.
Proof.
  intros Hs. unfold _sse. cbn [json_dumps map join].
  rewrite !encodable_app, (encodable_json_str answer Hs). reflexivity.
Qed.

(** When every chunk is a str without a surrogate, every delta frame is
    sent. *)
Lemma delta_frames_strs (texts : list pystr) :
  Forall (fun s => encodable s = true) texts ->
  delta_frames (map PStr texts)
  = (map (frame (py "delta")) (map PStr texts), None).
Proof.
  induction 1 as [|s texts Hs _ IH]; [reflexivity|].
  cbn [map delta_frames]. unfold encode.
  rewrite (encodable_delta s Hs), IH. reflexivity.
Qed.

(** In general the delta frames are those of an initial segment of the
    chunks: all of them, or the ones before the first chunk whose frame
    cannot be encoded. *)
Lemma delta_frames_sent (chunks : list pyval) :
  exists sent rest,
    chunks = sent ++ rest
    /\ fst (delta_frames chunks) = map (frame (py "delta")) sent
    /\ match snd (delta_frames chunks) with
       | None => rest = []
       | Some e =>
           e = ValueError
           /\ exists chunk rest',
                rest = chunk :: rest'
                /\ encodable (_sse (py "delta") chunk) = false
       end.
Proof.
  induction chunks as [|c chunks (sent & rest & Hc & Hf & Hr)].
  - exists [], []. repeat split.
  - cbn [delta_frames]. unfold encode.
    destruct (encodable (_sse (py "delta") c)) eqn:Ec.
    + destruct (delta_frames chunks) as [frames failed].
      cbn [fst snd] in *. exists (c :: sent), rest.
      subst chunks frames. repeat split. exact Hr.
    + exists [], (c :: chunks). cbn [fst snd].
      repeat split. eauto.
Qed.

Lemma last_frame_encodable (frames : list bytes) (text : pystr) :
  encodable text = true ->
  last_frame frames text = (frames ++ [utf8 text], None).
Proof. intros He. unfold last_frame, encode. now rewrite He. Qed.

(** Well-shaped lines give str chunks without surrogates, and the stream
    ends by itself or with a transport error. *)
Lemma stream_lines_well_shaped (lines : list pystr) (broken : bool) :
  Forall well_shaped_line lines ->
  exists texts,
    fst (stream_lines lines broken) = map PStr texts
    /\ Forall (fun s => encodable s = true) texts
    /\ (snd (stream_lines lines broken) = None
        \/ snd (stream_lines lines broken) = Some TransportError).
Proof.
  induction 1 as [|line lines Hl _ (texts & Hc & Ht & He)]; simpl.
  - exists []. split; [reflexivity|]. split; [constructor|].
    destruct broken; auto.
  - unfold well_shaped_line in Hl.
    destruct (stream_line line) as [| |content|e]; try contradiction.
    + eauto.
    + exists []. auto.
    + destruct content as [| | | |s| |]; try contradiction.
      destruct (stream_lines lines broken) as [chunks ended].
      simpl in *. exists (s :: texts). subst. auto.
Qed.

(** For a well-shaped reply to the streaming request the chunks are strs
    without surrogates, and the generator of [stream_chat] ends by itself,
    with a transport error, or for lack of a credential. *)
Lemma stream_chat_well_shaped (messages : pyval) :
  well_shaped_stream
    (completion_stream up (chat_payload settings messages true)) ->
  exists texts,
    fst (snd (stream_chat settings up messages)) = map PStr texts
    /\ Forall (fun s => encodable s = true) texts
    /\ match snd (snd (stream_chat settings up messages)) with
       | None => True
       | Some e =>
           e = TransportError
           \/ e = RuntimeError
                    (py "SILICONFLOW_API_KEY is not set. Export it before starting the service.")
       end.
Proof.
  unfold stream_chat, Settings.require_api_key.
  destruct (Settings.api_key settings) as [|k0 key].
  - intros _. exists []. simpl. auto.
  - destruct (completion_stream up _) as [lines broken|code t r|]; simpl.
    + intros Hw.
      destruct (stream_lines_well_shaped lines broken Hw)
        as (texts & Hc & Ht & [He|He]); exists texts; rewrite He; auto.
    + contradiction.
    + intros _. exists []. auto.
Qed.

(** The frames of a streamed response over a well-shaped reply. *)
Lemma streaming_response_frames (messages : pyval)
    (documents : list RetrievedDocument.t) :
  encodable (_sse (py "meta") (meta_payload settings documents)) = true ->
  well_shaped_stream
    (completion_stream up (chat_payload settings messages true)) ->
  exists texts terminal,
    snd (_streaming_response settings up messages documents)
    = (frame (py "meta") (meta_payload settings documents)
       :: map (frame (py "delta")) (map PStr texts) ++ [terminal], None)
    /\ fst (snd (stream_chat settings up messages)) = map PStr texts
    /\ match snd (snd (stream_chat settings up messages)) with
       | None =>
           terminal
           = frame (py "end")
               (PDict [ (py "answer", PStr (strip (concat texts))) ])
       | Some e =>
           exists msg,
             (e = RuntimeError msg
              \/ e = TransportError
                 /\ msg = py "Upstream SiliconFlow request failed")
             /\ terminal
                = frame (py "error") (PDict [ (py "message", PStr msg) ])
       end.
Proof.
  intros Hm Hw.
  destruct (stream_chat_well_shaped messages Hw) as (texts & Hc & Ht & He).
  unfold _streaming_response, _serialize_documents, encode.
  fold (meta_payload settings documents). rewrite Hm.
  destruct (stream_chat settings up messages) as [calls [chunks ended]].
  cbn [fst snd] in Hc, He |- *. subst chunks.
  rewrite (delta_frames_strs texts Ht).
  exists texts.
  destruct ended as [e|].
  - destruct He as [->| ->]; cbn [stream_error_message];
      rewrite last_frame_encodable by reflexivity;
      eexists; (split; [reflexivity|]); (split; [reflexivity|]); eauto.
  - rewrite join_chunks_strs.
    rewrite last_frame_encodable
      by (apply encodable_end, encodable_strip, encodable_concat, Ht).
    eexists. split; [reflexivity|]. split; reflexivity.
Qed.

End Streaming.

(** C2 (as amended). A streamed request whose first two steps returned,
    whose [meta] frame can be encoded as UTF-8, and whose streaming request
    is answered by a well-shaped reply (lines each of which is skipped, is
    the end sentinel, or decodes to an object with a str content free of
    surrogates, with or without a broken connection after them; or a
    transport failure; not an error status) is answered with a stream that
    no exception escapes, and whose frames are one [meta] frame, then one
    [delta] frame for each chunk, then exactly one terminal frame: the
    [end] frame when [stream_chat] ends by itself, and then its answer is
    the concatenation of the delta payloads with surrounding whitespace
    trimmed; an [error] frame when [stream_chat] raises, which it then does
    with a [RuntimeError] or a transport error. *)
Theorem chat_stream_frames `{Runtime}
    (settings : Settings.t) (up : upstream) (request : ChatRequest.t)
    (t1 t2 : list call) (q : pystr) (docs : list RetrievedDocument.t) :
  ChatRequest.stream request = true ->
  chat_rewrite settings up request = (t1, Return q) ->
  chat_retrieve settings up request q = (t2, Return docs) ->
  let documents := _trim_documents settings docs None in
  let messages := build_messages (ChatRequest.query request) documents in
  let frames := response_frames (snd (chat settings up request)) in
  encodable (_sse (py "meta") (meta_payload settings documents)) = true ->
  well_shaped_stream
    (completion_stream up (chat_payload settings messages true)) ->
  exists texts terminal,
    snd (chat settings up request)
    = Return (StreamingResponse
        (frame (py "meta") (meta_payload settings documents)
         :: map (frame (py "delta")) (map PStr texts) ++ [terminal])
        None)
    /\ fst (snd (stream_chat settings up messages)) = map PStr texts
    /\ match snd (snd (stream_chat settings up messages)) with
       | None =>
           terminal
           = frame (py "end")
               (PDict [ (py "answer", PStr (strip (concat texts))) ])
       | Some e =>
           exists msg,
             (e = RuntimeError msg
              \/ e = TransportError
                 /\ msg = py "Upstream SiliconFlow request failed")
             /\ terminal
                = frame (py "error") (PDict [ (py "message", PStr msg) ])
       end
    /\ length (filter is_meta frames) = 1%nat
    /\ length (filter is_terminal frames) = 1%nat
    /\ length (filter is_delta frames) = length texts
    /\ delta_payloads frames = map utf8 texts
    /\ concat (delta_payloads frames) = utf8 (concat texts).
Proof.
  intros Hs Hq Hd documents messages frames Hm Hw.
  destruct (streaming_response_frames settings up messages documents Hm Hw)
    as (texts & terminal & Hf & Hc & Ht).
  assert (Hchat :
    snd (chat settings up request)
    = Return (StreamingResponse
        (frame (py "meta") (meta_payload settings documents)
         :: map (frame (py "delta")) (map PStr texts) ++ [terminal])
        None)).
  { unfold chat. rewrite Hq, ibind_return, Hd, ibind_return, Hs.
    fold documents. fold messages.
    destruct (_streaming_response settings up messages documents)
      as [cs body].
    cbn [snd] in Hf. subst body. reflexivity. }
  exists texts, terminal.
  split; [exact Hchat|]. split; [exact Hc|]. split; [exact Ht|].
  subst frames. rewrite Hchat. cbn [response_frames].
  destruct (filter_delta_frames (map PStr texts)) as (F1 & F2 & F3).
  destruct (frame_events (meta_payload settings documents))
    as ((M1 & M2 & M3) & _).
  assert (Hlast : is_meta terminal = false /\ is_delta terminal = false
                  /\ is_terminal terminal = true).
  { destruct (snd (snd (stream_chat settings up messages))) as [e|].
    - destruct Ht as (msg & _ & ->).
      exact (proj2 (proj2 (proj2 (frame_events _)))).
    - subst terminal. exact (proj1 (proj2 (proj2 (frame_events _)))). }
  destruct Hlast as (L1 & L2 & L3).
  assert (Hp : delta_payloads
                 (frame (py "meta") (meta_payload settings documents)
                  :: map (frame (py "delta")) (map PStr texts) ++ [terminal])
               = map utf8 texts).
  { unfold delta_payloads. cbn [filter]. rewrite M2, filter_app, F3.
    cbn [filter]. rewrite L2, app_nil_r, !map_map.
    apply map_ext. intros s. apply delta_frame_payload. }
  cbn [filter]. rewrite M1, M2, M3, !filter_app, F1, F2, F3.
  cbn [filter]. rewrite L1, L2, L3.
  repeat split.
  - simpl. now rewrite app_nil_r, !length_map.
  - exact Hp.
  - rewrite Hp. apply utf8_concat.
Qed.

Lemma chat_stream_frames_witness :
  let runtime :=
    table_runtime [ (delta_json (py " Hi"), delta_event (py " Hi"));
                    (delta_json (py " there "), delta_event (py " there ")) ] in
  let up :=
    fixed_upstream HttpFailed
      (StreamLines [ py "data: " ++ delta_json (py " Hi"); [];
                     py ": keep-alive";
                     py "data: " ++ delta_json (py " there ");
                     py "data: [DONE]" ] false)
      (HttpJson (PList [ text_item (py "tofu soup") ])) in
  let run :=
    @chat runtime (settings_with DEFAULT_RAG_URL false) up
      (request_for (py "soup?") None true) in
  length (filter is_terminal (response_frames (snd run))) = 1%nat
  /\ delta_payloads (response_frames (snd run))
     = [ utf8 (py " Hi"); utf8 (py " there ") ]
  /\ last (response_frames (snd run)) []
     = utf8 (py "event: end" ++ [10%N] ++ py "data: {" ++ quoted (py "answer")
             ++ py ": " ++ quoted (py "Hi there") ++ py "}" ++ [10%N; 10%N]).
Proof.
  intros runtime up run.
  assert (Hq : chat_rewrite (settings_with DEFAULT_RAG_URL false) up
                 (request_for (py "soup?") None true)
               = ([], Return (py "soup?"))) by reflexivity.
  assert (Hd : @chat_retrieve runtime (settings_with DEFAULT_RAG_URL false) up
                 (request_for (py "soup?") None true) (py "soup?")
               = (fst (@chat_retrieve runtime
                         (settings_with DEFAULT_RAG_URL false) up
                         (request_for (py "soup?") None true) (py "soup?")),
                  Return [ text_document (py "tofu soup") ]))
    by (vm_compute; reflexivity).
  pose proof (@chat_stream_frames runtime (settings_with DEFAULT_RAG_URL false)
                up (request_for (py "soup?") None true) _ _ _ _
                eq_refl Hq Hd) as T.
  cbv zeta in T.
  lapply T; [clear T; intros T|vm_compute; reflexivity].
  lapply T; [clear T; intros T|vm_compute; repeat constructor].
  destruct T as (texts & terminal & _ & _ & _ & _ & Hone & _).
  split; [exact Hone|].
  split; vm_compute; reflexivity.
Defined.

(** C2 as stated fails, in three ways. First: the upstream sends the one
    chunk [" hi"]; the stream is [meta], [delta], [end], the payload of the
    delta frame is [" hi"], and the answer of the [end] frame is ["hi"].
    Second: the upstream sends the line [data: []]; [stream_chat] raises
    [AttributeError], which the generator does not handle, and the stream is
    the [meta] frame alone, without a terminal frame. Third: the upstream
    answers the streaming request with status 500; the clause that handles
    the status error reads the body of a response that was never read,
    httpx raises [ResponseNotRead], and the stream is again the [meta] frame
    alone. *)
Lemma chat_stream_answer_trimmed_or_unterminated :
  let settings := settings_with DEFAULT_RAG_URL false in
  let request := request_for (py "soup?") None true in
  let retrieved := HttpJson (PList [ text_item (py "tofu soup") ]) in
  (let runtime := table_runtime [ (delta_json (py " hi"), delta_event (py " hi")) ] in
   let up :=
     fixed_upstream HttpFailed
       (StreamLines [ py "data: " ++ delta_json (py " hi"); py "data: [DONE]" ]
          false) retrieved in
   let frames := response_frames (snd (@chat runtime settings up request)) in
   map is_meta frames = [ true; false; false ]
   /\ skipn 1 frames
      = [ utf8 (py "event: delta" ++ [10%N] ++ py "data:  hi" ++ [10%N; 10%N]);
          utf8 (py "event: end" ++ [10%N] ++ py "data: {"
                ++ quoted (py "answer") ++ py ": " ++ quoted (py "hi")
                ++ py "}" ++ [10%N; 10%N]) ]
   /\ delta_payloads frames = [ utf8 (py " hi") ]
   /\ py " hi" <> py "hi")
  /\
  (let runtime := table_runtime [ (py "[]", PList []) ] in
   let up :=
     fixed_upstream HttpFailed (StreamLines [ py "data: []" ] false) retrieved in
   let run := @chat runtime settings up request in
   snd run
   = Return (StreamingResponse (response_frames (snd run)) (Some AttributeError))
   /\ map is_meta (response_frames (snd run)) = [ true ]
   /\ filter is_terminal (response_frames (snd run)) = [])
  /\
  (let up :=
     fixed_upstream HttpFailed
       (StreamStatus 500 (py "overloaded") (py "Internal Server Error"))
       retrieved in
   let run := @chat (table_runtime []) settings up request in
   snd run
   = Return (StreamingResponse (response_frames (snd run))
               (Some (RuntimeError RESPONSE_NOT_READ)))
   /\ map is_meta (response_frames (snd run)) = [ true ]
   /\ filter is_terminal (response_frames (snd run)) = []).
Proof.
  split; [|split].
  - vm_compute. repeat split. discriminate.
  - vm_compute. repeat split.
  - vm_compute. repeat split.
Qed.

(* ================================================================= *)
(** * Further properties *)

(* ================================================================= *)
(** ** More facts about Python strings *)

Module PyStripFacts.

Lemma lstrip_head (s t : pystr) (c : codepoint) :
  lstrip s = c :: t -> isspace c = false.
Proof.
  induction s as [|d s IH]; simpl; [discriminate|].
  destruct (isspace d) eqn:E; [exact IH|].
  intros He. now inversion He; subst.
Qed.

Lemma lstrip_fixed (s : pystr) :
  match s with [] => True | c :: _ => isspace c = false end ->
  lstrip s = s.
Proof. destruct s as [|c s]; simpl; [reflexivity|]. now intros ->. Qed.

Lemma lstrip_idem (s : pystr) : lstrip (lstrip s) = lstrip s.
Proof.
  apply lstrip_fixed. destruct (lstrip s) as [|c t] eqn:E; [exact I|].
  exact (lstrip_head _ _ _ E).
Qed.

Lemma rstrip_idem (s : pystr) : rstrip (rstrip s) = rstrip s.
Proof. unfold rstrip. now rewrite rev_involutive, lstrip_idem. Qed.

(** Trimming the right end of a left-trimmed str leaves it left-trimmed. *)
Lemma lstrip_rstrip_lstrip (s : pystr) :
  lstrip (rstrip (lstrip s)) = rstrip (lstrip s).
Proof.
  apply lstrip_fixed.
  destruct (rstrip_prefix (lstrip s)) as [w Hw].
  destruct (rstrip (lstrip s)) as [|c t]; [exact I|].
  simpl in Hw. exact (lstrip_head _ _ _ Hw).
Qed.

Lemma strip_idem (s : pystr) : strip (strip s) = strip s.
Proof.
  unfold strip. now rewrite lstrip_rstrip_lstrip, rstrip_idem.
Qed.



(** A trimmed str has no whitespace at either end. *)
Lemma strip_ends (s : pystr) :
  match strip s with
  | [] => True
  | c :: _ => isspace c = false
  end
  /\ match rev (strip s) with
     | [] => True
     | c :: _ => isspace c = false
     end.
Proof.
  split.
  - unfold strip. rewrite <- lstrip_rstrip_lstrip.
    destruct (lstrip (rstrip (lstrip s))) as [|c t] eqn:E; [exact I|].
    exact (lstrip_head _ _ _ E).
  - unfold strip, rstrip. rewrite rev_involutive.
    destruct (lstrip (rev (lstrip s))) as [|c t] eqn:E; [exact I|].
    exact (lstrip_head _ _ _ E).
Qed.

End PyStripFacts.

Import PyStripFacts.

(* ================================================================= *)
(** ** The query rewriter, further *)



(** X2. With rewriting enabled and a credential present, a reply without
    choices ([choices] missing, null or empty), or whose first choice has a
    content that is blank after trimming, makes [rewrite_query] return the
    original query; exactly one request has been sent. *)
Theorem rewrite_query_falls_back
    (settings : Settings.t) (up : upstream) (query : pystr) (data : pyval) :
  RewriterConfig.enabled (Settings.rewriter settings) = true ->
  Settings.api_key settings <> [] ->
  completion up (rewrite_payload settings query) = HttpJson data ->
  (exists d, data = PDict d
     /\ (lookup (py "choices") d = None
         \/ lookup (py "choices") d = Some PNone
         \/ lookup (py "choices") d = Some (PList [])))
  \/ (exists content, first_choice_content data content /\ strip content = []) ->
  snd (rewrite_query settings up query) = Return query
  /\ map call_sender (fst (rewrite_query settings up query)) = [ByRewriteQuery].
Proof.
  intros He Hk Hup Hd.
  rewrite rewrite_query_enabled by assumption. simpl. rewrite Hup.
  split; [|reflexivity].
  destruct Hd as [(d & -> & Hc)|(content & Hc & Hs)].
  - now apply rewrite_result_no_choices.
  - now apply rewrite_result_blank_content with (content := content).
Qed.

Lemma rewrite_query_falls_back_witness :
  let up :=
    fixed_upstream (HttpJson (completion_with (PStr (py "   "))))
      StreamFailed HttpFailed in
  snd (rewrite_query get_settings up (py "no chili")) = Return (py "no chili").
Proof.
  intros up.
  refine (proj1 (rewrite_query_falls_back get_settings up (py "no chili")
                   (completion_with (PStr (py "   "))) eq_refl _ eq_refl _)).
  - vm_compute. discriminate.
  - right. exists (py "   "). split; [|reflexivity].
    do 4 eexists. repeat split; reflexivity.
Defined.

(* ================================================================= *)
(** ** The document normalizer, further *)

Lemma strip_value_inv (v : pyval) (content : pystr) :
  strip_value v = Return content -> exists s, v = PStr s /\ content = strip s.
Proof.
  destruct v; simpl; try discriminate. intros He. inversion He. eauto.
Qed.

(** What a kept item has given its document. *)
Lemma normalize_item_kept `{Runtime} (item : pyval)
    (doc : RetrievedDocument.t) :
  normalize_item item = Return (Some doc) ->
  exists text name s,
    get item (py "text") = Return text
    /\ get item (py "name") = Return name
    /\ por (por text name) (PStr []) = PStr s
    /\ RetrievedDocument.content doc = strip s
    /\ strip s <> []
    /\ RetrievedDocument.title doc = _maybe_str name.
Proof.
  unfold normalize_item. intros Hn.
  destruct (get item (py "text")) as [text|] eqn:Et; [|discriminate Hn].
  simpl obind in Hn.
  destruct (get item (py "name")) as [name|] eqn:En; [|discriminate Hn].
  simpl obind in Hn.
  destruct (strip_value (por (por text name) (PStr []))) as [content|] eqn:Ec;
    [|discriminate Hn].
  simpl obind in Hn.
  destruct (strip_value_inv _ _ Ec) as (s & Hs & ->).
  destruct (strip s) as [|c0 content] eqn:Es; [discriminate Hn|].
  step_binds Hn. inversion Hn; subst. simpl.
  exists text, name, s.
  split; [reflexivity|]. split; [reflexivity|]. split; [exact Hs|].
  rewrite Es. split; [reflexivity|]. split; [discriminate|reflexivity].
Qed.

(** What makes an item be skipped. *)
Lemma normalize_item_skipped `{Runtime} (item : pyval) :
  normalize_item item = Return None ->
  exists text name s,
    get item (py "text") = Return text
    /\ get item (py "name") = Return name
    /\ por (por text name) (PStr []) = PStr s
    /\ strip s = [].
Proof.
  unfold normalize_item. intros Hn.
  destruct (get item (py "text")) as [text|] eqn:Et; [|discriminate Hn].
  simpl obind in Hn.
  destruct (get item (py "name")) as [name|] eqn:En; [|discriminate Hn].
  simpl obind in Hn.
  destruct (strip_value (por (por text name) (PStr []))) as [content|] eqn:Ec;
    [|discriminate Hn].
  simpl obind in Hn.
  destruct (strip_value_inv _ _ Ec) as (s & Hs & ->).
  destruct (strip s) as [|c0 content] eqn:Es.
  - exists text, name, s. auto.
  - step_binds Hn; discriminate Hn.
Qed.

Lemma normalize_items_trimmed `{Runtime} (items : list pyval) :
  forall docs, normalize_items items = Return docs ->
    (length docs <= length items)%nat /\ Forall content_trimmed docs.
Proof.
  induction items as [|item items IH]; simpl; intros docs Hn.
  - inversion Hn; subst. split; [simpl; lia|constructor].
  - destruct (normalize_item item) as [d|] eqn:Ei; [|discriminate Hn].
    simpl obind in Hn.
    destruct (normalize_items items) as [ds|]; [|discriminate Hn].
    simpl obind in Hn. inversion Hn; subst.
    destruct (IH ds eq_refl) as [Hl Hf].
    destruct d as [doc|]; simpl; [|split; [lia|exact Hf]].
    split; [lia|]. constructor; [|exact Hf].
    destruct (normalize_item_kept item doc Ei)
      as (text & name & s & _ & _ & _ & Hc & Hne & _).
    unfold content_trimmed. rewrite Hc. split; [exact Hne|apply strip_idem].
Qed.

(** How [retrieve] reads a decoded response. *)
Lemma retrieve_decoded `{Runtime} (settings : Settings.t) (up : upstream)
    (query : pystr) (top_k : option Z) (use_rerank : option bool)
    (rerank_mode : option pystr) (rerank_top_k : option Z) (data : pyval) :
  RetrievalConfig.url (Settings.retrieval settings) <> [] ->
  retrieval_service up (RetrievalConfig.url (Settings.retrieval settings))
    (PDict (retrieve_payload settings query top_k use_rerank rerank_mode
              rerank_top_k))
    = HttpJson data ->
  snd (retrieve settings up query top_k use_rerank rerank_mode rerank_top_k)
  = (docs_payload <~
       match data with
       | PList _ => Return data
       | _ => r <~ get data (py "results") ;; Return (por r (PList []))
       end ;;
     items <~ iterate docs_payload ;;
     normalize_items items).
Proof.
  intros Hu Hr. unfold retrieve.
  destruct (RetrievalConfig.url (Settings.retrieval settings)) as [|c u];
    [contradiction|].
  rewrite Hr. reflexivity.
Qed.

Lemma retrieve_failed `{Runtime} (settings : Settings.t) (up : upstream)
    (query : pystr) (top_k : option Z) (use_rerank : option bool)
    (rerank_mode : option pystr) (rerank_top_k : option Z) :
  RetrievalConfig.url (Settings.retrieval settings) <> [] ->
  snd (retrieve settings up query top_k use_rerank rerank_mode rerank_top_k)
  = match
      retrieval_service up (RetrievalConfig.url (Settings.retrieval settings))
        (PDict (retrieve_payload settings query top_k use_rerank rerank_mode
                  rerank_top_k))
    with
    | HttpJson data =>
        snd (retrieve settings up query top_k use_rerank rerank_mode
               rerank_top_k)
    | HttpNotJson => Raise ValueError
    | HttpStatus c t r => Raise (HTTPStatusError c t r)
    | HttpFailed => Raise TransportError
    end.
Proof.
  intros Hu. unfold retrieve.
  destruct (RetrievalConfig.url (Settings.retrieval settings)) as [|c u];
    [contradiction|].
  unfold ibind, post, pure.
  destruct (retrieval_service up (c :: u) _); reflexivity.
Qed.

(** X3. Every document [retrieve] returns has a content that is not empty
    and has no whitespace at either end. *)
Theorem retrieve_documents_trimmed `{Runtime}
    (settings : Settings.t) (up : upstream) (query : pystr)
    (top_k : option Z) (use_rerank : option bool)
    (rerank_mode : option pystr) (rerank_top_k : option Z)
    (docs : list RetrievedDocument.t) :
  snd (retrieve settings up query top_k use_rerank rerank_mode rerank_top_k)
    = Return docs ->
  Forall content_trimmed docs.
Proof.
  destruct (RetrievalConfig.url (Settings.retrieval settings)) as [|c u] eqn:Hu.
  { unfold retrieve. rewrite Hu. discriminate. }
  assert (Hne : RetrievalConfig.url (Settings.retrieval settings) <> [])
    by (rewrite Hu; discriminate).
  rewrite retrieve_failed by exact Hne.
  destruct (retrieval_service up _ _) as [data| |code t r|] eqn:Er;
    try discriminate.
  rewrite (retrieve_decoded _ _ _ _ _ _ _ data Hne Er). intros Hd.
  step_binds Hd.
  match type of Hd with
  | normalize_items ?l = _ => exact (proj2 (normalize_items_trimmed l _ Hd))
  end.
Qed.

Lemma retrieve_documents_trimmed_witness :
  let up :=
    fixed_upstream HttpFailed StreamFailed
      (HttpJson (PList [ text_item (py "  tofu soup "); text_item (py "   ");
                         text_item (py "miso") ])) in
  Forall content_trimmed
    [ text_document (py "tofu soup"); text_document (py "miso") ].
Proof.
  intros up.
  refine (@retrieve_documents_trimmed (table_runtime []) get_settings up
            (py "soup") None None None None _ _).
  vm_compute. reflexivity.
Defined.

(** X4. [retrieve] reads the items from a bare list and from the [results]
    of an object alike, an object without [results] has no items, and the
    documents are the normalized items. *)
Theorem retrieve_reads_items `{Runtime}
    (settings : Settings.t) (up : upstream) (query : pystr)
    (top_k : option Z) (use_rerank : option bool)
    (rerank_mode : option pystr) (rerank_top_k : option Z)
    (data : pyval) (items : list pyval) :
  RetrievalConfig.url (Settings.retrieval settings) <> [] ->
  retrieval_service up (RetrievalConfig.url (Settings.retrieval settings))
    (PDict (retrieve_payload settings query top_k use_rerank rerank_mode
              rerank_top_k))
    = HttpJson data ->
  response_items data items ->
  snd (retrieve settings up query top_k use_rerank rerank_mode rerank_top_k)
  = normalize_items items.
Proof.
  intros Hu Hr Hi. rewrite (retrieve_decoded _ _ _ _ _ _ _ data Hu Hr).
  destruct Hi as [->|[(d & -> & Hl)|(d & -> & Hl & ->)]].
  - simpl. now destruct (normalize_items items).
  - unfold get. rewrite Hl. simpl obind.
    destruct items as [|i items]; simpl; [reflexivity|].
    now destruct (obind (normalize_item i) _).
  - unfold get. destruct Hl as [-> | ->]; reflexivity.
Qed.

Lemma retrieve_reads_items_witness :
  let items := [ text_item (py "tofu soup"); text_item (py "miso") ] in
  let bare := fixed_upstream HttpFailed StreamFailed (HttpJson (PList items)) in
  let wrapped :=
    fixed_upstream HttpFailed StreamFailed
      (HttpJson (PDict [ (py "total", PInt 2); (py "results", PList items) ])) in
  snd (@retrieve (table_runtime []) get_settings bare (py "soup")
         None None None None)
  = snd (@retrieve (table_runtime []) get_settings wrapped (py "soup")
           None None None None).
Proof.
  intros items bare wrapped.
  assert (Hu : RetrievalConfig.url (Settings.retrieval get_settings) <> [])
    by (vm_compute; discriminate).
  rewrite (@retrieve_reads_items (table_runtime []) get_settings bare
             (py "soup") None None None None (PList items) items Hu eq_refl
             (or_introl eq_refl)).
  rewrite (@retrieve_reads_items (table_runtime []) get_settings wrapped
             (py "soup") None None None None
             (PDict [ (py "total", PInt 2); (py "results", PList items) ])
             items Hu eq_refl
             (or_intror (or_introl
                (ex_intro _ _ (conj eq_refl eq_refl))))).
  reflexivity.
Defined.

(** X5. An item whose [text] is a non-empty str of whitespace only is
    skipped, whatever its [name] is. *)
Theorem normalize_item_blank_text `{Runtime} (item : pyval) (t : pystr) :
  get item (py "text") = Return (PStr t) ->
  t <> [] -> strip t = [] ->
  normalize_item item = Return None.
Proof.
  intros Ht Hne Hs. unfold normalize_item. rewrite Ht. simpl obind.
  destruct (get item (py "name")) as [name|e] eqn:En.
  - simpl obind. destruct t as [|c t]; [contradiction|].
    simpl por. unfold strip_value. simpl obind. now rewrite Hs.
  - destruct item; simpl in Ht, En; discriminate.
Qed.

Lemma normalize_item_blank_text_witness :
  @normalize_item (table_runtime [])
    (PDict [ (py "name", PStr (py "Tofu soup")); (py "text", PStr (py "  ")) ])
  = Return None.
Proof.
  refine (@normalize_item_blank_text (table_runtime [])
            (PDict [ (py "name", PStr (py "Tofu soup"));
                     (py "text", PStr (py "  ")) ])
            (py "  ") eq_refl _ eq_refl).
  vm_compute. discriminate.
Defined.

(** X6. An item without a usable [text] (missing, null or empty) and with a
    [name] that is not blank is not skipped: if no field raises, its
    document has the trimmed name as content and the name as title. *)
Theorem normalize_item_name_fallback `{Runtime}
    (d : list (pystr * pyval)) (n : pystr) :
  lookup (py "text") d = None \/ lookup (py "text") d = Some PNone
    \/ lookup (py "text") d = Some (PStr []) ->
  lookup (py "name") d = Some (PStr n) ->
  strip n <> [] ->
  normalize_item (PDict d) <> Return None
  /\ forall doc, normalize_item (PDict d) = Return (Some doc) ->
       RetrievedDocument.content doc = strip n
       /\ RetrievedDocument.title doc = Some n.
Proof.
  intros Ht Hn Hs.
  assert (Hn0 : n <> []) by (intros ->; now apply Hs).
  assert (Hp : forall text name s,
            get (PDict d) (py "text") = Return text ->
            get (PDict d) (py "name") = Return name ->
            por (por text name) (PStr []) = PStr s ->
            name = PStr n /\ s = n).
  { intros text name s Hgt Hgn Hpor. unfold get in Hgt, Hgn.
    rewrite Hn in Hgn. inversion Hgn; subst name.
    assert (Htext : truthy text = false).
    { destruct Ht as [Ht|[Ht|Ht]]; rewrite Ht in Hgt; inversion Hgt;
        reflexivity. }
    unfold por in Hpor. rewrite Htext in Hpor.
    destruct n as [|c n]; [contradiction|]. simpl in Hpor.
    inversion Hpor. auto. }
  split.
  - intros Hnone.
    destruct (normalize_item_skipped _ Hnone) as (text & name & s & A & B & C & D).
    destruct (Hp _ _ _ A B C) as [_ ->]. contradiction.
  - intros doc Hdoc.
    destruct (normalize_item_kept _ _ Hdoc)
      as (text & name & s & A & B & C & Hc & _ & Htitle).
    destruct (Hp _ _ _ A B C) as [-> ->].
    split; [exact Hc|exact Htitle].
Qed.

Lemma normalize_item_name_fallback_witness :
  forall_documents_of
    (@normalize_item (table_runtime [])
       (PDict [ (py "name", PStr (py " Tofu soup")) ]))
    (fun doc =>
       RetrievedDocument.content doc = py "Tofu soup"
       /\ RetrievedDocument.title doc = Some (py " Tofu soup")).
Proof.
  refine (proj2 (@normalize_item_name_fallback (table_runtime [])
                   [ (py "name", PStr (py " Tofu soup")) ] (py " Tofu soup")
                   (or_introl eq_refl) eq_refl _) _ eq_refl).
  vm_compute. discriminate.
Defined.

(* ================================================================= *)
(** ** The prompt assembler *)

Lemma replace1_absent (old : codepoint) (new s : pystr) :
  ~ In old new -> ~ In old (replace1 old new s).
Proof.
  intros Hn Hin. unfold replace1 in Hin.
  apply in_flat_map in Hin as (c & _ & Hc).
  destruct (N.eqb_spec c old) as [Heq|Hne]; [contradiction|].
  destruct Hc as [Hc|[]]. contradiction.
Qed.

(** Replacing the line feeds of a str by spaces changes it code point by
    code point. *)
Lemma replace1_line_feeds (s : pystr) :
  replace1 10%N (py " ") s
  = map (fun c => if (c =? 10)%N then 32%N else c) s.
Proof.
  unfold replace1. induction s as [|c s IH]; [reflexivity|].
  cbn [flat_map map]. rewrite IH.
  destruct (c =? 10)%N; reflexivity.
Qed.

Lemma nonempty_spec (o : option pystr) :
  match nonempty o with
  | Some s => o = Some s /\ s <> []
  | None => o = None \/ o = Some []
  end.
Proof.
  destruct o as [[|c s]|]; simpl; auto. split; [reflexivity|discriminate].
Qed.

Section PromptFacts.
Context `{Runtime}.

(** X7. A formatted document is [[rank] label], then [ (score=...)] when
    the document has a score, then a line feed, then the snippet: the
    trimmed content with each of its line feeds replaced by a space, so
    that the snippet is one line, as long as the trimmed content. The label
    is the title, else the id, else [Doc-rank], and is never empty. *)
Theorem format_document_layout (doc : RetrievedDocument.t) (rank : N) :
  let snippet :=
    map (fun c => if (c =? 10)%N then 32%N else c)
      (strip (RetrievedDocument.content doc)) in
  exists label,
    _format_document doc rank
    = py "[" ++ str_of_N rank ++ py "] " ++ label
      ++ match RetrievedDocument.score doc with
         | Some f => py " (score=" ++ format_3f f ++ py ")"
         | None => []
         end
      ++ [10%N] ++ snippet
    /\ ~ In 10%N snippet
    /\ length snippet = length (strip (RetrievedDocument.content doc))
    /\ label <> []
    /\ match nonempty (RetrievedDocument.title doc),
             nonempty (RetrievedDocument.id doc) with
       | Some t, _ => label = t
       | None, Some i => label = i
       | None, None => label = py "Doc-" ++ str_of_N rank
       end.
Proof.
  intros snippet. subst snippet.
  rewrite <- replace1_line_feeds.
  unfold _format_document.
  set (label :=
    match nonempty (RetrievedDocument.title doc) with
    | Some t => t
    | None =>
        match nonempty (RetrievedDocument.id doc) with
        | Some i => i
        | None => py "Doc-" ++ str_of_N rank
        end
    end).
  exists label.
  split; [|split; [|split; [|split]]].
  - destruct (RetrievedDocument.score doc) as [f|]; simpl.
    + rewrite <- !app_assoc. reflexivity.
    + rewrite <- !app_assoc. reflexivity.
  - apply replace1_absent. vm_compute. intros [E|[]]. discriminate E.
  - rewrite replace1_line_feeds. apply length_map.
  - subst label.
    pose proof (nonempty_spec (RetrievedDocument.title doc)) as Ht.
    pose proof (nonempty_spec (RetrievedDocument.id doc)) as Hi.
    destruct (nonempty (RetrievedDocument.title doc)); [tauto|].
    destruct (nonempty (RetrievedDocument.id doc)); [tauto|].
    discriminate.
  - subst label.
    destruct (nonempty (RetrievedDocument.title doc)); [reflexivity|].
    destruct (nonempty (RetrievedDocument.id doc)); reflexivity.
Qed.

(** A formatted document opens with a bracket. *)
Lemma format_document_head (doc : RetrievedDocument.t) (rank : N) :
  exists rest, _format_document doc rank = 91%N :: rest.
Proof.
  unfold _format_document. cbv zeta.
  change (hd [] (?x :: ?l)) with x.
  change (py "[") with [91%N]. simpl app. eauto.
Qed.

Lemma format_document_nonempty (doc : RetrievedDocument.t) (rank : N) :
  _format_document doc rank <> [].
Proof.
  destruct (format_document_head doc rank) as [rest ->]. discriminate.
Qed.

Lemma join_nonempty (sep p : pystr) (rest : list pystr) :
  p <> [] -> join sep (p :: rest) <> [].
Proof.
  intros Hp. destruct rest; simpl; [exact Hp|].
  destruct p; [contradiction|discriminate].
Qed.

(** X8. [build_messages] gives the system message with the fixed prompt and
    one user message; the context of the user prompt is the placeholder
    exactly when there are no documents, and otherwise the formatted
    documents, ranked from 1 in the order given and separated by a blank
    line. *)
Theorem build_messages_context (query : pystr)
    (documents : list RetrievedDocument.t) :
  exists context,
    build_messages query documents
    = PList [ message (py "system") SYSTEM_PROMPT;
              message (py "user") (USER_PROMPT_TEMPLATE (strip query) context) ]
    /\ context <> []
    /\ (documents = [] -> context = EMPTY_CONTEXT)
    /\ (documents <> [] ->
        context = join [10; 10]%N (format_documents 1 documents)
        /\ context <> EMPTY_CONTEXT).
Proof.
  unfold build_messages.
  destruct documents as [|doc rest].
  - exists EMPTY_CONTEXT. simpl.
    split; [reflexivity|]. split; [discriminate|]. split; [reflexivity|].
    intros Hne. contradiction.
  - pose proof (join_nonempty [10; 10]%N (_format_document doc 1)
                  (format_documents (1 + 1) rest)
                  (format_document_nonempty doc 1)) as Hj.
    change (format_documents 1 (doc :: rest))
      with (_format_document doc 1 :: format_documents (1 + 1) rest).
    set (context := join _ (_ :: _)) in *.
    exists context.
    split; [destruct context; [contradiction|reflexivity]|].
    split; [exact Hj|]. split; [discriminate|].
    intros _. split; [reflexivity|].
    subst context.
    destruct (format_document_head doc 1) as [tail ->].
    destruct (format_documents (1 + 1) rest); simpl; intros E;
      vm_compute in E; discriminate E.
Qed.

(** X9. Whitespace around the query does not reach the prompts: both
    builders give the same messages for a query and for the query
    trimmed. *)
Theorem prompts_ignore_outer_whitespace (query : pystr)
    (documents : list RetrievedDocument.t) :
  build_messages (strip query) documents = build_messages query documents
  /\ build_rewriter_messages (strip query) = build_rewriter_messages query.
Proof.
  unfold build_messages, build_rewriter_messages.
  now rewrite strip_idem.
Qed.

End PromptFacts.

(* ================================================================= *)
(** ** The completion gateway: decoding the upstream stream *)

Lemma eqb_eq (s t : pystr) : eqb s t = true <-> s = t.
Proof.
  revert t; induction s as [|c s IH]; intros [|d t]; simpl;
    try (split; [discriminate|discriminate]); [tauto|].
  rewrite andb_true_iff, N.eqb_eq, IH. split.
  - intros [-> ->]. reflexivity.
  - intros E. inversion E. auto.
Qed.

Lemma eqb_neq (s t : pystr) : s <> t -> eqb s t = false.
Proof.
  intros Hn. destruct (eqb s t) eqn:E; [|reflexivity].
  apply eqb_eq in E. contradiction.
Qed.

Section StreamDecoding.
Context `{Runtime}.

Lemma stream_line_ignored (line : pystr) :
  ignored_line line -> stream_line line = Skip.
Proof.
  unfold ignored_line, stream_line.
  intros [->|[Hs|[He|[Hd Hj]]]]; [reflexivity| | |];
    destruct line as [|c line]; try reflexivity.
  - now rewrite Hs.
  - destruct (startswith (py "data:") (c :: line)); [|reflexivity].
    simpl negb. cbv iota. now rewrite He.
  - destruct (startswith (py "data:") (c :: line)); [|reflexivity].
    simpl negb. cbv iota. rewrite (eqb_neq _ _ Hd), Hj.
    now destruct (strip _).
Qed.

Lemma stream_line_done (line : pystr) :
  done_line line -> stream_line line = Stop.
Proof.
  intros [Hs Hd]. unfold stream_line.
  destruct line as [|c line]; [discriminate Hs|].
  rewrite Hs, Hd. reflexivity.
Qed.

(** X10. Lines that carry nothing (an empty line, a line that does not
    start with [data:], a [data:] line without data, a [data:] line whose
    data is not the end sentinel and makes [json.loads] raise
    [JSONDecodeError]) do not change what [stream_chat] yields or how it
    ends: the stream with such a line is decoded as the stream without
    it. *)
Theorem stream_lines_ignore (before after : list pystr) (line : pystr)
    (broken : bool) :
  ignored_line line ->
  stream_lines (before ++ line :: after) broken
  = stream_lines (before ++ after) broken.
Proof.
  intros Hi. induction before as [|l before IH]; simpl.
  - now rewrite (stream_line_ignored line Hi).
  - destruct (stream_line l); try reflexivity; now rewrite IH.
Qed.

(** X11. The end sentinel ends the decoding: what follows it is not read,
    and a connection that breaks afterwards raises nothing. *)
Theorem stream_lines_done (before after : list pystr) (line : pystr)
    (broken : bool) :
  done_line line ->
  stream_lines (before ++ line :: after) broken = stream_lines before false.
Proof.
  intros Hd. induction before as [|l before IH]; simpl.
  - now rewrite (stream_line_done line Hd).
  - destruct (stream_line l); try reflexivity; now rewrite IH.
Qed.

Lemma stream_line_yield (line : pystr) (content : pyval) :
  stream_line line = Yield content -> truthy content = true.
Proof.
  unfold stream_line.
  destruct line as [|c line]; [discriminate|].
  destruct (negb (startswith (py "data:") (c :: line))); [discriminate|].
  destruct (eqb _ (py "[DONE]")); [discriminate|].
  destruct (strip _); [discriminate|].
  destruct (json_loads _) as [payload| |e0]; [|discriminate|discriminate].
  match goal with
  | |- match ?m with Return _ => _ | Raise _ => _ end = _ -> _ =>
      destruct m as [v|e]; [|discriminate]
  end.
  destruct (truthy v) eqn:Ev; [|discriminate].
  intros E. inversion E; subst. exact Ev.
Qed.

Lemma stream_lines_truthy (lines : list pystr) (broken : bool) :
  Forall (fun chunk => truthy chunk = true) (fst (stream_lines lines broken)).
Proof.
  induction lines as [|l lines IH]; simpl; [constructor|].
  destruct (stream_line l) as [| |content|e] eqn:El; try constructor; auto.
  destruct (stream_lines lines broken) as [chunks ended]. simpl in *.
  constructor; [exact (stream_line_yield _ _ El)|exact IH].
Qed.

(** X12. [stream_chat] never yields an empty chunk: every chunk is a truthy
    value (for a str, a non-empty one). *)
Theorem stream_chat_chunks_truthy (settings : Settings.t) (up : upstream)
    (messages : pyval) :
  Forall (fun chunk => truthy chunk = true)
    (fst (snd (stream_chat settings up messages))).
Proof.
  unfold stream_chat.
  destruct (Settings.require_api_key settings) as [key|e]; [|constructor].
  destruct (completion_stream up _) as [lines broken|code t r|];
    simpl; try constructor.
  apply stream_lines_truthy.
Qed.

End StreamDecoding.

Lemma stream_lines_ignore_witness :
  let runtime :=
    table_runtime [ (delta_json (py "Hi"), delta_event (py "Hi")) ] in
  @stream_lines runtime
    [ py "data: " ++ delta_json (py "Hi"); py "data: {not json"; py "event: ping" ]
    false
  = @stream_lines runtime [ py "data: " ++ delta_json (py "Hi"); py "event: ping" ]
      false.
Proof.
  intros runtime.
  refine (@stream_lines_ignore runtime [ py "data: " ++ delta_json (py "Hi") ]
            [ py "event: ping" ] (py "data: {not json") false _).
  right. right. right. split; [vm_compute; discriminate|reflexivity].
Defined.

Lemma stream_lines_done_witness :
  let runtime :=
    table_runtime [ (delta_json (py "Hi"), delta_event (py "Hi"));
                    (delta_json (py "late"), delta_event (py "late")) ] in
  @stream_lines runtime
    [ py "data: " ++ delta_json (py "Hi"); py "data:  [DONE] ";
      py "data: " ++ delta_json (py "late") ] true
  = ([ PStr (py "Hi") ], None).
Proof.
  intros runtime.
  refine (@stream_lines_done runtime [ py "data: " ++ delta_json (py "Hi") ]
            [ py "data: " ++ delta_json (py "late") ] (py "data:  [DONE] ")
            true _).
  split; reflexivity.
Defined.

(* ================================================================= *)
(** ** The streamed response, for every upstream *)

Lemma join_chunks_raise (buffer : list pyval) (e : exn) :
  join_chunks buffer = Raise e -> e = TypeError.
Proof.
  induction buffer as [|c buffer IH]; simpl; [discriminate|].
  destruct c; try (intros E; now inversion E).
  destruct (join_chunks buffer); simpl; [discriminate|].
  intros E. inversion E; subst. now apply IH.
Qed.

(** The [meta] and terminal frames of a stream that is the [meta] frame,
    delta frames, and at most one more frame, a terminal one. *)
Lemma stream_frame_counts `{Runtime} (payload : pyval) (sent : list pyval)
    (terminal : list bytes) :
  terminal = []
  \/ (exists event data,
        terminal = [frame event data]
        /\ (event = py "end" \/ event = py "error")) ->
  length (filter is_meta
            (frame (py "meta") payload
             :: map (frame (py "delta")) sent ++ terminal)) = 1%nat
  /\ length (filter is_terminal
               (frame (py "meta") payload
                :: map (frame (py "delta")) sent ++ terminal))
     = length terminal.
Proof.
  intros Ht.
  destruct (filter_delta_frames sent) as (F1 & F2 & _).
  destruct (frame_events payload) as ((M1 & _ & M3) & _).
  cbn [filter]. rewrite M1, M3, !filter_app, F1, F2.
  destruct Ht as [->|(event & data & -> & [->| ->])]; cbn [filter app].
  - split; reflexivity.
  - destruct (frame_events data) as (_ & _ & (E1 & _ & E3) & _).
    rewrite E1, E3. split; reflexivity.
  - destruct (frame_events data) as (_ & _ & _ & (E1 & _ & E3)).
    rewrite E1, E3. split; reflexivity.
Qed.

(** X13. Whatever the upstream does: when the [meta] frame cannot be
    encoded as UTF-8, the generator raises before it sends anything or
    calls [stream_chat]; otherwise the frames of a streamed response are
    the [meta] frame (with the configured model name and the serialized
    documents), the [delta] frames of an initial segment of the chunks of
    [stream_chat] (of all of them when no exception escapes the
    generator), and then one terminal frame when no exception escapes and
    none when one does. *)
Theorem streaming_response_shape `{Runtime}
    (settings : Settings.t) (up : upstream) (messages : pyval)
    (documents : list RetrievedDocument.t) :
  let run := _streaming_response settings up messages documents in
  let frames := fst (snd run) in
  let escaped := snd (snd run) in
  if encodable (_sse (py "meta") (meta_payload settings documents))
  then
    fst run = fst (stream_chat settings up messages)
    /\ exists sent rest terminal,
         fst (snd (stream_chat settings up messages)) = sent ++ rest
         /\ frames
            = frame (py "meta") (meta_payload settings documents)
              :: map (frame (py "delta")) sent ++ terminal
         /\ match escaped with
            | None =>
                rest = [] /\ exists t, terminal = [t] /\ is_terminal t = true
            | Some _ => terminal = []
            end
         /\ length (filter is_meta frames) = 1%nat
         /\ length (filter is_terminal frames)
            = match escaped with None => 1%nat | Some _ => 0%nat end
  else run = ([], ([], Some ValueError)).
Proof.
  intros run frames escaped. subst run frames escaped.
  unfold _streaming_response, _serialize_documents, encode.
  fold (meta_payload settings documents).
  destruct (encodable (_sse (py "meta") (meta_payload settings documents)));
    [|reflexivity].
  fold (frame (py "meta") (meta_payload settings documents)).
  destruct (stream_chat settings up messages) as [calls [chunks ended]].
  cbn [fst snd]. split; [reflexivity|].
  destruct (delta_frames_sent chunks) as (sent & rest & Hc & Hf & Hr).
  destruct (delta_frames chunks) as [deltas failed].
  cbn [fst snd] in Hf, Hr. subst deltas.
  exists sent, rest.
  assert (Hnone : forall e : exn,
    exists terminal,
      chunks = sent ++ rest
      /\ frame (py "meta") (meta_payload settings documents)
           :: map (frame (py "delta")) sent
         = frame (py "meta") (meta_payload settings documents)
           :: map (frame (py "delta")) sent ++ terminal
      /\ terminal = []
      /\ length (filter is_meta
                   (frame (py "meta") (meta_payload settings documents)
                    :: map (frame (py "delta")) sent)) = 1%nat
      /\ length (filter is_terminal
                   (frame (py "meta") (meta_payload settings documents)
                    :: map (frame (py "delta")) sent)) = 0%nat).
  { intros _. exists [].
    destruct (stream_frame_counts (meta_payload settings documents) sent []
                (or_introl eq_refl)) as [A B].
    rewrite app_nil_r in A, B. rewrite app_nil_r. auto. }
  assert (Hlast : forall event data,
    event = py "end" \/ event = py "error" ->
    rest = [] ->
    let r :=
      last_frame
        (frame (py "meta") (meta_payload settings documents)
         :: map (frame (py "delta")) sent)
        (_sse event data) in
    exists terminal,
      chunks = sent ++ rest
      /\ fst r
         = frame (py "meta") (meta_payload settings documents)
           :: map (frame (py "delta")) sent ++ terminal
      /\ match snd r with
         | None =>
             rest = [] /\ exists t, terminal = [t] /\ is_terminal t = true
         | Some _ => terminal = []
         end
      /\ length (filter is_meta (fst r)) = 1%nat
      /\ length (filter is_terminal (fst r))
         = match snd r with None => 1%nat | Some _ => 0%nat end).
  { intros event data Hev Hrest r. subst r. unfold last_frame, encode.
    destruct (encodable (_sse event data)).
    - fold (frame event data). cbn [fst snd].
      exists [frame event data].
      destruct (stream_frame_counts (meta_payload settings documents) sent
                  [frame event data]
                  (or_intror (ex_intro _ event (ex_intro _ data
                     (conj eq_refl Hev))))) as [A B].
      split; [exact Hc|]. split; [reflexivity|].
      split; [|split; [exact A|exact B]].
      split; [exact Hrest|]. eexists. split; [reflexivity|].
      destruct (frame_events data) as (_ & _ & (_ & _ & E) & (_ & _ & E')).
      destruct Hev as [->| ->]; assumption.
    - cbn [fst snd]. destruct (Hnone ValueError) as (t & A & B & C & D & E).
      exists t. auto. }
  destruct failed as [e|].
  - destruct (Hnone e) as (t & A & B & C & D & E). exists t. auto.
  - destruct ended as [e|].
    + destruct (stream_error_message e) as [[msg|e']|].
      * apply Hlast; auto.
      * destruct (Hnone e') as (t & A & B & C & D & E). exists t. auto.
      * destruct (Hnone e) as (t & A & B & C & D & E). exists t. auto.
    + destruct (join_chunks chunks) as [text|e].
      * apply Hlast; auto.
      * destruct (Hnone e) as (t & A & B & C & D & E). exists t. auto.
Qed.

(* ================================================================= *)
(** ** The orchestrator, further *)

Section ChatFacts.
Context `{Runtime}.
Variable settings : Settings.t.
Variable up : upstream.

(** [chat], step by step. *)
Lemma chat_steps (request : ChatRequest.t) :
  chat settings up request
  = (rewritten_query <- chat_rewrite settings up request ;;
     retrieved_docs <- chat_retrieve settings up request rewritten_query ;;
     let trimmed_docs := _trim_documents settings retrieved_docs None in
     let messages := build_messages (ChatRequest.query request) trimmed_docs in
     if ChatRequest.stream request
     then
       (fst (_streaming_response settings up messages trimmed_docs),
        Return (StreamingResponse
          (fst (snd (_streaming_response settings up messages trimmed_docs)))
          (snd (snd (_streaming_response settings up messages trimmed_docs)))))
     else
       raw_response <- chat_generate settings up messages ;;
       pure (chat_respond settings trimmed_docs raw_response)).
Proof.
  unfold chat.
  destruct (chat_rewrite settings up request) as [t1 [q|e1]];
    [|reflexivity].
  rewrite !ibind_return. f_equal.
  - f_equal.
    destruct (chat_retrieve settings up request q) as [t2 [docs|e2]];
      [|reflexivity].
    rewrite !ibind_return. f_equal.
    destruct (ChatRequest.stream request); [|reflexivity].
    now destruct (_streaming_response settings up _ _).
  - destruct (chat_retrieve settings up request q) as [t2 [docs|e2]];
      [|reflexivity].
    rewrite !ibind_return. simpl snd.
    destruct (ChatRequest.stream request); [|reflexivity].
    now destruct (_streaming_response settings up _ _).
Qed.

(** The run of [chat] once the first two steps have returned. *)
Lemma chat_after_retrieval (request : ChatRequest.t)
    (t1 t2 : list call) (q : pystr) (docs : list RetrievedDocument.t) :
  chat_rewrite settings up request = (t1, Return q) ->
  chat_retrieve settings up request q = (t2, Return docs) ->
  let trimmed_docs := _trim_documents settings docs None in
  let messages := build_messages (ChatRequest.query request) trimmed_docs in
  chat settings up request
  = if ChatRequest.stream request
    then
      (t1 ++ t2 ++ fst (_streaming_response settings up messages trimmed_docs),
       Return (StreamingResponse
         (fst (snd (_streaming_response settings up messages trimmed_docs)))
         (snd (snd (_streaming_response settings up messages trimmed_docs)))))
    else
      (t1 ++ t2 ++ fst (chat_generate settings up messages),
       match snd (chat_generate settings up messages) with
       | Return raw_response => chat_respond settings trimmed_docs raw_response
       | Raise e => Raise e
       end).
Proof.
  intros H1 H2 trimmed_docs messages.
  rewrite chat_steps, H1, ibind_return, H2, ibind_return. simpl fst. simpl snd.
  fold trimmed_docs. fold messages.
  destruct (ChatRequest.stream request); [reflexivity|].
  destruct (chat_generate settings up messages) as [t3 [raw|e3]].
  - rewrite ibind_return. simpl. now rewrite app_nil_r.
  - rewrite ibind_raise. reflexivity.
Qed.



End ChatFacts.



Section ChatFailures.
Context `{Runtime}.
Variable settings : Settings.t.
Variable up : upstream.

Lemma chat_generate_calls (messages : pyval) (c : call) :
  In c (fst (chat_generate settings up messages)) -> call_sender c = ByChat.
Proof.
  rewrite chat_generate_eq.
  destruct (Settings.api_key settings) as [|k0 key]; simpl; [tauto|].
  intros [<-|[]]. reflexivity.
Qed.

(** The retrieval step when the retrieval service does not answer with
    JSON. *)
Lemma chat_retrieve_failed (request : ChatRequest.t) (q : pystr) :
  RetrievalConfig.url (Settings.retrieval settings) <> [] ->
  forall reply,
  retrieval_service up (RetrievalConfig.url (Settings.retrieval settings))
    (PDict (retrieve_payload settings q (ChatRequest.top_k request)
              (ChatRequest.use_rerank request)
              (ChatRequest.rerank_mode request)
              (ChatRequest.rerank_top_k request))) = reply ->
  match reply with
  | HttpJson _ => True
  | HttpNotJson =>
      snd (chat_retrieve settings up request q) = Raise ValueError
  | HttpStatus code text reason =>
      snd (chat_retrieve settings up request q)
      = Raise (HTTPException code
                 (py "Retriever error: " ++ status_detail text reason))
  | HttpFailed =>
      snd (chat_retrieve settings up request q)
      = Raise (HTTPException 502 (py "Retriever request failed"))
  end.
Proof.
  intros Hu reply Hr. unfold chat_retrieve, retrieve.
  destruct (RetrievalConfig.url (Settings.retrieval settings)) as [|c u];
    [contradiction|].
  rewrite Hr. destruct reply; [exact I|reflexivity..].
Qed.

(** The requests of a run whose rewriting step returned [q]: the retrieval
    request carries [q]. *)
Lemma chat_retrieval_query (request : ChatRequest.t) (t : list call)
    (q : pystr) (c : call) :
  chat_rewrite settings up request = (t, Return q) ->
  In c (fst (chat settings up request)) ->
  call_sender c = ByRetrieve ->
  get (call_json c) (py "query") = Return (PStr q).
Proof.
  intros H1 Hin Hs.
  destruct (chat_rewrite_cases settings up request) as [Hcalls _].
  rewrite H1 in Hcalls. simpl fst in Hcalls.
  pose proof (chat_retrieve_calls settings up request q c) as Hret.
  destruct (chat_retrieve settings up request q) as [t2 [docs|e2]] eqn:H2.
  - rewrite (chat_after_retrieval settings up request t t2 q docs H1 H2) in Hin.
    destruct (ChatRequest.stream request); simpl fst in Hin;
      apply in_app_or in Hin as [Hin|Hin];
      try (apply Hcalls in Hin; congruence);
      apply in_app_or in Hin as [Hin|Hin];
      try (exact (proj2 (Hret Hin))).
    + apply streaming_response_calls in Hin as [Hin _]. congruence.
    + apply chat_generate_calls in Hin. congruence.
  - rewrite chat_steps, H1, ibind_return, H2, ibind_raise in Hin.
    simpl fst in Hin. apply in_app_or in Hin as [Hin|Hin].
    + apply Hcalls in Hin. congruence.
    + exact (proj2 (Hret Hin)).
Qed.

End ChatFailures.

(** X15. When the retrieval service answers with an error status, the
    handler fails with that status and the detail [Retriever error: ]
    followed by the body of the answer, or by its reason phrase when the
    body is empty; when the request to it fails, the handler fails with
    HTTP 502 and [Retriever request failed]. *)
Theorem chat_retrieval_failure `{Runtime}
    (settings : Settings.t) (up : upstream) (request : ChatRequest.t)
    (t : list call) (q : pystr) :
  RetrievalConfig.url (Settings.retrieval settings) <> [] ->
  chat_rewrite settings up request = (t, Return q) ->
  match
    retrieval_service up (RetrievalConfig.url (Settings.retrieval settings))
      (PDict (retrieve_payload settings q (ChatRequest.top_k request)
                (ChatRequest.use_rerank request)
                (ChatRequest.rerank_mode request)
                (ChatRequest.rerank_top_k request)))
  with
  | HttpStatus code text reason =>
      snd (chat settings up request)
      = Raise (HTTPException code
                 (py "Retriever error: " ++ status_detail text reason))
  | HttpFailed =>
      snd (chat settings up request)
      = Raise (HTTPException 502 (py "Retriever request failed"))
  | _ => True
  end.
Proof.
  intros Hu H1.
  pose proof (chat_retrieve_failed settings up request q Hu _ eq_refl) as Hf.
  destruct (retrieval_service up _ _) as [data| |code text reason|];
    try exact I;
    rewrite chat_steps, H1, ibind_return;
    destruct (chat_retrieve settings up request q) as [t2 r2];
    simpl snd in Hf; subst r2; rewrite ibind_raise; reflexivity.
Qed.

Lemma chat_retrieval_failure_witness :
  let up :=
    fixed_upstream HttpFailed StreamFailed
      (HttpStatus 503 [] (py "Service Unavailable")) in
  snd (@chat (table_runtime []) (settings_with DEFAULT_RAG_URL false) up
         (request_for (py "soup?") None false))
  = Raise (HTTPException 503 (py "Retriever error: Service Unavailable")).
Proof.
  intros up.
  refine (@chat_retrieval_failure (table_runtime [])
            (settings_with DEFAULT_RAG_URL false) up
            (request_for (py "soup?") None false) [] (py "soup?") _ eq_refl).
  vm_compute. discriminate.
Defined.

(** X16. When the rewrite request meets an error status or fails, the
    rewriting step keeps the original query, and the retrieval request of
    the run carries the original query. *)
Theorem chat_rewrite_failure_falls_back `{Runtime}
    (settings : Settings.t) (up : upstream) (request : ChatRequest.t) :
  RewriterConfig.enabled (Settings.rewriter settings) = true ->
  Settings.api_key settings <> [] ->
  (exists code text reason,
     completion up (rewrite_payload settings (ChatRequest.query request))
     = HttpStatus code text reason)
  \/ completion up (rewrite_payload settings (ChatRequest.query request))
     = HttpFailed ->
  snd (chat_rewrite settings up request) = Return (ChatRequest.query request)
  /\ forall c, In c (fst (chat settings up request)) ->
       call_sender c = ByRetrieve ->
       get (call_json c) (py "query")
       = Return (PStr (ChatRequest.query request)).
Proof.
  intros He Hk Hc.
  assert (H1 : snd (chat_rewrite settings up request)
               = Return (ChatRequest.query request)).
  { unfold chat_rewrite. rewrite He.
    rewrite rewrite_query_enabled by assumption. unfold try_except.
    destruct Hc as [(code & text & reason & ->)| ->]; reflexivity. }
  split; [exact H1|].
  intros c. apply chat_retrieval_query with (t := fst (chat_rewrite settings up request)).
  destruct (chat_rewrite settings up request) as [t r]. simpl in *. now subst.
Qed.

Lemma chat_rewrite_failure_falls_back_witness :
  let up :=
    fixed_upstream (HttpStatus 429 (py "rate limited") (py "Too Many Requests"))
      StreamFailed (HttpJson (PList [ text_item (py "tofu soup") ])) in
  let run :=
    @chat (table_runtime []) get_settings up
      (request_for (py "no chili") None false) in
  get (call_json (nth 1 (fst run) no_call)) (py "query")
  = Return (PStr (py "no chili")).
Proof.
  intros up run.
  refine (proj2 (@chat_rewrite_failure_falls_back (table_runtime [])
                   get_settings up (request_for (py "no chili") None false)
                   eq_refl _ _) (nth 1 (fst run) no_call) _ eq_refl).
  - vm_compute. discriminate.
  - left. do 3 eexists. reflexivity.
  - vm_compute. right. left. reflexivity.
Defined.

(* ================================================================= *)
(** ** The buffered response *)

Lemma extract_answer_content (raw : pyval) (content : pystr) :
  first_choice_content raw content -> strip content <> [] ->
  _extract_answer raw = Return (strip content).
Proof.
  intros (d & ch & rest & msg & -> & Hch & Hm & Hc) Hne.
  unfold _extract_answer, get. rewrite Hch. simpl.
  rewrite Hm.
  assert (Hmsg : por (PDict msg) (PDict []) = PDict msg).
  { destruct msg; [discriminate|reflexivity]. }
  rewrite Hmsg, Hc. clear Hmsg.
  destruct content as [|c0 content]; [now contradiction Hne|].
  simpl. destruct (strip (c0 :: content)); [contradiction|reflexivity].
Qed.

Lemma extract_answer_trimmed (raw : pyval) (answer : pystr) :
  _extract_answer raw = Return answer ->
  answer <> [] /\ strip answer = answer.
Proof.
  unfold _extract_answer. intros Ha.
  destruct (get raw (py "choices")) as [c|]; [|discriminate Ha].
  simpl obind in Ha.
  destruct (negb (truthy (por c (PList [])))); [discriminate Ha|].
  destruct (index0 (por c (PList []))) as [first|]; [|discriminate Ha].
  simpl obind in Ha.
  destruct (get first (py "message")) as [m|]; [|discriminate Ha].
  simpl obind in Ha.
  destruct (get (por m (PDict [])) (py "content")) as [c'|];
    [|discriminate Ha].
  simpl obind in Ha.
  destruct (strip_value (por c' (PStr []))) as [content|] eqn:Ec;
    [|discriminate Ha].
  simpl obind in Ha.
  destruct (strip_value_inv _ _ Ec) as (s & _ & ->).
  destruct (strip s) as [|c0 t] eqn:Es; [discriminate Ha|].
  inversion Ha; subst. split; [discriminate|].
  rewrite <- Es. apply strip_idem.
Qed.

(** A buffered response comes from a run in which every step returned. *)
Lemma chat_json_inv `{Runtime} (settings : Settings.t) (up : upstream)
    (request : ChatRequest.t) (r : ChatResponse.t) :
  snd (chat settings up request) = Return (JsonResponse r) ->
  exists q docs raw,
    snd (chat_rewrite settings up request) = Return q
    /\ snd (chat_retrieve settings up request q) = Return docs
    /\ ChatRequest.stream request = false
    /\ chat_respond settings (_trim_documents settings docs None) raw
       = Return (JsonResponse r).
Proof.
  destruct (chat_rewrite settings up request) as [t1 [q|e1]] eqn:H1.
  2:{ rewrite chat_steps, H1, ibind_raise. discriminate. }
  destruct (chat_retrieve settings up request q) as [t2 [docs|e2]] eqn:H2.
  2:{ rewrite chat_steps, H1, ibind_return, H2, ibind_raise. discriminate. }
  rewrite (chat_after_retrieval settings up request t1 t2 q docs H1 H2).
  destruct (ChatRequest.stream request); [discriminate|].
  simpl snd.
  destruct (snd (chat_generate settings up _)) as [raw|e3]; [|discriminate].
  intros Hr. exists q, docs, raw. rewrite H2. auto.
Qed.

(** X17. The answer of every buffered response is not empty and has no
    whitespace at either end: it is what [_extract_answer] makes of the raw
    completion that the response carries along. *)
Theorem chat_answer_trimmed `{Runtime}
    (settings : Settings.t) (up : upstream) (request : ChatRequest.t)
    (r : ChatResponse.t) :
  snd (chat settings up request) = Return (JsonResponse r) ->
  ChatResponse.answer r <> []
  /\ strip (ChatResponse.answer r) = ChatResponse.answer r
  /\ exists raw,
       ChatResponse.raw_response r = Some raw
       /\ _extract_answer raw = Return (ChatResponse.answer r).
Proof.
  intros Hr.
  destruct (chat_json_inv settings up request r Hr)
    as (q & docs & raw & _ & _ & _ & Hresp).
  unfold chat_respond in Hresp.
  destruct (_extract_answer raw) as [answer|] eqn:Ea; [|discriminate Hresp].
  simpl obind in Hresp. step_binds Hresp. inversion Hresp; subst. simpl.
  destruct (extract_answer_trimmed raw answer Ea) as [A B].
  split; [exact A|]. split; [exact B|]. eauto.
Qed.

Lemma chat_answer_trimmed_witness :
  let up :=
    fixed_upstream (HttpJson (completion_with (PStr (py "  Simmer tofu. "))))
      StreamFailed (HttpJson (PList [ text_item (py "tofu soup") ])) in
  let run :=
    @chat (table_runtime []) (settings_with DEFAULT_RAG_URL false) up
      (request_for (py "soup?") None false) in
  exists r,
    snd run = Return (JsonResponse r)
    /\ ChatResponse.answer r = py "Simmer tofu."
    /\ strip (ChatResponse.answer r) = ChatResponse.answer r.
Proof.
  intros up run. eexists.
  assert (E : snd run = Return (JsonResponse _)) by (vm_compute; reflexivity).
  split; [exact E|]. split; [reflexivity|].
  exact (proj1 (proj2
    (@chat_answer_trimmed (table_runtime []) _ up _ _ E))).
Defined.

(** X18. With valid settings, the documents of every buffered response are
    the first [top_k] (as configured) of the retrieved documents, in
    retrieval order: never more than the configured [top_k], hence never
    more than 50. *)
Theorem chat_documents_bounded `{Runtime}
    (settings : Settings.t) (up : upstream) (request : ChatRequest.t)
    (r : ChatResponse.t) :
  Settings.valid settings ->
  snd (chat settings up request) = Return (JsonResponse r) ->
  let k := Z.to_nat (RetrievalConfig.top_k (Settings.retrieval settings)) in
  (exists q docs,
     snd (chat_retrieve settings up request q) = Return docs
     /\ ChatResponse.documents r = firstn k docs
     /\ length (ChatResponse.documents r) = Nat.min k (length docs))
  /\ (length (ChatResponse.documents r) <= k <= 50)%nat.
Proof.
  intros (Hk & _) Hr k.
  destruct (chat_response_documents settings up request r Hr)
    as (q & docs & Hd & Ht).
  rewrite trim_documents_default in Ht by lia. fold k in Ht.
  assert (Hl : length (ChatResponse.documents r) = Nat.min k (length docs))
    by (rewrite Ht; apply length_firstn).
  split; [exists q, docs; auto|]. subst k. lia.
Qed.

Lemma chat_documents_bounded_witness :
  let names :=
    [ py "d1"; py "d2"; py "d3"; py "d4"; py "d5"; py "d6"; py "d7" ] in
  let up :=
    fixed_upstream (HttpJson (completion_with (PStr (py "ok"))))
      StreamFailed (HttpJson (PList (map text_item names))) in
  let run :=
    @chat (table_runtime []) (settings_with DEFAULT_RAG_URL false) up
      (request_for (py "soup?") None false) in
  exists r,
    snd run = Return (JsonResponse r)
    /\ (length (ChatResponse.documents r) <= 5 <= 50)%nat.
Proof.
  intros names up run. eexists.
  assert (E : snd run = Return (JsonResponse _)) by (vm_compute; reflexivity).
  split; [exact E|].
  refine (proj2 (@chat_documents_bounded (table_runtime []) _ up _ _ _ E)).
  vm_compute. repeat split; try discriminate; auto.
Defined.

(** X19. [_extract_usage] gives no usage when the response has none (the
    key is missing, null, or an empty object), and otherwise passes the
    three token counts through, a missing or null count being absent;
    other keys of the usage object are ignored. *)
Theorem extract_usage_counts `{Runtime} (d u : list (pystr * pyval))
    (p c t : option Z) :
  (lookup (py "usage") d = None \/ lookup (py "usage") d = Some PNone
     \/ lookup (py "usage") d = Some (PDict []) ->
   _extract_usage (PDict d) = Return None)
  /\ (lookup (py "usage") d = Some (PDict u) -> u <> [] ->
      usage_count u (py "prompt_tokens") p ->
      usage_count u (py "completion_tokens") c ->
      usage_count u (py "total_tokens") t ->
      _extract_usage (PDict d)
      = Return (Some {| Usage.prompt_tokens := p;
                        Usage.completion_tokens := c;
                        Usage.total_tokens := t |})).
Proof.
  split.
  - unfold _extract_usage, get. intros [-> | [-> | ->]]; reflexivity.
  - intros Hu Hne Hp Hc Ht. unfold _extract_usage, get. rewrite Hu.
    simpl obind. destruct u as [|kv u]; [contradiction|].
    simpl negb. cbv iota.
    assert (Hv : forall key count, usage_count (kv :: u) key count ->
              validate_optional_int (kv :: u) key = Return count).
    { intros key [z|] Hcount; unfold usage_count in Hcount;
        unfold validate_optional_int.
      - now rewrite Hcount.
      - destruct Hcount as [-> | ->]; reflexivity. }
    rewrite (Hv _ _ Hp), (Hv _ _ Hc), (Hv _ _ Ht). reflexivity.
Qed.

(** X20. A buffered request whose steps all succeed: when the completion
    service answers the chat request with an object whose first choice has
    a content that is not blank, without [usage], and with a str [model] or
    none, the response carries the trimmed content as answer, that model
    (the configured one when there is none), the raw completion, and the
    trimmed documents; the status is 200 and the chat request is the last
    request sent. *)
Theorem chat_buffered_success `{Runtime}
    (settings : Settings.t) (up : upstream) (request : ChatRequest.t)
    (t1 t2 : list call) (q : pystr) (docs : list RetrievedDocument.t)
    (d : list (pystr * pyval)) (content model : pystr) :
  ChatRequest.stream request = false ->
  chat_rewrite settings up request = (t1, Return q) ->
  chat_retrieve settings up request q = (t2, Return docs) ->
  Settings.api_key settings <> [] ->
  let trimmed := _trim_documents settings docs None in
  let payload :=
    chat_payload settings (build_messages (ChatRequest.query request) trimmed)
      (ModelConfig.stream (Settings.model settings)) in
  completion up payload = HttpJson (PDict d) ->
  first_choice_content (PDict d) content -> strip content <> [] ->
  lookup (py "usage") d = None ->
  (lookup (py "model") d = None
   /\ model = ModelConfig.model_name (Settings.model settings))
  \/ lookup (py "model") d = Some (PStr model) ->
  chat settings up request
  = ( t1 ++ t2
      ++ [ {| call_sender := ByChat;
              call_url := Settings.base_url settings;
              call_headers := json_headers (Settings.api_key settings);
              call_json := payload |} ],
      Return (JsonResponse
        {| ChatResponse.answer := strip content;
           ChatResponse.model := model;
           ChatResponse.usage := None;
           ChatResponse.raw_response := Some (PDict d);
           ChatResponse.documents := trimmed |}) ).
Proof.
  intros Hs H1 H2 Hk trimmed payload Hc Hf Hne Hu Hm.
  rewrite (chat_after_retrieval settings up request t1 t2 q docs H1 H2), Hs.
  fold trimmed. rewrite chat_generate_eq.
  destruct (Settings.api_key settings) as [|k0 key] eqn:Ek; [contradiction|].
  cbv zeta. fold payload. rewrite Hc. simpl fst. simpl snd.
  f_equal. unfold chat_respond.
  rewrite (extract_answer_content _ _ Hf Hne). simpl obind.
  unfold _extract_usage, get, get_default. rewrite Hu. simpl obind.
  destruct Hm as [[-> ->]| ->]; reflexivity.
Qed.

Lemma chat_buffered_success_witness :
  let settings := settings_with DEFAULT_RAG_URL false in
  let raw :=
    [ (py "model", PStr (py "Qwen/Qwen2.5-7B-Instruct-Turbo"));
      (py "choices",
       PList [ PDict [ (py "message",
                        PDict [ (py "content", PStr (py " Simmer tofu. ")) ]) ] ]) ] in
  let up :=
    fixed_upstream (HttpJson (PDict raw)) StreamFailed
      (HttpJson (PList [ text_item (py "tofu soup") ])) in
  let request := request_for (py "soup?") None false in
  snd (@chat (table_runtime []) settings up request)
  = Return (JsonResponse
      {| ChatResponse.answer := py "Simmer tofu.";
         ChatResponse.model := py "Qwen/Qwen2.5-7B-Instruct-Turbo";
         ChatResponse.usage := None;
         ChatResponse.raw_response := Some (PDict raw);
         ChatResponse.documents := [ text_document (py "tofu soup") ] |}).
Proof.
  intros settings raw up request.
  assert (H2 : @chat_retrieve (table_runtime []) settings up request (py "soup?")
               = (fst (@chat_retrieve (table_runtime []) settings up request
                         (py "soup?")),
                  Return [ text_document (py "tofu soup") ]))
    by (vm_compute; reflexivity).
  rewrite (@chat_buffered_success (table_runtime []) settings up request
             [] _ (py "soup?") [ text_document (py "tofu soup") ] raw
             (py " Simmer tofu. ") (py "Qwen/Qwen2.5-7B-Instruct-Turbo")
             eq_refl eq_refl H2).
  - reflexivity.
  - vm_compute. discriminate.
  - reflexivity.
  - do 4 eexists. repeat split; reflexivity.
  - vm_compute. discriminate.
  - reflexivity.
  - right. reflexivity.
Defined.

Lemma extract_usage_counts_witness :
  @_extract_usage (table_runtime [])
    (PDict [ (py "usage",
              PDict [ (py "prompt_tokens", PInt 12);
                      (py "prompt_cache_hit_tokens", PInt 4);
                      (py "total_tokens", PInt 40) ]) ])
  = Return (Some {| Usage.prompt_tokens := Some 12%Z;
                    Usage.completion_tokens := None;
                    Usage.total_tokens := Some 40%Z |}).
Proof.
  refine (proj2 (@extract_usage_counts (table_runtime [])
                   [ (py "usage",
                      PDict [ (py "prompt_tokens", PInt 12);
                              (py "prompt_cache_hit_tokens", PInt 4);
                              (py "total_tokens", PInt 40) ]) ]
                   [ (py "prompt_tokens", PInt 12);
                     (py "prompt_cache_hit_tokens", PInt 4);
                     (py "total_tokens", PInt 40) ]
                   (Some 12%Z) None (Some 40%Z)) eq_refl _ eq_refl _ eq_refl).
  - discriminate.
  - left. reflexivity.
Defined.

(** X21. A buffered request whose first two steps returned, with a
    credential: when the completion service answers the chat request with
    an error status, the handler fails with that status and the body of the
    answer as detail (its reason phrase when the body is empty); when the
    request fails, the handler fails with HTTP 502. *)
Theorem chat_generation_failure `{Runtime}
    (settings : Settings.t) (up : upstream) (request : ChatRequest.t)
    (t1 t2 : list call) (q : pystr) (docs : list RetrievedDocument.t) :
  ChatRequest.stream request = false ->
  chat_rewrite settings up request = (t1, Return q) ->
  chat_retrieve settings up request q = (t2, Return docs) ->
  Settings.api_key settings <> [] ->
  match
    completion up
      (chat_payload settings
         (build_messages (ChatRequest.query request)
            (_trim_documents settings docs None))
         (ModelConfig.stream (Settings.model settings)))
  with
  | HttpStatus code text reason =>
      snd (chat settings up request)
      = Raise (HTTPException code (status_detail text reason))
  | HttpFailed =>
      snd (chat settings up request)
      = Raise (HTTPException 502 (py "Upstream SiliconFlow request failed"))
  | _ => True
  end.
Proof.
  intros Hs H1 H2 Hk.
  rewrite (chat_after_retrieval settings up request t1 t2 q docs H1 H2), Hs.
  rewrite chat_generate_eq.
  destruct (Settings.api_key settings) as [|k0 key]; [contradiction|].
  cbv zeta. destruct (completion up _); try exact I; reflexivity.
Qed.

Lemma chat_generation_failure_witness :
  let up :=
    fixed_upstream (HttpStatus 401 (py "invalid token") (py "Unauthorized"))
      StreamFailed (HttpJson (PList [ text_item (py "tofu soup") ])) in
  snd (@chat (table_runtime []) (settings_with DEFAULT_RAG_URL false) up
         (request_for (py "soup?") None false))
  = Raise (HTTPException 401 (py "invalid token")).
Proof.
  intros up.
  assert (H2 : @chat_retrieve (table_runtime [])
                 (settings_with DEFAULT_RAG_URL false) up
                 (request_for (py "soup?") None false) (py "soup?")
               = (fst (@chat_retrieve (table_runtime [])
                         (settings_with DEFAULT_RAG_URL false) up
                         (request_for (py "soup?") None false) (py "soup?")),
                  Return [ text_document (py "tofu soup") ]))
    by (vm_compute; reflexivity).
  refine (@chat_generation_failure (table_runtime [])
            (settings_with DEFAULT_RAG_URL false) up
            (request_for (py "soup?") None false) [] _ (py "soup?") _
            eq_refl eq_refl H2 _).
  vm_compute. discriminate.
Defined.



(* ================================================================= *)
(** ** The retrieval request *)

(** X24. For valid settings and a valid request, the body [retrieve] posts
    has the query it was given, [k] equal to the request's [top_k] when
    given and to the configured one otherwise, [use_rerank] equal to the
    request's override when given and to the configured flag otherwise, and
    [rerank_mode] equal to the request's mode when given and to the
    configured mode otherwise (never null). *)
Theorem retrieve_payload_overrides
    (settings : Settings.t) (query : pystr) (top_k : option Z)
    (use_rerank : option bool) (rerank_mode : option pystr)
    (rerank_top_k : option Z) :
  Settings.valid settings ->
  Settings.in_1_50 top_k ->
  rerank_mode = None \/ rerank_mode = Some (py "cross")
    \/ rerank_mode = Some (py "bi") ->
  let cfg := Settings.retrieval settings in
  let payload :=
    retrieve_payload settings query top_k use_rerank rerank_mode rerank_top_k in
  lookup (py "query") payload = Some (PStr query)
  /\ lookup (py "k") payload
     = Some (PInt (match top_k with
                   | Some k => k
                   | None => RetrievalConfig.top_k cfg
                   end))
  /\ lookup (py "use_rerank") payload
     = Some (PBool (match use_rerank with
                    | Some b => b
                    | None => RetrievalConfig.use_rerank cfg
                    end))
  /\ lookup (py "rerank_mode") payload
     = Some (PStr (match rerank_mode with
                   | Some m => m
                   | None => RetrievalConfig.rerank_mode cfg
                   end)).
Proof.
  intros Hv Ht Hm cfg payload. subst payload cfg.
  destruct (effective_top_k_valid settings top_k Hv Ht) as [Hk _].
  destruct Hv as (_ & _ & Hc & _).
  unfold retrieve_payload.
  split; [reflexivity|].
  split; [change (lookup (py "k") _)
            with (Some (PInt (effective_top_k settings top_k)));
          now rewrite Hk|].
  split; [now destruct use_rerank|].
  change (lookup (py "rerank_mode") _)
    with (Some (RetrievedDocument.opt_str
                  (effective_rerank_mode settings rerank_mode))).
  unfold effective_rerank_mode.
  destruct Hm as [-> | [-> | ->]].
  - simpl nonempty. cbv iota. destruct Hc as [-> | ->]; reflexivity.
  - reflexivity.
  - reflexivity.
Qed.

Lemma retrieve_payload_overrides_witness :
  let payload :=
    retrieve_payload get_settings (py "tofu") (Some 8%Z) (Some false)
      (Some (py "bi")) None in
  lookup (py "k") payload = Some (PInt 8)
  /\ lookup (py "use_rerank") payload = Some (PBool false)
  /\ lookup (py "rerank_mode") payload = Some (PStr (py "bi"))
  /\ lookup (py "rerank_top_k") payload = None.
Proof.
  intros payload.
  destruct (retrieve_payload_overrides get_settings (py "tofu") (Some 8%Z)
              (Some false) (Some (py "bi")) None)
    as (_ & Hk & Hu & Hm).
  - vm_compute. repeat split; try discriminate; auto.
  - simpl. lia.
  - right. right. reflexivity.
  - split; [exact Hk|]. split; [exact Hu|]. split; [exact Hm|reflexivity].
Defined.
